(** * Vortex: configuration cascade, request pipeline and cache

    A shallow embedding of the request engine of [@vorthain/vortex]
    ([src/requestBuilder.js], [src/cache.js], [src/error.js]) together with
    the properties its specification states about it.

    JavaScript values are an inductive type [JsVal]; objects used as
    dictionaries (configuration levels, headers, path and query parameters)
    are finite maps from property names to values; the [Map] of the built-in
    cache keeps insertion order and is therefore an association list.
    Asynchronous code is run sequentially: the scheduler is single-threaded
    and every claim below concerns one logical request. *)

From Stdlib Require Import ZArith String List Bool Lia DecimalString.
From stdpp Require Import gmap strings list fin_maps.

Set Warnings "-register-all".
Import Ascii.AsciiSyntax.
Delimit Scope char_scope with char.
Open Scope string_scope.
Open Scope Z_scope.

(* ===================================================================== *)
(** ** JavaScript values *)
(* ===================================================================== *)

(** [VortexError.TYPES]. *)
Inductive ErrorType : Type :=
| HTTP | NETWORK | ABORT | CONFIG | TIMEOUT | PARSE | CACHE | VALIDATION.

(** Values.  Numbers are the integers (which a double holds exactly up to
    2^53) and [NaN].  A string is the
    sequence of its code units, one character here for each, so the code
    units are below 256.  A function is a reference:
    either a function supplied by the caller ([FUser], interpreted by an
    environment), or one of the closures the library itself creates.
    [VError] is a plain [Error] (name, message); [VVortexError] is an instance
    of the library's error class (its [timestamp] and stack are omitted);
    [VHost] is an opaque host object (abort signal, cache instance). *)
Inductive JsVal : Type :=
| VUndefined
| VNull
| VBool (b : bool)
| VNum (z : Z)
| VNaN
| VStr (s : string)
| VArr (xs : list JsVal)
| VObj (props : gmap string JsVal)
| VFun (f : FunRef)
| VHost (name : string)
| VError (name message : string)
| VVortexError (type : ErrorType) (message : string) (status : JsVal)
               (responseBody : JsVal) (requestConfig : JsVal)
               (originalError : JsVal) (metadata : JsVal)
with FunRef : Type :=
| FUser (id : nat)
| FDefaultValidateStatus
| FManualValidateStatus (originalValidateStatus : JsVal).

(** The outcome of running a piece of synchronous code. *)
Inductive Completion (A : Type) : Type :=
| Normal (a : A)
| Throw (e : JsVal).
Arguments Normal {A} a.
Arguments Throw {A} e.

Module Js.

(** [ToBoolean]. *)
Definition truthy (v : JsVal) : bool :=
  match v with
  | VUndefined | VNull => false
  | VBool b => b
  | VNum z => negb (z =? 0)
  | VNaN => false
  | VStr s => negb (String.eqb s "")
  | _ => true
  end.

(** [a || b]. *)
Definition or (a b : JsVal) : JsVal := if truthy a then a else b.

(** [a ?? b]. *)
Definition nullish (v : JsVal) : bool :=
  match v with VUndefined | VNull => true | _ => false end.
Definition coalesce (a b : JsVal) : JsVal := if nullish a then b else a.

(** [typeof v]. *)
Definition typeof (v : JsVal) : string :=
  match v with
  | VUndefined => "undefined"
  | VBool _ => "boolean"
  | VNum _ | VNaN => "number"
  | VStr _ => "string"
  | VFun _ => "function"
  | _ => "object"
  end.

Definition isArray (v : JsVal) : bool :=
  match v with VArr _ => true | _ => false end.

Definition isFunction (v : JsVal) : bool :=
  match v with VFun _ => true | _ => false end.

(** [v instanceof VortexError]. *)
Definition isVortexError (v : JsVal) : bool :=
  match v with VVortexError _ _ _ _ _ _ _ => true | _ => false end.

(** [v === undefined], [v === null], [v === false], [v === true]. *)
Definition isUndefined (v : JsVal) : bool :=
  match v with VUndefined => true | _ => false end.
Definition isNull (v : JsVal) : bool :=
  match v with VNull => true | _ => false end.
Definition isFalse (v : JsVal) : bool :=
  match v with VBool false => true | _ => false end.
Definition isTrue (v : JsVal) : bool :=
  match v with VBool true => true | _ => false end.

(** [v === 'literal']. *)
Definition isStr (lit : string) (v : JsVal) : bool :=
  match v with VStr s => String.eqb s lit | _ => false end.

(** [o.k] and [o?.k]: reading a property.  Reading from [undefined] or
    [null] is only done through [?.] or after a guard in the modelled
    code, so it yields [undefined] here; other non-objects have none of the
    properties that are read. *)
Definition get (o : JsVal) (k : string) : JsVal :=
  match o with
  | VObj props => default VUndefined (props !! k)
  | _ => VUndefined
  end.

(** The values of [VortexError.TYPES]. *)
Definition typeName (type : ErrorType) : string :=
match type with
| HTTP => "HTTP_ERROR"
| NETWORK => "NETWORK_ERROR"
| ABORT => "ABORT_ERROR"
| CONFIG => "CONFIG_ERROR"
| TIMEOUT => "TIMEOUT_ERROR"
| PARSE => "PARSE_ERROR"
| CACHE => "CACHE_ERROR"
| VALIDATION => "VALIDATION_ERROR"
end.

(** Index keys ["0"], ["1"], ... *)
Definition indexKey (n : nat) : string := NilZero.string_of_uint (Nat.to_uint n).

Fixpoint indexed (n : nat) (xs : list JsVal) : gmap string JsVal :=
match xs with
| [] => ∅
| x :: xs' => <[indexKey n := x]> (indexed (S n) xs')
end.

Fixpoint chars (s : string) : list JsVal :=
match s with
| EmptyString => []
| String c s' => VStr (String c EmptyString) :: chars s'
end.

(** The own enumerable properties copied by an object spread [...v]:
    the properties of an object, the elements of an array and the characters
    of a string by index, the fields the error class assigns in its
    constructor.  [undefined], [null], numbers, booleans, functions, plain
    [Error]s and host objects contribute nothing. *)
Definition ownProps (v : JsVal) : gmap string JsVal :=
match v with
| VObj props => props
| VArr xs => indexed 0 xs
| VStr s => indexed 0 (chars s)
| VVortexError type message status responseBody requestConfig originalError
               metadata =>
    <["name" := VStr "VortexError"]>
      (<["type" := VStr (typeName type)]>
       (<["status" := status]>
        (<["responseBody" := responseBody]>
         (<["requestConfig" := requestConfig]>
          (<["originalError" := originalError]>
           (<["metadata" := metadata]> ∅))))))
| _ => ∅
end.

(** [{ ...a, ...b }] on property maps: later sources win. *)
Definition spread (a b : gmap string JsVal) : gmap string JsVal := b ∪ a.

(** [Error.prototype.toString] *)
Definition errorText (name message : string) : string :=
  if String.eqb name "" then message
  else if String.eqb message "" then name
  else name ++ ": " ++ message.

(** [String(v)], which is also the text a template literal gives for
    [${v}].  An array is its elements joined by commas, [undefined] and
    [null] elements giving nothing; an error is its name and message; a
    plain object reads [[object Object]].  (The source text of a function and
    the class tag of a host object are not modelled: both read as a plain
    object does.) *)
Fixpoint toText (v : JsVal) : string :=
  match v with
  | VStr s => s
  | VUndefined => "undefined"
  | VNull => "null"
  | VBool true => "true"
  | VBool false => "false"
  | VNum z => NilZero.string_of_int (Z.to_int z)
  | VNaN => "NaN"
  | VArr xs =>
      (fix join (xs : list JsVal) : string :=
         match xs with
         | [] => ""
         | x :: rest =>
             match x with VUndefined | VNull => "" | _ => toText x end ++
             match rest with [] => "" | _ :: _ => "," ++ join rest end
         end) xs
  | VError name message => errorText name message
  | VVortexError _ message _ _ _ _ _ => errorText "VortexError" message
  | _ => "[object Object]"
  end.

(** The [TypeError] raised by reading property [k] of [undefined] or
    [null] (the wording is V8's). *)
Definition cannotRead (v : JsVal) (k : string) : JsVal :=
  VError "TypeError"
         ("Cannot read properties of " ++ toText v ++ " (reading '" ++ k ++ "')").

(** [ToPrimitive]: an object is known by its text. *)
Definition toPrimitive (v : JsVal) : JsVal :=
  match v with
  | VArr _ | VObj _ | VFun _ | VHost _ | VError _ _
  | VVortexError _ _ _ _ _ _ _ => VStr (toText v)
  | _ => v
  end.

(** [StringToNumber]: white space around the literal is dropped; an empty
    literal is 0; a decimal literal may carry a sign, a hexadecimal, octal or
    binary one may not.  Numbers here are the integers, so a literal with a
    fraction or an exponent and [Infinity] are not read: they give [NaN]. *)
Definition isSpace (c : Ascii.ascii) : bool :=
  let n := Ascii.nat_of_ascii c in
  (((9 <=? n) && (n <=? 13)) || (n =? 32) || (n =? 160))%nat.

Fixpoint trimStart (s : string) : string :=
  match s with
  | EmptyString => EmptyString
  | String c s' => if isSpace c then trimStart s' else s
  end.

Fixpoint trimEnd (s : string) : string :=
  match s with
  | EmptyString => EmptyString
  | String c s' =>
      match trimEnd s' with
      | EmptyString => if isSpace c then EmptyString else String c EmptyString
      | t => String c t
      end
  end.

Definition digitOf (radix : Z) (c : Ascii.ascii) : option Z :=
  let n := Z.of_nat (Ascii.nat_of_ascii c) in
  let d := if (48 <=? n) && (n <=? 57) then n - 48
           else if (97 <=? n) && (n <=? 122) then n - 87
           else if (65 <=? n) && (n <=? 90) then n - 55
           else 36 in
  if d <? radix then Some d else None.

Fixpoint digitsIn (radix : Z) (s : string) (acc : Z) : option Z :=
  match s with
  | EmptyString => Some acc
  | String c s' =>
      match digitOf radix c with
      | Some d => digitsIn radix s' (acc * radix + d)
      | None => None
      end
  end.

Definition natural (radix : Z) (s : string) : option Z :=
  match s with
  | EmptyString => None
  | _ => digitsIn radix s 0
  end.

Definition stringToNumber (s : string) : option Z :=
  match trimEnd (trimStart s) with
  | EmptyString => Some 0
  | String "+"%char t => natural 10 t
  | String "-"%char t => option_map Z.opp (natural 10 t)
  | String "0"%char (String x t) as literal =>
      if Ascii.eqb x "x"%char || Ascii.eqb x "X"%char then natural 16 t
      else if Ascii.eqb x "o"%char || Ascii.eqb x "O"%char then natural 8 t
      else if Ascii.eqb x "b"%char || Ascii.eqb x "B"%char then natural 2 t
      else natural 10 literal
  | literal => natural 10 literal
  end.

(** [ToNumber] ([None] is [NaN]). *)
Definition toNumber (v : JsVal) : option Z :=
  match toPrimitive v with
  | VNum z => Some z
  | VNull => Some 0
  | VBool b => Some (if b then 1 else 0)
  | VStr s => stringToNumber s
  | _ => None
  end.

(** [a >= b]: two strings are compared by their code units, anything else
    as numbers; a comparison with [NaN] is false. *)
Definition ge (a b : JsVal) : bool :=
  match toPrimitive a, toPrimitive b with
  | VStr x, VStr y => String.leb y x
  | _, _ =>
      match toNumber a, toNumber b with
      | Some x, Some y => y <=? x
      | _, _ => false
      end
  end.

(** [a + b]: concatenation as soon as one side is a string, addition of
    numbers otherwise. *)
Definition add (a b : JsVal) : JsVal :=
  match toPrimitive a, toPrimitive b with
  | VStr x, y => VStr (x ++ toText y)
  | x, VStr y => VStr (toText x ++ y)
  | _, _ =>
      match toNumber a, toNumber b with
      | Some x, Some y => VNum (x + y)
      | _, _ => VNaN
      end
  end.

(** [a + 1] *)
Definition succ (a : JsVal) : JsVal := add a (VNum 1).

(** [lo <= status && status < hi] for a status code. *)
Definition inRange (lo hi : Z) (status : JsVal) : bool :=
  match toNumber status with
  | Some s => (lo <=? s) && (s <? hi)
  | None => false
  end.

(** [s.includes(sub)] *)
Fixpoint includes (s sub : string) : bool :=
  if String.prefix sub s then true
  else match s with
       | EmptyString => false
       | String _ s' => includes s' sub
       end.

(** [toUpperCase] and [toLowerCase] on ASCII text (method names, header
    names); a code unit above 127 is left as it is. *)
Definition upperChar (c : Ascii.ascii) : Ascii.ascii :=
  let n := Ascii.nat_of_ascii c in
  if ((97 <=? n) && (n <=? 122))%nat then Ascii.ascii_of_nat (n - 32) else c.
Definition lowerChar (c : Ascii.ascii) : Ascii.ascii :=
  let n := Ascii.nat_of_ascii c in
  if ((65 <=? n) && (n <=? 90))%nat then Ascii.ascii_of_nat (n + 32) else c.
Fixpoint mapChars (f : Ascii.ascii -> Ascii.ascii) (s : string) : string :=
  match s with
  | EmptyString => EmptyString
  | String c s' => String (f c) (mapChars f s')
  end.
Definition toUpperCase := mapChars upperChar.
Definition toLowerCase := mapChars lowerChar.

(** The text a template literal gives for [${v.message}]. *)
Definition messageOf (v : JsVal) : JsVal :=
  match v with
  | VError _ m => VStr m
  | VVortexError _ m _ _ _ _ _ => VStr m
  | VObj props => default VUndefined (props !! "message")
  | _ => VUndefined
  end.
Definition nameOf (v : JsVal) : JsVal :=
  match v with
  | VError n _ => VStr n
  | VVortexError _ _ _ _ _ _ _ => VStr "VortexError"
  | VObj props => default VUndefined (props !! "name")
  | _ => VUndefined
  end.
(** [ToInt32]: the 32-bit two's-complement reading of an integral number. *)
Definition toInt32 (z : Z) : Z :=
  (z + 2147483648) mod 4294967296 - 2147483648.

(** [a << n] and [a & b]: both operands go through [ToInt32], the shift
    count is taken modulo 32, and the result is a 32-bit integer. *)
Definition shl (a n : Z) : Z := toInt32 (Z.shiftl (toInt32 a) (n mod 32)).
Definition and32 (a b : Z) : Z := toInt32 (Z.land (toInt32 a) (toInt32 b)).

(** [str.charCodeAt(i)] for every [i]: the code units of the string. *)
Definition charCodes (s : string) : list Z :=
  map (fun c => Z.of_nat (Ascii.nat_of_ascii c)) (list_ascii_of_string s).

(** [n.toString(36)] for an integer [n >= 0]. *)
Definition digit36 (d : Z) : Ascii.ascii :=
  if d <? 10 then Ascii.ascii_of_nat (Z.to_nat (48 + d))
  else Ascii.ascii_of_nat (Z.to_nat (87 + d)).

Fixpoint digits36 (fuel : nat) (n : Z) (acc : string) : string :=
  match fuel with
  | O => acc
  | S fuel' =>
      let acc' := String (digit36 (n mod 36)) acc in
      if n / 36 =? 0 then acc' else digits36 fuel' (n / 36) acc'
  end.

Definition toString36 (n : Z) : string :=
  digits36 (S (Z.to_nat (Z.log2 n))) n EmptyString.

(** [parseInt(s, 36)] on a string of digits [0-9a-z]; [None] is [NaN]. *)
Definition digitValue36 (c : Ascii.ascii) : option Z :=
  let n := Z.of_nat (Ascii.nat_of_ascii c) in
  if (48 <=? n) && (n <=? 57) then Some (n - 48)
  else if (97 <=? n) && (n <=? 122) then Some (n - 87)
  else None.

Fixpoint parseDigits36 (s : string) (acc : Z) : option Z :=
  match s with
  | EmptyString => Some acc
  | String c s' =>
      match digitValue36 c with
      | Some d => parseDigits36 s' (acc * 36 + d)
      | None => None
      end
  end.

Definition parseInt36 (s : string) : option Z :=
  match s with
  | EmptyString => None
  | _ => parseDigits36 s 0
  end.

End Js.

(* ===================================================================== *)
(** ** The built-in cache ([src/cache.js]) *)
(* ===================================================================== *)

Module SimpleCache.

(** [CacheEntry]. *)
Record CacheEntry : Type := {
  data : JsVal;
  expiry : Z;
  createdAt : Z;
  etag : JsVal;
  metadata : JsVal
}.

Record Statistics : Type := {
  hits : Z;
  misses : Z;
  sets : Z;
  deletes : Z;
  evictions : Z
}.

Inductive Stat : Type := Hits | Misses | Sets | Deletes | Evictions.

(** The instance: [this.cache] is a [Map], iterated in insertion order. *)
Record t : Type := {
  cache : list (string * CacheEntry);
  maxSize : Z;
  enableStats : bool;
  statistics : Statistics
}.

(** *** The [Map] primitives *)

Fixpoint map_get (m : list (string * CacheEntry)) (key : string)
  : option CacheEntry :=
  match m with
  | [] => None
  | (k, e) :: m' => if String.eqb k key then Some e else map_get m' key
  end.

Definition map_has (m : list (string * CacheEntry)) (key : string) : bool :=
  match map_get m key with Some _ => true | None => false end.

(** [Map.prototype.set]: an existing key keeps its position. *)
Fixpoint map_set (m : list (string * CacheEntry)) (key : string)
         (e : CacheEntry) : list (string * CacheEntry) :=
  match m with
  | [] => [(key, e)]
  | (k, e') :: m' =>
      if String.eqb k key then (k, e) :: m' else (k, e') :: map_set m' key e
  end.

Fixpoint map_delete (m : list (string * CacheEntry)) (key : string)
  : list (string * CacheEntry) :=
  match m with
  | [] => []
  | (k, e) :: m' =>
      if String.eqb k key then m' else (k, e) :: map_delete m' key
  end.

Definition map_size (m : list (string * CacheEntry)) : Z :=
  Z.of_nat (length m).

(** [this.cache.keys().next().value] *)
Definition map_first_key (m : list (string * CacheEntry)) : option string :=
  match m with
  | [] => None
  | (k, _) :: _ => Some k
  end.

Definition keys (m : list (string * CacheEntry)) : list string := map fst m.

(** *** Methods *)

Definition bump (s : Stat) (st : Statistics) : Statistics :=
  match s with
  | Hits => {| hits := hits st + 1; misses := misses st; sets := sets st;
               deletes := deletes st; evictions := evictions st |}
  | Misses => {| hits := hits st; misses := misses st + 1; sets := sets st;
                 deletes := deletes st; evictions := evictions st |}
  | Sets => {| hits := hits st; misses := misses st; sets := sets st + 1;
               deletes := deletes st; evictions := evictions st |}
  | Deletes => {| hits := hits st; misses := misses st; sets := sets st;
                  deletes := deletes st + 1; evictions := evictions st |}
  | Evictions => {| hits := hits st; misses := misses st; sets := sets st;
                    deletes := deletes st; evictions := evictions st + 1 |}
  end.

Definition with_cache (c : t) (m : list (string * CacheEntry)) : t :=
  {| cache := m; maxSize := maxSize c; enableStats := enableStats c;
     statistics := statistics c |}.

Definition _incrementStat (stat : Stat) (c : t) : t :=
  if enableStats c
  then {| cache := cache c; maxSize := maxSize c;
          enableStats := enableStats c;
          statistics := bump stat (statistics c) |}
  else c.

(** [get(key)] at time [now = Date.now()]. *)
Definition get (key : string) (now : Z) (c : t) : JsVal * t :=
  match map_get (cache c) key with
  | None => (VNull, _incrementStat Misses c)
  | Some entry =>
      if expiry entry <? now
      then (VNull,
            _incrementStat Misses (with_cache c (map_delete (cache c) key)))
      else (data entry, _incrementStat Hits c)
  end.

Definition _evictOldest (c : t) : t :=
  match map_first_key (cache c) with
  | Some firstKey =>
      _incrementStat Evictions
        (with_cache c (map_delete (cache c) firstKey))
  | None => c
  end.

(** [set(key, data, ttl, options)] at time [now]. *)
Definition set (key : string) (data : JsVal) (ttl : Z)
           (etag metadata : JsVal) (now : Z) (c : t) : t :=
  let entry := {| data := data; expiry := now + ttl; createdAt := now;
                  etag := etag; metadata := metadata |} in
  let c1 :=
    if (maxSize c <=? map_size (cache c)) && negb (map_has (cache c) key)
    then _evictOldest c
    else c in
  _incrementStat Sets (with_cache c1 (map_set (cache c1) key entry)).

Definition delete (key : string) (c : t) : bool * t :=
  let existed := map_has (cache c) key in
  let c1 := with_cache c (map_delete (cache c) key) in
  (existed, if existed then _incrementStat Deletes c1 else c1).

(** [has(key)] at time [now]. *)
Definition has (key : string) (now : Z) (c : t) : bool * t :=
  match map_get (cache c) key with
  | None => (false, c)
  | Some entry =>
      if expiry entry <? now
      then (false, with_cache c (map_delete (cache c) key))
      else (true, c)
  end.

Definition clear (c : t) : t :=
  {| cache := []; maxSize := maxSize c; enableStats := enableStats c;
     statistics :=
       if enableStats c
       then {| hits := 0; misses := 0; sets := sets (statistics c);
               deletes := deletes (statistics c);
               evictions := evictions (statistics c) |}
       else statistics c |}.

(** [_cleanup()]: drops every expired entry, returns how many. *)
Definition _cleanup (now : Z) (c : t) : Z * t :=
  let kept := List.filter (fun ke => negb (expiry (snd ke) <? now)) (cache c) in
  (map_size (cache c) - map_size kept, with_cache c kept).

(** [new SimpleCache({ maxSize, enableStats })] *)
Definition new (maxSize : Z) (enableStats : bool) : t :=
  {| cache := []; maxSize := maxSize; enableStats := enableStats;
     statistics := {| hits := 0; misses := 0; sets := 0; deletes := 0;
                      evictions := 0 |} |}.

End SimpleCache.

(* ===================================================================== *)
(** ** The error class ([src/error.js]) *)
(* ===================================================================== *)

Module VortexError.

(** [new VortexError({ message, type, ... })] with the constructor's
    defaults for the fields that are left out. *)
Definition new (message : string) (type : ErrorType) : JsVal :=
  VVortexError type message VNull VNull (VObj ∅) VNull (VObj ∅).

Definition typeOf (e : JsVal) : option ErrorType :=
  match e with
  | VVortexError ty _ _ _ _ _ _ => Some ty
  | _ => None
  end.

Definition statusOf (e : JsVal) : JsVal :=
  match e with
  | VVortexError _ _ st _ _ _ _ => st
  | _ => VUndefined
  end.

Definition eqType (a b : ErrorType) : bool :=
  match a, b with
  | HTTP, HTTP | NETWORK, NETWORK | ABORT, ABORT | CONFIG, CONFIG
  | TIMEOUT, TIMEOUT | PARSE, PARSE | CACHE, CACHE
  | VALIDATION, VALIDATION => true
  | _, _ => false
  end.

Definition isType (e : JsVal) (type : ErrorType) : bool :=
  match typeOf e with Some ty => eqType ty type | None => false end.

Definition hasStatus (e : JsVal) (status : Z) : bool :=
  isType e HTTP &&
  match statusOf e with VNum s => s =? status | _ => false end.

Definition isClientError (e : JsVal) : bool :=
  isType e HTTP && Js.inRange 400 500 (statusOf e).

Definition isServerError (e : JsVal) : bool :=
  isType e HTTP && Js.inRange 500 600 (statusOf e).

(** [VortexError.fromError(error, type, requestConfig)].  Reading [name]
    of [undefined] or [null] raises a [TypeError], and so does calling
    [includes] on a message that is neither a string nor an array.  (An
    object message has no [includes] method of its own here.) *)
Definition fromError (error : JsVal) (type : ErrorType)
           (requestConfig : JsVal) : Completion JsVal :=
  if Js.isVortexError error then Normal error
  else if Js.nullish error
  then Throw (Js.cannotRead error "name")
  else
    let message := Js.messageOf error in
    let text := fun fallback =>
      if Js.truthy message then Js.toText message else fallback in
    let timeout :=
      Normal (VVortexError TIMEOUT (text "Request timed out") VNull VNull
                           requestConfig error (VObj ∅)) in
    let other :=
      Normal (VVortexError type (text "An unknown error occurred") VNull VNull
                           requestConfig error (VObj ∅)) in
    if Js.isStr "AbortError" (Js.nameOf error)
    then Normal (VVortexError ABORT (text "Request was cancelled") VNull VNull
                              requestConfig error (VObj ∅))
    else if Js.isStr "TimeoutError" (Js.nameOf error)
    then timeout
    else match message with
         | VStr m => if Js.includes m "timeout" then timeout else other
         | VArr xs => if existsb (Js.isStr "timeout") xs then timeout else other
         | VUndefined | VNull => Throw (Js.cannotRead message "includes")
         | _ => Throw (VError "TypeError"
                              "error.message.includes is not a function")
         end.

End VortexError.

(* ===================================================================== *)
(** ** The cache interface *)
(* ===================================================================== *)

(** [CacheInterface]: what the request engine asks of a cache instance.  The
    methods are asynchronous and may reject; [now] is [Date.now()] at the
    time of the call. *)
Class CacheInterface (C : Type) : Type := {
  cache_get : string -> Z -> C -> Completion JsVal * C;
  cache_set : string -> JsVal -> JsVal -> Z -> C -> Completion unit * C;
  cache_delete : string -> C -> Completion bool * C;
  cache_has : string -> Z -> C -> Completion bool * C;
  cache_clear : C -> Completion unit * C
}.

(** The built-in cache.  The engine passes the resolved [cache.ttl], a
    number by its documentation, and the built-in cache computes the expiry
    [Date.now() + ttl].  A [ttl] of another type gives the expiry that sum
    reads as when it is compared with a time.  Where that is [NaN] the entry
    would never expire: an expiry here is a number, so this instance cannot
    hold such an entry and stores nothing. *)
#[export] Instance SimpleCache_interface : CacheInterface SimpleCache.t := {
  cache_get key now c :=
    let (v, c') := SimpleCache.get key now c in (Normal v, c');
  cache_set key data ttl now c :=
    match ttl with
    | VNum z => (Normal tt, SimpleCache.set key data z VUndefined VUndefined now c)
    | _ =>
        match Js.toNumber (Js.add (VNum now) ttl) with
        | Some expiry =>
            (Normal tt,
             SimpleCache.set key data (expiry - now) VUndefined VUndefined
                             now c)
        | None => (Normal tt, c)
        end
    end;
  cache_delete key c :=
    let (b, c') := SimpleCache.delete key c in (Normal b, c');
  cache_has key now c :=
    let (b, c') := SimpleCache.has key now c in (Normal b, c');
  cache_clear c := (Normal tt, SimpleCache.clear c)
}.

(** [NoOpCache]. *)
Inductive NoOpCache : Type := NoOp.

#[export] Instance NoOpCache_interface : CacheInterface NoOpCache := {
  cache_get _ _ c := (Normal VNull, c);
  cache_set _ _ _ _ c := (Normal tt, c);
  cache_delete _ c := (Normal false, c);
  cache_has _ _ c := (Normal false, c);
  cache_clear c := (Normal tt, c)
}.

(* ===================================================================== *)
(** ** The request builder ([src/requestBuilder.js]) *)
(* ===================================================================== *)

Module RequestBuilder.

(** [this.requestConfig] *)
Record RequestConfig : Type := {
  rc_pathParams : gmap string JsVal;
  rc_searchParams : gmap string JsVal;
  rc_body : JsVal;
  rc_settings : gmap string JsVal
}.

Record AbortController : Type := {
  aborted : bool;
  reason : JsVal
}.

(** The instance.  The three static levels are objects, and [null] once
    [_cleanup] has run; so is [requestConfig]. *)
Record t : Type := {
  httpMethod : string;
  endpointConfig : JsVal;
  methodConfig : JsVal;
  clientConfig : JsVal;
  clientInstance : JsVal;
  requestConfig : option RequestConfig;
  abortController : option AbortController
}.

(** [new RequestBuilder({ httpMethod, endpointConfig, clientInstance })],
    given [clientInstance.config]. *)
Definition new (method : string) (endpoint : JsVal) (config : JsVal) : t :=
  {| httpMethod := Js.toUpperCase method;
     endpointConfig := Js.or endpoint (VObj ∅);
     methodConfig :=
       Js.or (Js.get (Js.get endpoint "methods") (Js.toLowerCase method))
             (VObj ∅);
     clientConfig := Js.or config (VObj ∅);
     clientInstance := VHost "Vortex";
     requestConfig :=
       Some {| rc_pathParams := ∅; rc_searchParams := ∅; rc_body := VNull;
               rc_settings := ∅ |};
     abortController := Some {| aborted := false; reason := VUndefined |} |}.

Definition with_requestConfig (rb : t) (rc : option RequestConfig) : t :=
  {| httpMethod := httpMethod rb; endpointConfig := endpointConfig rb;
     methodConfig := methodConfig rb; clientConfig := clientConfig rb;
     clientInstance := clientInstance rb; requestConfig := rc;
     abortController := abortController rb |}.

(** *** The fluent mutators

    A mutator returns [this] or throws; either way the caller is left with
    the instance, which is the second component of the result. *)

Definition validationError (message : string) (provided : JsVal) : JsVal :=
  VVortexError VALIDATION message VNull VNull (VObj ∅) VNull
    (VObj (<["providedValue" := provided]>
           (<["expectedType" := VStr "object"]> ∅))).

Definition nullTypeError : JsVal :=
  VError "TypeError" "Cannot read properties of null".

Definition pathParams (params : JsVal) (rb : t) : Completion unit * t :=
  if negb (Js.isNull params) && negb (Js.isUndefined params) then
    if negb (String.eqb (Js.typeof params) "object") || Js.isArray params
    then (Throw (validationError "pathParams must be an object" params), rb)
    else match requestConfig rb with
         | None => (Throw nullTypeError, rb)
         | Some rc =>
             (Normal tt,
              with_requestConfig rb (Some
               {| rc_pathParams :=
                    Js.spread (rc_pathParams rc) (Js.ownProps params);
                  rc_searchParams := rc_searchParams rc;
                  rc_body := rc_body rc;
                  rc_settings := rc_settings rc |}))
         end
  else (Normal tt, rb).

Definition search (params : JsVal) (rb : t) : Completion unit * t :=
  if negb (Js.isNull params) && negb (Js.isUndefined params) then
    if negb (String.eqb (Js.typeof params) "object") || Js.isArray params
    then (Throw (validationError "search params must be an object" params),
          rb)
    else match requestConfig rb with
         | None => (Throw nullTypeError, rb)
         | Some rc =>
             (Normal tt,
              with_requestConfig rb (Some
               {| rc_pathParams := rc_pathParams rc;
                  rc_searchParams :=
                    Js.spread (rc_searchParams rc) (Js.ownProps params);
                  rc_body := rc_body rc;
                  rc_settings := rc_settings rc |}))
         end
  else (Normal tt, rb).

Definition body (data : JsVal) (rb : t) : Completion unit * t :=
  match requestConfig rb with
  | None => (Throw nullTypeError, rb)
  | Some rc =>
      (Normal tt,
       with_requestConfig rb (Some
        {| rc_pathParams := rc_pathParams rc;
           rc_searchParams := rc_searchParams rc;
           rc_body := data;
           rc_settings := rc_settings rc |}))
  end.

Definition settings (settings : JsVal) (rb : t) : Completion unit * t :=
  if negb (Js.isNull settings) && negb (Js.isUndefined settings) then
    if negb (String.eqb (Js.typeof settings) "object") || Js.isArray settings
    then (Throw (validationError "settings must be an object" settings), rb)
    else match requestConfig rb with
         | None => (Throw nullTypeError, rb)
         | Some rc =>
             (Normal tt,
              with_requestConfig rb (Some
               {| rc_pathParams := rc_pathParams rc;
                  rc_searchParams := rc_searchParams rc;
                  rc_body := rc_body rc;
                  rc_settings :=
                    Js.spread (rc_settings rc) (Js.ownProps settings) |}))
         end
  else (Normal tt, rb).

(** [_cleanup()] *)
Definition _cleanup (rb : t) : t :=
  {| httpMethod := httpMethod rb; endpointConfig := VNull;
     methodConfig := VNull; clientConfig := VNull; clientInstance := VNull;
     requestConfig := None; abortController := None |}.

(** *** The configuration cascade *)

(** [this.requestConfig?.settings] *)
Definition requestSettings (rb : t) : JsVal :=
  match requestConfig rb with
  | Some rc => VObj (rc_settings rc)
  | None => VUndefined
  end.

Definition defaultCache : gmap string JsVal :=
  <["enabled" := VBool false]>
    (<["strategy" := VStr "simple"]> (<["ttl" := VNum 60000]> ∅)).

Definition defaults : gmap string JsVal :=
  <["timeout" := VNum 30000]>
    (<["responseType" := VStr "json"]>
     (<["validateStatus" := VFun FDefaultValidateStatus]>
      (<["maxRetries" := VNum 10]>
       (<["redirect" := VStr "follow"]>
        (<["cache" := VObj defaultCache]>
         (<["headers" := VObj ∅]> ∅)))))).

(** [r.k || m.k || e.k || c.k || fallback] *)
Definition cascade (k : string) (r m e c fallback : JsVal) : JsVal :=
  Js.or (Js.get r k) (Js.or (Js.get m k) (Js.or (Js.get e k)
    (Js.or (Js.get c k) fallback))).

(** [{ ...(c.k || {}), ...(e.k || {}), ...(m.k || {}), ...(r.k || {}) }]
    on top of [base]. *)
Definition mergeNested (k : string) (base : gmap string JsVal)
           (c e m r : JsVal) : gmap string JsVal :=
  let level := fun l => Js.ownProps (Js.or (Js.get l k) (VObj ∅)) in
  Js.spread (Js.spread (Js.spread (Js.spread base (level c)) (level e))
                       (level m)) (level r).

(** The object literal of [_buildFinalConfig], before the redirect rule. *)
Definition mergedLiteral (rb : t) : gmap string JsVal :=
  let safeClientConfig := Js.or (clientConfig rb) (VObj ∅) in
  let safeEndpointConfig := Js.or (endpointConfig rb) (VObj ∅) in
  let safeMethodConfig := Js.or (methodConfig rb) (VObj ∅) in
  let safeRequestSettings := Js.or (requestSettings rb) (VObj ∅) in
  let spreadLevels :=
    Js.spread (Js.spread (Js.spread (Js.spread defaults
      (Js.ownProps safeClientConfig)) (Js.ownProps safeEndpointConfig))
      (Js.ownProps safeMethodConfig)) (Js.ownProps safeRequestSettings) in
  let cache :=
    mergeNested "cache"
      (<["instance" := Js.get (Js.get safeClientConfig "cache") "instance"]>
         defaultCache)
      safeClientConfig safeEndpointConfig safeMethodConfig
      safeRequestSettings in
  let headers :=
    mergeNested "headers" ∅ safeClientConfig safeEndpointConfig
      safeMethodConfig safeRequestSettings in
  <["maxRetries" :=
      cascade "maxRetries" safeRequestSettings safeMethodConfig
              safeEndpointConfig safeClientConfig (VNum 10)]>
    (<["redirect" :=
         cascade "redirect" safeRequestSettings safeMethodConfig
                 safeEndpointConfig safeClientConfig (VStr "follow")]>
       (<["signal" :=
            match abortController rb with
            | Some _ => VHost "AbortSignal"
            | None => VUndefined
            end]>
          (<["body" :=
               Js.coalesce
                 (match requestConfig rb with
                  | Some rc => rc_body rc
                  | None => VUndefined
                  end) VNull]>
             (<["searchParams" :=
                  match requestConfig rb with
                  | Some rc => VObj (rc_searchParams rc)
                  | None => VObj ∅
                  end]>
                (<["pathParams" :=
                     match requestConfig rb with
                     | Some rc => VObj (rc_pathParams rc)
                     | None => VObj ∅
                     end]>
                   (<["httpMethod" := VStr (httpMethod rb)]>
                      (<["headers" := VObj headers]>
                         (<["cache" := VObj cache]> spreadLevels)))))))).

(** [_buildFinalConfig()] *)
Definition _buildFinalConfig (rb : t) : JsVal :=
  let mergedConfig := mergedLiteral rb in
  if Js.isStr "manual" (Js.get (VObj mergedConfig) "redirect")
  then
    let originalValidateStatus :=
      Js.get (VObj mergedConfig) "validateStatus" in
    VObj (<["validateStatus" :=
             VFun (FManualValidateStatus originalValidateStatus)]>
            mergedConfig)
  else VObj mergedConfig.

(** [cancel(message)]: the first call records the reason; the signal of a
    builder that is already aborted, or cleaned up, is left as it is. *)
Definition cancel (message : JsVal) (rb : t) : t :=
match abortController rb with
| Some controller =>
    if aborted controller then rb
    else
      let text := if Js.isUndefined message
                  then "Request was cancelled by the user."
                  else Js.toText message in
      {| httpMethod := httpMethod rb; endpointConfig := endpointConfig rb;
         methodConfig := methodConfig rb; clientConfig := clientConfig rb;
         clientInstance := clientInstance rb; requestConfig := requestConfig rb;
         abortController :=
           Some {| aborted := true;
                   reason := VVortexError ABORT text VNull VNull
                               (_buildFinalConfig rb) VNull (VObj ∅) |} |}
| None => rb
end.

(** *** Mapper collection *)

(** The elements of [Array.isArray(m) ? m : [m]]. *)
Definition asArray (m : JsVal) : list JsVal :=
  match m with
  | VArr xs => xs
  | _ => [m]
  end.

(** One iteration of the loop over the levels. *)
Definition collectLevel (mapperType : string)
           (mappers : list (JsVal * string)) (level : JsVal * string)
  : list (JsVal * string) :=
  let (config, name) := level in
  if negb (Js.truthy config) then mappers
  else
    let mappers1 :=
      if Js.isFalse (Js.get config "inheritMappers")
         && (0 <? Z.of_nat (length mappers))
      then []
      else mappers in
    if Js.truthy (Js.get config mapperType)
    then mappers1 ++
         map (fun mapper => (mapper, name))
             (List.filter Js.isFunction (asArray (Js.get config mapperType)))
    else mappers1.

Definition levels (rb : t) : list (JsVal * string) :=
  [ (clientConfig rb, "client");
    (endpointConfig rb, "endpoint");
    (methodConfig rb, "method");
    (requestSettings rb, "request") ].

Definition _collectMappers (mapperType : string) (rb : t)
  : list (JsVal * string) :=
  fold_left (collectLevel mapperType) (levels rb) [].

Definition levelDisables (type : string) (level : JsVal) : bool :=
  Js.truthy level &&
  (Js.isTrue (Js.get level "disableMappers")
   || (String.eqb type "response"
       && Js.isTrue (Js.get level "disableResponseMapper"))
   || (String.eqb type "error"
       && Js.isTrue (Js.get level "disableErrorMapper"))).

Definition _areMappersDisabled (type : string) (rb : t) : bool :=
  existsb (levelDisables type)
          [ requestSettings rb; methodConfig rb; endpointConfig rb;
            clientConfig rb ].


(** *** The static registry of in-flight requests

    [RequestBuilder.inflightRequests] maps a key to a promise.  A promise is
    an object: it is known here by its identity, and [_timestamp] is a
    property of the promise itself, shared by every key it is stored under.
    [cleanupInterval] tells whether the sweep timer is set. *)
Module Static.

Record t : Type := {
  inflightRequests : gmap string nat;
  _timestamp : gmap nat Z;
  cleanupInterval : bool
}.

Definition maxInflightAge : Z := 5 * 60 * 1000.

Definition _initCleanup (s : t) : t :=
  if negb (cleanupInterval s)
  then {| inflightRequests := inflightRequests s;
          _timestamp := _timestamp s; cleanupInterval := true |}
  else s.

(** [promise && promise._timestamp &&
     now - promise._timestamp > RequestBuilder.maxInflightAge] *)
Definition isStale (now : Z) (s : t) (promise : nat) : bool :=
  match _timestamp s !! promise with
  | Some timestamp => negb (timestamp =? 0) && (maxInflightAge <? now - timestamp)
  | None => false
  end.

(** [_cleanupInflightRequests()] at time [now = Date.now()]. *)
Definition _cleanupInflightRequests (now : Z) (s : t) : t :=
  let keysToDelete :=
    map fst (List.filter (fun kp => isStale now s (snd kp))
                         (map_to_list (inflightRequests s))) in
  let remaining :=
    fold_left (fun m key => base.delete key m) keysToDelete
              (inflightRequests s) in
  {| inflightRequests := remaining;
     _timestamp := _timestamp s;
     cleanupInterval :=
       if (Z.of_nat (size remaining) =? 0) && cleanupInterval s
       then false else cleanupInterval s |}.

(** [_storeInflightRequest(key, promise)] at time [now]: what it does
    before it returns. *)
Definition _storeInflightRequest (key : string) (promise : nat) (now : Z)
           (s : t) : t :=
  _initCleanup
    {| inflightRequests := <[key := promise]> (inflightRequests s);
       _timestamp := <[promise := now]> (_timestamp s);
       cleanupInterval := cleanupInterval s |}.

(** The [finally] handler [_storeInflightRequest] attaches to the promise,
    run when the promise has settled. *)
Definition onSettled (key : string) (promise : nat) (s : t) : t :=
  if bool_decide (inflightRequests s !! key = Some promise)
  then {| inflightRequests := base.delete key (inflightRequests s);
          _timestamp := _timestamp s; cleanupInterval := cleanupInterval s |}
  else s.

(** [RequestBuilder.destroy()] *)
Definition destroy (s : t) : t :=
  {| inflightRequests := ∅; _timestamp := _timestamp s;
     cleanupInterval := false |}.

End Static.

(** *** Fingerprints and path templates *)

(** The loop of [_simpleHash], over the code units of the string. *)
Fixpoint hashLoop (hash : Z) (codes : list Z) : Z :=
  match codes with
  | [] => hash
  | char :: rest =>
      let hash := Js.shl hash 5 - hash + char in
      hashLoop (Js.and32 hash hash) rest
  end.

(** [_simpleHash(str)], for [str] given by its code units. *)
Definition _simpleHash (str : list Z) : string :=
  if Z.of_nat (length str) =? 0 then "0"
  else Js.toString36 (Z.abs (hashLoop 0 str)).

(** Whether a character is in the class [[^\/\?]]. *)
Definition paramChar (c : Ascii.ascii) : bool :=
  negb (Ascii.eqb c "/"%char) && negb (Ascii.eqb c "?"%char).

(** A match of [/:([^\/\?]+)/] needs one character of the class after the
    colon. *)
Definition closeMatch (current : option string) : list string :=
  match current with
  | Some m => if (1 <? String.length m)%nat then [m] else []
  | None => []
  end.

(** [path.match(/:([^\/\?]+)/g)]: the matches from left to right, each
    starting at a colon and taking as many characters of the class as
    follow.  [current] is the text of a match that has been entered. *)
Fixpoint matchParams (path : string) (current : option string)
  : list string :=
  match path with
  | EmptyString => closeMatch current
  | String c rest =>
      match current with
      | Some m =>
          if paramChar c
          then matchParams rest (Some (m ++ String c EmptyString))
          else closeMatch current ++ matchParams rest None
      | None =>
          if Ascii.eqb c ":"%char
          then matchParams rest (Some ":")
          else matchParams rest None
      end
  end.

(** [_extractPathParams(path)] *)
Definition _extractPathParams (path : string) : list string :=
  map (fun m => String.substring 1 (String.length m - 1) m)
      (matchParams path None).

(** *** The request fingerprint

    [_generateCacheKey] needs two things of the host: the URL
    [_buildRequestUrl] makes of a configuration (or the error it raises),
    and [JSON.stringify] (the text, [undefined], or the error it raises). *)
Module Fingerprint.

Section WithHost.

Variable _buildRequestUrl : JsVal -> Completion string.
Variable stringify : JsVal -> Completion JsVal.

Definition relevantHeaders : list string :=
  ["content-type"; "accept"; "authorization"].

(** [config.headers?.[header] || config.headers?.[header.toLowerCase()]] *)
Definition headerValue (config : JsVal) (header : string) : JsVal :=
  Js.or (Js.get (Js.get config "headers") header)
        (Js.get (Js.get config "headers") (Js.toLowerCase header)).

(** [Array.prototype.sort] without a comparator, on strings: ascending by
    code units. *)
Fixpoint insertSorted (x : string) (sorted : list string) : list string :=
  match sorted with
  | [] => [x]
  | y :: rest =>
      if String.leb x y then x :: y :: rest else y :: insertSorted x rest
  end.

Definition sort (xs : list string) : list string :=
  fold_right insertSorted [] xs.

Definition headerPairs (config : JsVal) : list string :=
  sort
    (map (fun header =>
            Js.toLowerCase header ++ ":" ++
            Js.toText (headerValue config header))
         (List.filter (fun header => Js.truthy (headerValue config header))
                      relevantHeaders)).

Definition methodsWithBody : list string := ["POST"; "PUT"; "PATCH"; "DELETE"].

(** The [try] block. *)
Definition primaryKey (config : JsVal) : Completion string :=
  match _buildRequestUrl config with
  | Throw error => Throw error
  | Normal url =>
      let cacheKey := Js.toText (Js.get config "httpMethod") ++ "::" ++ url in
      let cacheKey :=
        if (0 <? Z.of_nat (length (headerPairs config)))
        then cacheKey ++ "::headers:" ++ String.concat "|" (headerPairs config)
        else cacheKey in
      if Js.truthy (Js.get config "body")
         && existsb (fun method => Js.isStr method (Js.get config "httpMethod"))
                    methodsWithBody
      then
        match (if String.eqb (Js.typeof (Js.get config "body")) "string"
               then Normal (Js.get config "body")
               else stringify (Js.get config "body")) with
        | Throw error => Throw error
        | Normal (VStr bodyString) =>
            Normal (cacheKey ++ "::body:" ++
                    _simpleHash (Js.charCodes bodyString))
        | Normal _ =>
            Throw (Js.cannotRead VUndefined "length")
        end
      else Normal cacheKey
  end.

(** What [Array.prototype.join] makes of one element. *)
Definition joined (v : JsVal) : string :=
  if Js.nullish v then "" else Js.toText v.

(** The [catch] block, at time [now = Date.now()]. *)
Definition fallbackKey (now : Z) (config : JsVal) : Completion string :=
  match stringify (Js.or (Js.get config "pathParams") (VObj ∅)) with
  | Throw error => Throw error
  | Normal pathParams =>
      match stringify (Js.or (Js.get config "searchParams") (VObj ∅)) with
      | Throw error => Throw error
      | Normal searchParams =>
          Normal (String.concat "::"
                    (map joined
                         [Js.get config "httpMethod"; Js.get config "baseURL";
                          Js.get config "path"; pathParams; searchParams;
                          VNum now]))
      end
  end.

(** [_generateCacheKey(config)] *)
Definition _generateCacheKey (now : Z) (config : JsVal) : Completion string :=
  match primaryKey config with
  | Normal cacheKey => Normal cacheKey
  | Throw _ => fallbackKey now config
  end.

End WithHost.

End Fingerprint.


(** *** The world a request runs in *)

(** A promise of the in-flight registry, given by the way it settles. *)
Inductive Settled : Type :=
| Fulfilled (value : JsVal)
| Rejected (error : JsVal).

(** What an observer sees of a run, oldest first: calls of functions the
    caller supplied, invocations of the transport, console output. *)
Inductive Event : Type :=
| EvCall (f : JsVal) (args : list JsVal)
| EvFetch (config : JsVal)
| EvWarn (message : string)
| EvInfo (message : string).

(** A [fetch] response; [parsed ty] is what [_parseResponseBody(response,
    ty)] settles with. *)
Record Response : Type := {
  status : Z;
  statusText : string;
  url : string;
  headers : JsVal;
  parsed : JsVal -> Completion JsVal
}.

(** How a (possibly asynchronous) computation ends: with a value, with a
    thrown value, or not within the fuel it was given. *)
Inductive Result (A : Type) : Type :=
| Ok (a : A)
| Err (e : JsVal)
| OutOfFuel.
Arguments Ok {A} a.
Arguments Err {A} e.
Arguments OutOfFuel {A}.

Section Engine.

Context {C : Type} `{CacheInterface C}.

Record World : Type := {
  now : Z;
  cacheInstance : C;
  inflightRequests : gmap string Settled;
  trace : list Event
}.

(** The state threaded through a request: the builder and the world. *)
Record State : Type := {
  this : t;
  world : World
}.

Definition M (A : Type) : Type := State -> Result A * State.

Definition ret {A} (a : A) : M A := fun st => (Ok a, st).

Definition throw {A} (e : JsVal) : M A := fun st => (Err e, st).

Definition bind {A B} (m : M A) (k : A -> M B) : M B :=
  fun st =>
    match m st with
    | (Ok a, st') => k a st'
    | (Err e, st') => (Err e, st')
    | (OutOfFuel, st') => (OutOfFuel, st')
    end.

Local Notation "x <- m ; k" := (bind m (fun x => k))
  (at level 20, m at level 100, k at level 200, only parsing).

(** [try { body } catch (e) { handler e }] *)
Definition tryCatch {A} (body : M A) (handler : JsVal -> M A) : M A :=
  fun st =>
    match body st with
    | (Err e, st') => handler e st'
    | r => r
    end.

(** [try { body } finally { fin }], for a [fin] that does not throw. *)
Definition tryFinally {A} (body : M A) (fin : M unit) : M A :=
  fun st =>
    match body st with
    | (OutOfFuel, st') => (OutOfFuel, st')
    | (r, st') =>
        match fin st' with
        | (Ok _, st'') => (r, st'')
        | (Err e, st'') => (Err e, st'')
        | (OutOfFuel, st'') => (OutOfFuel, st'')
        end
    end.

Definition lift {A} (c : Completion A) : M A :=
  match c with
  | Normal a => ret a
  | Throw e => throw e
  end.

Definition getThis : M t := fun st => (Ok (this st), st).

Definition modifyThis (f : t -> t) : M unit :=
  fun st => (Ok tt, {| this := f (this st); world := world st |}).

Definition modifyWorld (f : World -> World) : M unit :=
  fun st => (Ok tt, {| this := this st; world := f (world st) |}).

Definition emit (ev : Event) : M unit :=
  modifyWorld (fun w =>
    {| now := now w; cacheInstance := cacheInstance w;
       inflightRequests := inflightRequests w;
       trace := trace w ++ [ev] |}).

Definition emitAll (evs : list Event) : M unit :=
  modifyWorld (fun w =>
    {| now := now w; cacheInstance := cacheInstance w;
       inflightRequests := inflightRequests w;
       trace := trace w ++ evs |}).

(** How many times the transport has been invoked. *)
Definition isFetch (ev : Event) : bool :=
  match ev with EvFetch _ => true | _ => false end.
Definition fetchCount (tr : list Event) : nat :=
  length (List.filter isFetch tr).

(** The functions the caller supplies, by reference, and the host.  [call]
    runs a synchronous function (a mapper, a status validator, a lifecycle
    callback, the request interceptor); [callErrorInterceptor] runs an error
    interceptor, which is handed the [retry] function;
    [callResponseInterceptor] runs a response interceptor ([None] when it
    returns [undefined] or [null] instead of a response).
    [_buildRequestUrl config] is the URL of the request, or the VALIDATION or
    CONFIG error its construction raises, and [urlWarnings config] is what it
    logs with [console.warn] on the way (one line for each path parameter the
    path does not name); [stringify] is [JSON.stringify]: the text, or
    [undefined] (values are finite trees of data, so it does not throw on
    them; a [toJSON] method is not modelled); [fetch n url config] is the
    transport behind the guard of [_executeFetchRequest]: what its [n+1]-th
    invocation settles with (a response, or what the guard throws, which is
    the classified error it makes of the failure), and after how many
    milliseconds. *)
Record Env : Type := {
  call : nat -> list JsVal -> Completion JsVal;
  callErrorInterceptor :
    nat -> JsVal -> JsVal -> (JsVal -> M JsVal) -> M JsVal;
  callResponseInterceptor :
    nat -> Response -> JsVal -> Completion (option Response);
  _buildRequestUrl : JsVal -> Completion string;
  urlWarnings : JsVal -> list string;
  stringify : JsVal -> JsVal;
  fetch : nat -> string -> JsVal -> Z * Completion Response
}.

Variable env : Env.

Definition notAFunction : JsVal := VError "TypeError" "is not a function".

(** [f(...args)] for a synchronous [f]. *)
Fixpoint callFun (f : JsVal) (args : list JsVal) {struct f}
  : Completion JsVal :=
  match f with
  | VFun r =>
      match r with
      | FUser id => call env id args
      | FDefaultValidateStatus =>
          Normal (VBool (Js.inRange 200 300 (nth 0 args VUndefined)))
      | FManualValidateStatus originalValidateStatus =>
          if Js.inRange 300 400 (nth 0 args VUndefined)
          then Normal (VBool true)
          else callFun originalValidateStatus [nth 0 args VUndefined]
      end
  | _ => Throw notAFunction
  end.

(** *** The mapper pipeline *)

(** The loop of [_applyResponseMappers] and [_applyErrorMappers]: the
    value after the stages, and what was observed on the way. *)
Fixpoint runMappers (label : string) (mappers : list (JsVal * string))
         (current : JsVal) : JsVal * list Event :=
  match mappers with
  | [] => (current, [])
  | (mapper, level) :: rest =>
      match callFun mapper [current] with
      | Normal result =>
          let (final, evs) :=
            runMappers label rest
              (if negb (Js.isUndefined result) then result else current) in
          (final, EvCall mapper [current] :: evs)
      | Throw error =>
          let (final, evs) := runMappers label rest current in
          (final,
           EvCall mapper [current]
           :: EvWarn (label ++ " mapper at " ++ level ++ " level failed:")
           :: evs)
      end
  end.

Definition _applyResponseMappers (data config : JsVal) : M JsVal :=
  rb <- getThis;
  if _areMappersDisabled "response" rb then ret data
  else
    let (final, evs) :=
      runMappers "Response" (_collectMappers "responseMapper" rb) data in
    _ <- emitAll evs; ret final.

Definition _applyErrorMappers (error config : JsVal) : M JsVal :=
  rb <- getThis;
  if _areMappersDisabled "error" rb then ret error
  else
    let (final, evs) :=
      runMappers "Error" (_collectMappers "errorMapper" rb) error in
    _ <- emitAll evs; ret final.

(** [if (typeof cb === 'function') { try { cb(...args) } catch (error) {
    console.warn(label + ' callback failed:', error) } }] *)
Definition runCallback (label : string) (cb : JsVal) (args : list JsVal)
  : M unit :=
  if Js.isFunction cb then
    _ <- emit (EvCall cb args);
    match callFun cb args with
    | Normal _ => ret tt
    | Throw _ => emit (EvWarn (label ++ " callback failed:"))
    end
  else ret tt.

(** *** One dispatch: [_executeFetch] *)

Definition setCache (w : World) (c : C) : World :=
  {| now := now w; cacheInstance := c;
     inflightRequests := inflightRequests w; trace := trace w |}.

(** [await config.cache.instance.get(cacheKey)] *)
Definition cacheGet (config : JsVal) (cacheKey : string) : M JsVal :=
  match Js.get (Js.get config "cache") "instance" with
  | VHost _ =>
      fun st =>
        let (r, c) :=
          cache_get cacheKey (now (world st))
                    (cacheInstance (world st)) in
        let st' := {| this := this st; world := setCache (world st) c |} in
        match r with
        | Normal v => (Ok v, st')
        | Throw e => (Err e, st')
        end
  | _ => throw (VError "TypeError" "Cannot read properties of undefined")
  end.

(** [await config.cache.instance.set(cacheKey, data, config.cache.ttl)] *)
Definition cacheSet (config : JsVal) (cacheKey : string) (data : JsVal)
  : M unit :=
  match Js.get (Js.get config "cache") "instance" with
  | VHost _ =>
      fun st =>
        let (r, c) :=
          cache_set cacheKey data (Js.get (Js.get config "cache") "ttl")
                    (now (world st)) (cacheInstance (world st)) in
        let st' := {| this := this st; world := setCache (world st) c |} in
        match r with
        | Normal v => (Ok v, st')
        | Throw e => (Err e, st')
        end
  | _ => throw (VError "TypeError" "Cannot read properties of undefined")
  end.

(** [this._buildRequestUrl(config)] as the engine calls it: what it logs is
    observed, then it returns the URL or throws. *)
Definition buildRequestUrl (config : JsVal) : M string :=
  _ <- emitAll (map EvWarn (urlWarnings env config));
  lift (_buildRequestUrl env config).

(** [this._generateCacheKey(config)]: the URL is built a first time for
    the fingerprint; the fallback key carries the time of the call. *)
Definition _generateCacheKey (config : JsVal) : M string :=
  _ <- emitAll (map EvWarn (urlWarnings env config));
  fun st =>
    lift (Fingerprint._generateCacheKey
            (_buildRequestUrl env) (fun v => Normal (stringify env v))
            (now (world st)) config) st.

(** [_executeFetchRequest(config)]: the URL is built, then the transport is
    invoked and time passes.  (Values here are finite trees, so serialising
    the body cannot fail; the timeout and abort signals are the
    transport's.) *)
Definition _executeFetchRequest (config : JsVal) : M Response :=
  url <- buildRequestUrl config;
  fun st =>
    let w := world st in
    let (elapsed, outcome) := fetch env (fetchCount (trace w)) url config in
    let w' := {| now := now w + elapsed; cacheInstance := cacheInstance w;
                 inflightRequests := inflightRequests w;
                 trace := trace w ++ [EvFetch config] |} in
    lift outcome {| this := this st; world := w' |}.

(** [VortexError.fromResponse(response, responseBody, requestConfig)] *)
Definition fromResponse (response : Response) (responseBody : JsVal)
           (requestConfig : JsVal) : JsVal :=
  VVortexError HTTP
    ("HTTP " ++ Js.toText (VNum (status response)) ++ ": " ++
     (if String.eqb (statusText response) "" then "Unknown Error"
      else statusText response))
    (VNum (status response)) responseBody requestConfig VNull
    (VObj (<["url" := VStr (url response)]>
           (<["headers" := headers response]> ∅))).

(** The request-interceptor step.  Its [catch] reads [error.message]: of
    a thrown [undefined] or [null] that raises a [TypeError], which leaves the
    step in place of the CONFIG error. *)
Definition applyRequestInterceptor (config : JsVal) : M JsVal :=
  if Js.isFunction (Js.get config "requestInterceptor") then
    tryCatch
      (let interceptorConfig :=
         VObj (<["url" := Js.add (Js.get config "baseURL")
                                 (Js.get config "path")]>
              (<["method" := Js.get config "httpMethod"]>
              (<["headers" := VObj (Js.ownProps (Js.get config "headers"))]>
              (<["body" := Js.get config "body"]>
              (<["timeout" := Js.get config "timeout"]>
              (<["responseType" := Js.get config "responseType"]>
              (<["pathParams" :=
                   VObj (Js.ownProps (Js.get config "pathParams"))]>
              (<["searchParams" :=
                   VObj (Js.ownProps (Js.get config "searchParams"))]>
              (<["_original" := config]> ∅))))))))) in
       _ <- emit (EvCall (Js.get config "requestInterceptor")
                         [interceptorConfig]);
       modifiedConfig <-
         lift (callFun (Js.get config "requestInterceptor")
                       [interceptorConfig]);
       if negb (Js.truthy modifiedConfig) then
         throw (VVortexError CONFIG
                  "Request interceptor must return a config object"
                  VNull VNull config VNull (VObj ∅))
       else
         match modifiedConfig with
         | VBool _ | VNum _ | VStr _ =>
             throw (VError "TypeError"
                           ("Cannot use 'in' operator to search for 'body' in "
                            ++ Js.toText modifiedConfig))
         | _ =>
             ret (VObj
               (<["searchParams" :=
                    Js.or (Js.get modifiedConfig "searchParams")
                          (Js.get config "searchParams")]>
               (<["pathParams" :=
                    Js.or (Js.get modifiedConfig "pathParams")
                          (Js.get config "pathParams")]>
               (<["timeout" :=
                    Js.or (Js.get modifiedConfig "timeout")
                          (Js.get config "timeout")]>
               (<["body" :=
                    match Js.ownProps modifiedConfig !! "body" with
                    | Some b => b
                    | None => Js.get config "body"
                    end]>
               (<["headers" :=
                    Js.or (Js.get modifiedConfig "headers")
                          (Js.get config "headers")]>
                  (Js.ownProps config)))))))
         end)
      (fun error =>
         if Js.isVortexError error then throw error
         else if Js.nullish error
         then throw (Js.cannotRead error "message")
         else throw (VVortexError CONFIG
                       ("Request interceptor failed: " ++
                        Js.toText (Js.messageOf error))
                       VNull VNull config error (VObj ∅)))
  else ret config.

(** The response-interceptor step. *)
Definition applyResponseInterceptor (response : Response)
           (finalConfig : JsVal) : M Response :=
  match Js.get finalConfig "responseInterceptor" with
  | VFun (FUser id) =>
      _ <- emit (EvCall (VFun (FUser id)) [finalConfig]);
      match callResponseInterceptor env id response finalConfig with
      | Normal (Some response') => ret response'
      | Normal None => throw (Js.cannotRead VUndefined "status")
      | Throw error =>
          if Js.isVortexError error then throw error
          else if Js.nullish error
          then throw (Js.cannotRead error "message")
          else throw (VVortexError CONFIG
                        ("Response interceptor failed: " ++
                         Js.toText (Js.messageOf error))
                        VNull VNull finalConfig error (VObj ∅))
      end
  | VFun _ =>
      throw (VError "TypeError" "Cannot read properties of undefined")
  | _ => ret response
  end.

(** The simple-strategy lookup in front of the transport. *)
Definition lookupCached (finalConfig : JsVal) (cacheKey : string)
  : M (option JsVal) :=
  let cache := Js.get finalConfig "cache" in
  if Js.truthy (Js.get cache "enabled")
     && Js.isStr "simple" (Js.get cache "strategy")
  then
    tryCatch
      (cached <- cacheGet finalConfig cacheKey;
       if negb (Js.isNull cached) then ret (Some cached) else ret None)
      (fun error => _ <- emit (EvWarn "Cache retrieval failed:"); ret None)
  else ret None.

(** The dispatch and what follows it: response interceptor, status
    validation, body parsing, cache store.  The host has no
    [XMLHttpRequest], so progress callbacks only cause a notice. *)
Definition fetchAndStore (finalConfig : JsVal) (cacheKey : string)
  : M JsVal :=
  let cache := Js.get finalConfig "cache" in
  _ <- (if Js.truthy (Js.or (Js.get finalConfig "onUploadProgress")
                            (Js.get finalConfig "onDownloadProgress"))
        then emit (EvInfo
          "Progress tracking has limited support in Node.js environment. Using fetch fallback.")
        else ret tt);
  response <- _executeFetchRequest finalConfig;
  response <- applyResponseInterceptor response finalConfig;
  isValidStatus <-
    (if Js.isFunction (Js.get finalConfig "validateStatus")
     then
       r <- lift (callFun (Js.get finalConfig "validateStatus")
                          [VNum (status response)]);
       ret (Js.truthy r)
     else ret (Js.inRange 200 300 (VNum (status response))));
  if negb isValidStatus then
    let errorBody :=
      match parsed response (VStr "json") with
      | Normal b => b
      | Throw _ => VNull
      end in
    throw (fromResponse response errorBody finalConfig)
  else
    responseData <-
      (if status response =? 204 then ret VNull
       else lift (parsed response
                    (Js.or (Js.get finalConfig "responseType")
                           (VStr "json"))));
    _ <- (if Js.truthy (Js.get cache "enabled")
             && negb (Js.isNull responseData)
          then
            tryCatch
              (cacheSet finalConfig cacheKey responseData)
              (fun error => emit (EvWarn "Cache storage failed:"))
          else ret tt);
    ret responseData.

(** The outer [catch] of [_executeFetch]: what it throws.  It reads
    [error.message]; of a caught [undefined] or [null] that raises a
    [TypeError], and this is then what leaves [_executeFetch]. *)
Definition classify (config error : JsVal) : JsVal :=
  if Js.isVortexError error then error
  else if Js.nullish error then Js.cannotRead error "message"
  else VVortexError NETWORK
         (if Js.truthy (Js.messageOf error)
          then Js.toText (Js.messageOf error)
          else "Request failed")
         VNull VNull config error (VObj ∅).

(** [_executeFetch(config)] *)
Definition _executeFetch (config : JsVal) : M JsVal :=
  tryCatch
    (finalConfig <- applyRequestInterceptor config;
     cacheKey <- _generateCacheKey finalConfig;
     cached <- lookupCached finalConfig cacheKey;
     match cached with
     | Some value => ret value
     | None => fetchAndStore finalConfig cacheKey
     end)
    (fun error => throw (classify config error)).

(** *** Retry and the callback pipeline *)

(** [_createRetryFunction(originalConfig)]: the function handed to the
    error interceptor.  [execute] is [_executeRequestAndHandleCallbacks]. *)
Definition _createRetryFunction (execute : JsVal -> M JsVal)
           (originalConfig : JsVal) : JsVal -> M JsVal :=
  fun overridesArg =>
    let overrides :=
      if Js.isUndefined overridesArg then VObj ∅ else overridesArg in
    let maxRetries := Js.or (Js.get originalConfig "maxRetries") (VNum 10) in
    let retryCount := Js.or (Js.get originalConfig "_retryCount") (VNum 0) in
    if Js.ge retryCount maxRetries then ret VUndefined
    else if Js.isNull overrides
    then throw (VError "TypeError" "Cannot read properties of null")
    else
      let merge := fun k =>
        VObj (Js.spread (Js.ownProps (Js.get originalConfig k))
                        (Js.ownProps (Js.get overrides k))) in
      let retryConfig :=
        VObj (<["_isRetry" := VBool true]>
             (<["_retryCount" := Js.succ retryCount]>
             (<["searchParams" := merge "searchParams"]>
             (<["pathParams" := merge "pathParams"]>
             (<["headers" := merge "headers"]>
                (Js.spread (Js.ownProps originalConfig)
                           (Js.ownProps overrides))))))) in
      execute retryConfig.

(** [await mergedConfig.errorInterceptor(finalError, mergedConfig, retry)] *)
Definition runErrorInterceptor (f finalError mergedConfig : JsVal)
           (retry : JsVal -> M JsVal) : M JsVal :=
  match f with
  | VFun (FUser id) =>
      _ <- emit (EvCall f [finalError; mergedConfig]);
      callErrorInterceptor env id finalError mergedConfig retry
  | _ => lift (callFun f [finalError; mergedConfig])
  end.

(** The end of the [catch] block: error mappers, [onError], rethrow. *)
Definition rejectWith (finalError mergedConfig : JsVal) : M JsVal :=
  finalError <- _applyErrorMappers finalError mergedConfig;
  _ <- runCallback "onError" (Js.get mergedConfig "onError") [finalError];
  throw finalError.

(** What the [catch] around the error interceptor makes of the value
    the interceptor threw. *)
Definition wrapInterceptorError (interceptedError mergedConfig : JsVal)
  : M JsVal :=
  if Js.isVortexError interceptedError then ret interceptedError
  else if Js.nullish interceptedError
  then throw (Js.cannotRead interceptedError "message")
  else ret (VVortexError CONFIG
              ("Error interceptor failed: " ++
               Js.toText (Js.messageOf interceptedError))
              VNull VNull mergedConfig interceptedError (VObj ∅)).

(** The [finally] block. *)
Definition runFinally (mergedConfig : JsVal) : M unit :=
  _ <- runCallback "onFinally" (Js.get mergedConfig "onFinally") [];
  modifyThis _cleanup.

(** [_executeRequestAndHandleCallbacks(mergedConfig)].  [fuel] bounds
    the depth of nested retries. *)
Fixpoint _executeRequestAndHandleCallbacks (fuel : nat)
         (mergedConfig : JsVal) {struct fuel} : M JsVal :=
  match fuel with
  | O => fun st => (OutOfFuel, st)
  | S fuel' =>
      tryFinally
        (tryCatch
           (responseData <- _executeFetch mergedConfig;
            responseData <- _applyResponseMappers responseData mergedConfig;
            _ <- runCallback "onSuccess" (Js.get mergedConfig "onSuccess")
                             [responseData];
            ret responseData)
           (fun error =>
              finalError <-
                (if Js.isVortexError error then ret error
                 else lift (VortexError.fromError error NETWORK
                                                  mergedConfig));
              let retry :=
                _createRetryFunction
                  (_executeRequestAndHandleCallbacks fuel') mergedConfig in
              r <-
                (if Js.isFunction (Js.get mergedConfig "errorInterceptor")
                 then
                   tryCatch
                     (interceptResult <-
                        runErrorInterceptor
                          (Js.get mergedConfig "errorInterceptor")
                          finalError mergedConfig retry;
                      if negb (Js.isUndefined interceptResult)
                      then ret (inl interceptResult)
                      else ret (inr finalError))
                     (fun interceptedError =>
                        finalError <-
                          wrapInterceptorError interceptedError
                                               mergedConfig;
                        ret (inr finalError))
                 else ret (inr finalError));
              match r with
              | inl interceptResult => ret interceptResult
              | inr finalError => rejectWith finalError mergedConfig
              end))
        (runFinally mergedConfig)
  end.

(** *** Stale-while-revalidate *)

Definition modifyInflight
           (f : gmap string Settled -> gmap string Settled) : M unit :=
  modifyWorld (fun w =>
    {| now := now w; cacheInstance := cacheInstance w;
       inflightRequests := f (inflightRequests w); trace := trace w |}).

(** The promise a computation returns, once it has settled. *)
Definition settle (m : M JsVal) : M Settled :=
  fun st =>
    match m st with
    | (Ok v, st') => (Ok (Fulfilled v), st')
    | (Err e, st') => (Ok (Rejected e), st')
    | (OutOfFuel, st') => (OutOfFuel, st')
    end.

(** [await promise] *)
Definition await (p : Settled) : M JsVal :=
  match p with
  | Fulfilled v => ret v
  | Rejected e => throw e
  end.

(** [RequestBuilder._storeInflightRequest(key, promise)]: the promise is
    registered, and unregistered by its [finally] handler.  (The
    timestamp and the sweep timer are not modelled.) *)
Definition _storeInflightRequest (key : string) (promise : Settled)
  : M unit :=
  _ <- modifyInflight (fun m => <[key := promise]> m);
  modifyInflight (fun m => base.delete key m).

(** The refresh chain
    [this._executeRequestAndHandleCallbacks(config).then(..).catch(..)
     .finally(..)]. *)
Definition revalidation (fuel : nat) (config : JsVal)
           (revalidationKey : string) : M Settled :=
  p <- settle (_executeRequestAndHandleCallbacks fuel config);
  p <-
    match p with
    | Fulfilled freshData =>
        _ <- (if negb (Js.isUndefined freshData)
                 && Js.truthy (Js.get config "onRevalidate")
              then
                _ <- emit (EvCall (Js.get config "onRevalidate")
                                  [freshData]);
                match callFun (Js.get config "onRevalidate") [freshData]
                with
                | Normal _ => ret tt
                | Throw _ => emit (EvWarn "onRevalidate callback failed:")
                end
              else ret tt);
        ret (Fulfilled freshData)
    | Rejected error => ret (Fulfilled VNull)
    end;
  _ <- modifyInflight (fun m => base.delete revalidationKey m);
  ret p.

(** [_handleStaleWhileRevalidate(config)].  A refresh already registered
    by another request is given by the way it settles; a refresh started
    here runs to completion, also when the stale value is what is
    returned. *)
Definition _handleStaleWhileRevalidate (fuel : nat) (config : JsVal)
  : M JsVal :=
  cacheKey <- _generateCacheKey config;
  tryCatch
    (staleData <- cacheGet config cacheKey;
     let revalidationKey := "revalidate::" ++ cacheKey in
     inflight <- (fun st => (Ok (inflightRequests (world st)), st));
     revalidationPromise <-
       match inflight !! revalidationKey with
       | Some promise => ret promise
       | None =>
           promise <- revalidation fuel config revalidationKey;
           _ <- _storeInflightRequest revalidationKey promise;
           ret promise
       end;
     if negb (Js.isNull staleData) then ret staleData
     else await revalidationPromise)
    (fun error => _executeRequestAndHandleCallbacks fuel config).

(** [send()] *)
Definition send (fuel : nat) : M JsVal :=
  tryCatch
    (rb <- getThis;
     let mergedConfig := _buildFinalConfig rb in
     _ <- runCallback "onStart" (Js.get mergedConfig "onStart") [];
     if Js.truthy (Js.get (Js.get mergedConfig "cache") "enabled")
        && Js.isStr "swr" (Js.get (Js.get mergedConfig "cache") "strategy")
     then _handleStaleWhileRevalidate fuel mergedConfig
     else _executeRequestAndHandleCallbacks fuel mergedConfig)
    (fun error => _ <- modifyThis _cleanup; throw error).

End Engine.

End RequestBuilder.

(* ===================================================================== *)
(** * Vocabulary of the statements *)
(* ===================================================================== *)

Section Vocabulary.

Import RequestBuilder.

Context {C : Type} `{CacheInterface C}.
Variable env : @Env C.

(** What C10 says of one mutator [f]. *)
Definition mutatorContract (f : JsVal -> t -> Completion unit * t) : Prop :=
  forall (rb : t) (a : JsVal),
    (* null and undefined: no throw, nothing changes *)
    (a = VNull \/ a = VUndefined -> f a rb = (Normal tt, rb)) /\
    (* a throw never changes the instance *)
    (forall e, fst (f a rb) = Throw e -> snd (f a rb) = rb) /\
    (* a VALIDATION error is raised only for a non-null non-plain-object *)
    (forall e, fst (f a rb) = Throw e ->
               VortexError.isType e VALIDATION = true ->
               a <> VNull /\ a <> VUndefined /\
               (Js.typeof a <> "object" \/ Js.isArray a = true)) /\
    (* and it is raised for each of them *)
    (a <> VNull -> a <> VUndefined ->
     Js.typeof a <> "object" \/ Js.isArray a = true ->
     exists e, f a rb = (Throw e, rb) /\
               VortexError.isType e VALIDATION = true).

(** The four levels as [_buildFinalConfig] reads them. *)
Definition safeLevel (level : JsVal) : JsVal := Js.or level (VObj ∅).

(** The stages a level contributes by itself. *)
Definition levelMappers (mapperType : string) (config : JsVal)
           (name : string) : list (JsVal * string) :=
  if Js.truthy (Js.get config mapperType)
  then map (fun mapper => (mapper, name))
           (List.filter Js.isFunction (asArray (Js.get config mapperType)))
  else [].

(** What one stage does to the current value. *)
Definition stage (current mapper : JsVal) : JsVal :=
  match callFun env mapper [current] with
  | Normal result => if Js.isUndefined result then current else result
  | Throw _ => current
  end.

(** The calls of caller-supplied functions in a trace, in order. *)
Definition callsOf (evs : list Event) : list (JsVal * list JsVal) :=
  flat_map (fun ev => match ev with
                      | EvCall f args => [(f, args)]
                      | _ => []
                      end) evs.

(** The arguments of the calls of the caller's function [id] in a trace,
    in order. *)
Definition argsOf (id : nat) (evs : list Event) : list (list JsVal) :=
  flat_map (fun ev => match ev with
                      | EvCall (VFun (FUser i)) args =>
                          if Nat.eqb i id then [args] else []
                      | _ => []
                      end) evs.

(** The value each stage of a pipeline is invoked with. *)
Fixpoint stageInputs (mappers : list (JsVal * string)) (current : JsVal)
  : list (JsVal * list JsVal) :=
  match mappers with
  | [] => []
  | (mapper, _) :: rest =>
      (mapper, [current]) :: stageInputs rest (stage current mapper)
  end.

(** A state with more observed events. *)
Definition appendTrace (st : @State C) (evs : list Event) : @State C :=
  {| this := this st;
     world := {| now := now (world st);
                 cacheInstance := cacheInstance (world st);
                 inflightRequests := inflightRequests (world st);
                 trace := (trace (world st) ++ evs)%list |} |}.

(** A state whose builder has been cleaned up. *)
Definition cleaned (st : @State C) : @State C :=
  {| this := _cleanup (this st); world := world st |}.

(** The configurations the transport was invoked with, oldest first. *)
Definition fetched (tr : list Event) : list JsVal :=
  flat_map (fun ev => match ev with EvFetch c => [c] | _ => [] end) tr.

(** What a guarded callback adds to the trace. *)
Definition callbackEvents (label : string) (cb : JsVal) (args : list JsVal)
  : list Event :=
  if Js.isFunction cb then
    EvCall cb args ::
    match callFun env cb args with
    | Normal _ => []
    | Throw _ => [EvWarn (label ++ " callback failed:")]
    end
  else [].

(** The error pipeline as the builder has it at the time. *)
Definition errorPipeline (rb : t) (error : JsVal) : JsVal * list Event :=
  if _areMappersDisabled "error" rb then (error, [])
  else runMappers env "Error" (_collectMappers "errorMapper" rb) error.

(** What [catch] makes of a value thrown by the error interceptor, when
    that value is not [undefined] or [null]. *)
Definition interceptedAs (interceptedError mergedConfig : JsVal) : JsVal :=
  if Js.isVortexError interceptedError then interceptedError
  else VVortexError CONFIG
         ("Error interceptor failed: " ++
          Js.toText (Js.messageOf interceptedError))
         VNull VNull mergedConfig interceptedError (VObj ∅).

(** The error the [catch] of [_executeRequestAndHandleCallbacks] starts
    from: the failure itself when it is classified, what [fromError] makes
    of it otherwise. *)
Definition caughtAs (mergedConfig error : JsVal) : JsVal :=
  match VortexError.fromError error NETWORK mergedConfig with
  | Normal finalError => finalError
  | Throw _ => error
  end.

(** The state a rejected request leaves: error mappers, then [onError],
    then [onFinally], then the cleanup. *)
Definition rejectedState (config : JsVal) (st : @State C)
           (finalError : JsVal) : @State C :=
  cleaned
    (appendTrace st
       (snd (errorPipeline (this st) finalError) ++
        callbackEvents "onError" (Js.get config "onError")
          [fst (errorPipeline (this st) finalError)] ++
        callbackEvents "onFinally" (Js.get config "onFinally") [])).

(** The state a recovered request leaves: [onFinally] and the cleanup. *)
Definition recoveredState (config : JsVal) (st : @State C) : @State C :=
  cleaned
    (appendTrace st
       (callbackEvents "onFinally" (Js.get config "onFinally") [])).

(** Whether [send] takes the stale-while-revalidate path. *)
Definition swrEnabled (config : JsVal) : bool :=
  Js.truthy (Js.get (Js.get config "cache") "enabled")
  && Js.isStr "swr" (Js.get (Js.get config "cache") "strategy").

(** The state in which [send] hands over to a strategy: [onStart] has
    run. *)
Definition started (st : @State C) : @State C :=
  appendTrace st
    (callbackEvents "onStart"
       (Js.get (_buildFinalConfig (this st)) "onStart") []).

(** [originalConfig._retryCount || 0] *)
Definition retryCountOf (config : JsVal) : JsVal :=
  Js.or (Js.get config "_retryCount") (VNum 0).

(** The configuration [retry()] dispatches next, when called without
    overrides. *)
Definition nextAttempt (config : JsVal) : JsVal :=
  let merge := fun k =>
    VObj (Js.spread (Js.ownProps (Js.get config k))
                    (Js.ownProps (Js.get (VObj ∅) k))) in
  VObj (<["_isRetry" := VBool true]>
       (<["_retryCount" := Js.succ (retryCountOf config)]>
       (<["searchParams" := merge "searchParams"]>
       (<["pathParams" := merge "pathParams"]>
       (<["headers" := merge "headers"]>
          (Js.spread (Js.ownProps config) (Js.ownProps (VObj ∅)))))))).





(** What the [then] handler of the refresh adds to the trace. *)
Definition revalidateEvents (config freshData : JsVal) : list Event :=
  if negb (Js.isUndefined freshData)
     && Js.truthy (Js.get config "onRevalidate")
  then EvCall (Js.get config "onRevalidate") [freshData] ::
       match callFun env (Js.get config "onRevalidate") [freshData] with
       | Normal _ => []
       | Throw _ => [EvWarn "onRevalidate callback failed:"]
       end
  else [].

(** What the refresh chain settles with, given how the request it wraps
    ended: a failure is turned into [null]. *)
Definition refreshValue (r : Result JsVal) : JsVal :=
  match r with
  | Ok freshData => freshData
  | _ => VNull
  end.

Definition refreshEvents (config : JsVal) (r : Result JsVal) : list Event :=
  match r with
  | Ok freshData => revalidateEvents config freshData
  | _ => []
  end.

(** The state once the refresh has settled and has been registered and
    unregistered. *)
Definition refreshed (key : string) (promise : Settled) (evs : list Event)
           (st : @State C) : @State C :=
  {| this := this st;
     world := {| now := now (world st);
                 cacheInstance := cacheInstance (world st);
                 inflightRequests :=
                   base.delete key
                     (<[key := promise]>
                        (base.delete key (inflightRequests (world st))));
                 trace := (trace (world st) ++ evs)%list |} |}.

End Vocabulary.

(* ===================================================================== *)
(** * Concrete configurations *)
(* ===================================================================== *)

(** A cache holding one entry, which expires at 100. *)
Definition entryAt100 : SimpleCache.t :=
  SimpleCache.set "k" (VStr "v") 100 VUndefined VUndefined 0
                  (SimpleCache.new 1000 false).

(** A cache of capacity zero, and a full cache of capacity two that keeps no
    statistics. *)
Definition zeroCapacity : SimpleCache.t := SimpleCache.new 0 true.

Definition fullOfTwo : SimpleCache.t :=
  SimpleCache.set "b" (VNum 2) 1000 VUndefined VUndefined 0
    (SimpleCache.set "a" (VNum 1) 1000 VUndefined VUndefined 0
       (SimpleCache.new 2 false)).

(** A client configuration as the client normalises it, an endpoint, and a
    request that asks for no retries at all. *)
Definition exampleClient : JsVal :=
  VObj (<["baseURL" := VStr "https://api.example.com"]>
        (<["cache" := VObj (<["instance" := VHost "SimpleCache"]>
                              RequestBuilder.defaultCache)]>
           RequestBuilder.defaults)).

Definition usersEndpoint : JsVal :=
  VObj (<["path" := VStr "/users"]> (<["methods" := VObj ∅]> ∅)).

Definition zeroRetriesRequest : RequestBuilder.t :=
  snd (RequestBuilder.settings (VObj (<["maxRetries" := VNum 0]> ∅))
         (RequestBuilder.new "get" usersEndpoint exampleClient)).

(** A login endpoint whose POST method keeps redirects for the caller. *)
Definition manualRedirectRequest : RequestBuilder.t :=
  RequestBuilder.new "post"
    (VObj (<["path" := VStr "/login"]>
           (<["methods" :=
                VObj (<["post" := VObj (<["redirect" := VStr "manual"]> ∅)]> ∅)]>
              ∅)))
    exampleClient.

(** [JSON.stringify] on the values the examples below hand it: scalars,
    and objects and arrays that are empty. *)
Definition plainStringify (v : JsVal) : JsVal :=
  match v with
  | VUndefined | VFun _ => VUndefined
  | VNull | VNaN => VStr "null"
  | VBool _ | VNum _ => VStr (Js.toText v)
  | VArr _ => VStr "[]"
  | _ => VStr "{}"
  end.

(** No caller-supplied function, a transport that is down. *)
Definition offlineEnv : @RequestBuilder.Env NoOpCache :=
  {| RequestBuilder.call := fun _ _ => Normal VUndefined;
     RequestBuilder.callErrorInterceptor := fun _ _ _ retry => retry VUndefined;
     RequestBuilder.callResponseInterceptor := fun _ r _ => Normal (Some r);
     RequestBuilder._buildRequestUrl :=
       fun _ => Normal "https://api.example.com/users";
     RequestBuilder.fetch :=
       fun _ _ config =>
         (5, Throw (VVortexError NETWORK "fetch failed" VNull VNull config
                                 (VError "TypeError" "fetch failed") (VObj ∅)));
     RequestBuilder.urlWarnings := fun _ => [];
     RequestBuilder.stringify := plainStringify |}.

(** A transport that answers every dispatch with [302 Found]. *)
Definition redirectingEnv : @RequestBuilder.Env NoOpCache :=
  {| RequestBuilder.call := fun _ _ => Normal VUndefined;
     RequestBuilder.callErrorInterceptor := fun _ _ _ retry => retry VUndefined;
     RequestBuilder.callResponseInterceptor := fun _ r _ => Normal (Some r);
     RequestBuilder._buildRequestUrl :=
       fun _ => Normal "https://api.example.com/login";
     RequestBuilder.fetch :=
       fun _ _ _ =>
         (5, Normal {| RequestBuilder.status := 302;
                       RequestBuilder.statusText := "Found";
                       RequestBuilder.url := "https://api.example.com/login";
                       RequestBuilder.headers := VObj ∅;
                       RequestBuilder.parsed := fun _ => Normal (VStr "moved") |});
     RequestBuilder.urlWarnings := fun _ => [];
     RequestBuilder.stringify := plainStringify |}.

Definition emptyWorld : @RequestBuilder.World NoOpCache :=
  {| RequestBuilder.now := 0; RequestBuilder.cacheInstance := NoOp;
     RequestBuilder.inflightRequests := ∅; RequestBuilder.trace := [] |}.

(** Client-level mapper [f] (function 1), method-level mapper [g]
    (function 2) that does not inherit. *)
Definition breakAtMethod : RequestBuilder.t :=
  RequestBuilder.new "get"
    (VObj (<["path" := VStr "/users"]>
           (<["methods" :=
                VObj (<["get" :=
                          VObj (<["responseMapper" := VFun (FUser 2)]>
                                (<["inheritMappers" := VBool false]> ∅))]> ∅)]>
              ∅)))
    (VObj (<["responseMapper" := VFun (FUser 1)]>
             (RequestBuilder.defaults))).

(** Three mappers: the first and the third wrap what they are given, the
    second throws. *)
Definition mapperEnv {C : Type} : @RequestBuilder.Env C :=
  {| RequestBuilder.call := fun id args =>
       match id with
       | 1%nat => Normal (VArr (VStr "first" :: args))
       | 3%nat => Normal (VArr (VStr "third" :: args))
       | _ => Throw (VError "Error" "mapper failed")
       end;
     RequestBuilder.callErrorInterceptor := fun _ _ _ retry => retry VUndefined;
     RequestBuilder.callResponseInterceptor := fun _ r _ => Normal (Some r);
     RequestBuilder._buildRequestUrl :=
       fun _ => Normal "https://api.example.com/users";
     RequestBuilder.fetch :=
       fun _ _ config =>
         (5, Throw (VVortexError NETWORK "fetch failed" VNull VNull config
                                 (VError "TypeError" "fetch failed") (VObj ∅)));
     RequestBuilder.urlWarnings := fun _ => [];
     RequestBuilder.stringify := plainStringify |}.

(** A request whose client, endpoint and method each contribute one
    response mapper (functions 1, 2 and 3). *)
Definition threeStageRequest : @RequestBuilder.State NoOpCache :=
  {| RequestBuilder.this :=
       RequestBuilder.new "get"
         (VObj (<["path" := VStr "/users"]>
                (<["responseMapper" := VFun (FUser 2)]>
                 (<["methods" :=
                      VObj (<["get" :=
                                VObj (<["responseMapper" := VFun (FUser 3)]> ∅)]>
                              ∅)]> ∅))))
         (VObj (<["responseMapper" := VFun (FUser 1)]>
                  (Js.ownProps exampleClient)));
     RequestBuilder.world := emptyWorld |}.

(** A client that allows two retries and whose error interceptor
    (function 9) retries whatever the failure, and a request against it in an
    empty world. *)
Definition retryingClient : JsVal :=
  VObj (<["maxRetries" := VNum 2]>
        (<["errorInterceptor" := VFun (FUser 9)]>
         (<["baseURL" := VStr "https://api.example.com"]>
          (<["cache" := VObj (<["instance" := VHost "NoOpCache"]>
                                RequestBuilder.defaultCache)]>
             RequestBuilder.defaults)))).

Definition retryingRequest : @RequestBuilder.State NoOpCache :=
  {| RequestBuilder.this := RequestBuilder.new "get" usersEndpoint retryingClient;
     RequestBuilder.world := emptyWorld |}.

(** A client that caches with the stale-while-revalidate strategy, and a
    request against it: the cache is empty and the transport is down. *)
Definition swrClient : JsVal :=
  VObj (<["baseURL" := VStr "https://api.example.com"]>
        (<["cache" :=
             VObj (<["enabled" := VBool true]>
                   (<["strategy" := VStr "swr"]>
                    (<["instance" := VHost "NoOpCache"]>
                       RequestBuilder.defaultCache)))]>
           RequestBuilder.defaults)).

Definition swrRequest : @RequestBuilder.State NoOpCache :=
  {| RequestBuilder.this := RequestBuilder.new "get" usersEndpoint swrClient;
     RequestBuilder.world := emptyWorld |}.

(** An error interceptor (function 4) that answers every failure with a
    fallback value, on a client that also maps responses (function 1). *)
Definition recoveringEnv : @RequestBuilder.Env NoOpCache :=
  {| RequestBuilder.call := fun _ args => Normal (VArr (VStr "mapped" :: args));
     RequestBuilder.callErrorInterceptor :=
       fun _ _ _ _ => RequestBuilder.ret (VStr "fallback");
     RequestBuilder.callResponseInterceptor := fun _ r _ => Normal (Some r);
     RequestBuilder._buildRequestUrl :=
       fun _ => Normal "https://api.example.com/users";
     RequestBuilder.fetch :=
       fun _ _ config =>
         (5, Throw (VVortexError NETWORK "fetch failed" VNull VNull config
                                 (VError "TypeError" "fetch failed") (VObj ∅)));
     RequestBuilder.urlWarnings := fun _ => [];
     RequestBuilder.stringify := plainStringify |}.

Definition recoveringRequest : @RequestBuilder.State NoOpCache :=
  {| RequestBuilder.this :=
       RequestBuilder.new "get" usersEndpoint
         (VObj (<["errorInterceptor" := VFun (FUser 4)]>
                (<["responseMapper" := VFun (FUser 1)]>
                   (Js.ownProps exampleClient))));
     RequestBuilder.world := emptyWorld |}.

(** The classified error the transport of these examples fails with. *)
Definition fetchFailed (config : JsVal) : JsVal :=
  VVortexError NETWORK "fetch failed" VNull VNull config
               (VError "TypeError" "fetch failed") (VObj ∅).

(** A client that allows one retry, maps errors (function 1), listens for
    them (function 2) and has an error interceptor (function 4); a request
    against it while the transport is down. *)
Definition guardedClient : JsVal :=
  VObj (<["errorInterceptor" := VFun (FUser 4)]>
        (<["errorMapper" := VFun (FUser 1)]>
         (<["onError" := VFun (FUser 2)]>
          (<["maxRetries" := VNum 1]> (Js.ownProps exampleClient))))).

Definition guardedRequest : @RequestBuilder.State NoOpCache :=
  {| RequestBuilder.this :=
       RequestBuilder.new "get" usersEndpoint guardedClient;
     RequestBuilder.world := emptyWorld |}.

(** The interceptor rejects with no reason: [throw undefined], or
    [return Promise.reject()]. *)
Definition rejectingEnv : @RequestBuilder.Env NoOpCache :=
  {| RequestBuilder.call := fun id args =>
       match id with
       | 1%nat => Normal (VArr (VStr "mapped" :: args))
       | _ => Normal VUndefined
       end;
     RequestBuilder.callErrorInterceptor :=
       fun _ _ _ _ => RequestBuilder.throw VUndefined;
     RequestBuilder.callResponseInterceptor := fun _ r _ => Normal (Some r);
     RequestBuilder._buildRequestUrl :=
       fun _ => Normal "https://api.example.com/users";
     RequestBuilder.urlWarnings := fun _ => [];
     RequestBuilder.stringify := plainStringify;
     RequestBuilder.fetch := fun _ _ config => (5, Throw (fetchFailed config)) |}.

(** The interceptor awaits [retry()], whatever comes of it, and then
    gives up:
    [try { await retry() } catch {}; throw new Error('gave up')]. *)
Definition givingUpEnv : @RequestBuilder.Env NoOpCache :=
  {| RequestBuilder.call := fun id args =>
       match id with
       | 1%nat => Normal (VArr (VStr "mapped" :: args))
       | _ => Normal VUndefined
       end;
     RequestBuilder.callErrorInterceptor :=
       fun _ _ _ retry =>
         RequestBuilder.bind
           (RequestBuilder.tryCatch (retry VUndefined)
              (fun _ => RequestBuilder.ret VUndefined))
           (fun _ => RequestBuilder.throw (VError "Error" "gave up"));
     RequestBuilder.callResponseInterceptor := fun _ r _ => Normal (Some r);
     RequestBuilder._buildRequestUrl :=
       fun _ => Normal "https://api.example.com/users";
     RequestBuilder.urlWarnings := fun _ => [];
     RequestBuilder.stringify := plainStringify;
     RequestBuilder.fetch := fun _ _ config => (5, Throw (fetchFailed config)) |}.

(* ===================================================================== *)
(** * Vocabulary and configurations of the further properties *)
(* ===================================================================== *)

(** The [Map] of the cache holds one entry per key. *)
Definition uniqueKeys (c : SimpleCache.t) : Prop :=
  List.NoDup (SimpleCache.keys (SimpleCache.cache c)).

(** Whether [set(key, ...)] finds the cache at capacity with [key] new. *)
Definition evicts (key : string) (c : SimpleCache.t) : bool :=
  (SimpleCache.maxSize c <=? SimpleCache.map_size (SimpleCache.cache c))
  && negb (SimpleCache.map_has (SimpleCache.cache c) key).

(** What a reader finds under an entry at time [now]. *)
Definition live (now : Z) (e : option SimpleCache.CacheEntry)
  : option SimpleCache.CacheEntry :=
  match e with
  | Some entry => if SimpleCache.expiry entry <? now then None else Some entry
  | None => None
  end.

Definition count (b : bool) (enabled : bool) : Z :=
  if b && enabled then 1 else 0.

(** A cache of capacity two holding ["a"] (the older) and ["b"], with
    statistics. *)
Definition countingCache : SimpleCache.t :=
  SimpleCache.set "b" (VNum 2) 50 VUndefined VUndefined 10
    (SimpleCache.set "a" (VNum 1) 50 VUndefined VUndefined 0
       (SimpleCache.new 2 true)).

(** The type [VortexError.fromError] gives a plain [Error], by its name and
    message, when the caller asks for [type]. *)
Definition classifiedAs (name message : string) (type : ErrorType)
  : ErrorType :=
  if String.eqb name "AbortError" then ABORT
  else if String.eqb name "TimeoutError" || Js.includes message "timeout"
  then TIMEOUT
  else type.

(** The message it gives an error that has none. *)
Definition fallbackFor (name : string) : string :=
  if String.eqb name "AbortError" then "Request was cancelled"
  else if String.eqb name "TimeoutError" then "Request timed out"
  else "An unknown error occurred".

Definition messageOr (message fallback : string) : string :=
  if String.eqb message "" then fallback else message.

(** The first of several sources that has [k] as an own property. *)
Fixpoint firstOwn (sources : list (gmap string JsVal)) (k : string)
  : option JsVal :=
  match sources with
  | [] => None
  | props :: rest =>
      match props !! k with
      | Some v => Some v
      | None => firstOwn rest k
      end
  end.

(** The keys [_buildFinalConfig] writes after the spread of the levels. *)
Definition writtenAfterSpread : list string :=
  ["cache"; "headers"; "httpMethod"; "pathParams"; "searchParams"; "body";
   "signal"; "redirect"; "maxRetries"].

(** The object a level holds under [k], as the nested merges read it. *)
Definition nestedLevel (level : JsVal) (k : string) : gmap string JsVal :=
  Js.ownProps (Js.or (Js.get (safeLevel level) k) (VObj ∅)).

(** A request with a zero timeout against a client that sets headers, and
    the same request after [send] has cleaned it up. *)
Definition headerClient : JsVal :=
  VObj (<["headers" :=
            VObj (<["Accept" := VStr "application/json"]>
                  (<["X-Client" := VStr "1"]> ∅))]>
          (Js.ownProps exampleClient)).

Definition zeroTimeoutRequest : RequestBuilder.t :=
  snd (RequestBuilder.settings
         (VObj (<["timeout" := VNum 0]>
                (<["headers" := VObj (<["Accept" := VStr "text/plain"]> ∅)]>
                   ∅)))
         (RequestBuilder.new "get" usersEndpoint headerClient)).

(** Whether a level resets the mapper pipeline. *)
Definition breaksInheritance (level : JsVal * string) : bool :=
  Js.isFalse (Js.get (fst level) "inheritMappers").

(** The levels from the last one that resets the pipeline onward; all of
    them when none does. *)
Fixpoint fromLastBreak (levels : list (JsVal * string))
  : list (JsVal * string) :=
  match levels with
  | [] => []
  | level :: rest =>
      if existsb breaksInheritance rest then fromLastBreak rest
      else level :: rest
  end.

(** A request whose endpoint switches every mapper off. *)
Definition silencedRequest : RequestBuilder.t :=
  RequestBuilder.new "get"
    (VObj (<["path" := VStr "/users"]>
           (<["disableMappers" := VBool true]> ∅)))
    (VObj (<["responseMapper" := VFun (FUser 1)]>
           (<["errorMapper" := VFun (FUser 3)]>
              (Js.ownProps exampleClient)))).

(** The settings [retry()] merges field by field, and the ones it writes
    itself. *)
Definition retryMerged : list string := ["headers"; "pathParams"; "searchParams"].
Definition retryWritten : list string := ["_retryCount"; "_isRetry"].

(** An attempt that has failed once already, with a budget of three, and
    overrides that try to reset the counter. *)
Definition secondAttempt : JsVal :=
  VObj (<["maxRetries" := VNum 3]>
        (<["_retryCount" := VNum 1]>
         (<["headers" := VObj (<["Accept" := VStr "application/json"]> ∅)]>
            RequestBuilder.defaults))).

Definition resettingOverrides : gmap string JsVal :=
  <["_retryCount" := VNum 0]>
    (<["headers" := VObj (<["Authorization" := VStr "Bearer t"]> ∅)]> ∅).

Section FurtherVocabulary.

Import RequestBuilder.

Context {C : Type} `{CacheInterface C}.
Variable env : @Env C.

(** The response pipeline as the builder has it at the time. *)
Definition responsePipeline (rb : t) (data : JsVal) : JsVal * list Event :=
  if _areMappersDisabled "response" rb then (data, [])
  else runMappers env "Response" (_collectMappers "responseMapper" rb) data.

(** The state a resolved request leaves: response mappers, then
    [onSuccess], then [onFinally], then the cleanup. *)
Definition resolvedState (config : JsVal) (st : @State C) (data : JsVal)
  : @State C :=
  cleaned
    (appendTrace st
       (snd (responsePipeline (this st) data) ++
        callbackEvents env "onSuccess" (Js.get config "onSuccess")
          [fst (responsePipeline (this st) data)] ++
        callbackEvents env "onFinally" (Js.get config "onFinally") [])).

End FurtherVocabulary.

(** A transport that answers every dispatch with [200 OK] and a body, a
    response mapper (function 1) that wraps it, and an [onSuccess] callback
    (function 2) that throws. *)
Definition onlineEnv : @RequestBuilder.Env NoOpCache :=
  {| RequestBuilder.call := fun id args =>
       match id with
       | 1%nat => Normal (VArr (VStr "mapped" :: args))
       | _ => Throw (VError "Error" "callback failed")
       end;
     RequestBuilder.callErrorInterceptor := fun _ _ _ retry => retry VUndefined;
     RequestBuilder.callResponseInterceptor := fun _ r _ => Normal (Some r);
     RequestBuilder._buildRequestUrl :=
       fun _ => Normal "https://api.example.com/users";
     RequestBuilder.fetch :=
       fun _ _ _ =>
         (5, Normal {| RequestBuilder.status := 200;
                       RequestBuilder.statusText := "OK";
                       RequestBuilder.url := "https://api.example.com/users";
                       RequestBuilder.headers := VObj ∅;
                       RequestBuilder.parsed := fun _ => Normal (VStr "body") |});
     RequestBuilder.urlWarnings := fun _ => [];
     RequestBuilder.stringify := plainStringify |}.

Definition mappedRequest : @RequestBuilder.State NoOpCache :=
  {| RequestBuilder.this :=
       RequestBuilder.new "get" usersEndpoint
         (VObj (<["responseMapper" := VFun (FUser 1)]>
                (<["onSuccess" := VFun (FUser 2)]>
                   (Js.ownProps exampleClient))));
     RequestBuilder.world := emptyWorld |}.

(** A failing request that has an error mapper (function 1) and no error
    interceptor. *)
Definition unguardedRequest : @RequestBuilder.State NoOpCache :=
  {| RequestBuilder.this :=
       RequestBuilder.new "get" usersEndpoint
         (VObj (<["errorMapper" := VFun (FUser 1)]>
                   (Js.ownProps exampleClient)));
     RequestBuilder.world := emptyWorld |}.

(** A client that caches with the simple strategy for one second, a
    transport that answers [200 OK], and a first request in a world whose
    cache is empty. *)
Definition cachingClient : JsVal :=
  VObj (<["baseURL" := VStr "https://api.example.com"]>
        (<["cache" :=
             VObj (<["enabled" := VBool true]>
                   (<["ttl" := VNum 1000]>
                    (<["instance" := VHost "SimpleCache"]>
                       RequestBuilder.defaultCache)))]>
           RequestBuilder.defaults)).

Definition cachingEnv : @RequestBuilder.Env SimpleCache.t :=
  {| RequestBuilder.call := fun _ _ => Normal VUndefined;
     RequestBuilder.callErrorInterceptor := fun _ _ _ retry => retry VUndefined;
     RequestBuilder.callResponseInterceptor := fun _ r _ => Normal (Some r);
     RequestBuilder._buildRequestUrl :=
       fun _ => Normal "https://api.example.com/users";
     RequestBuilder.fetch :=
       fun _ _ _ =>
         (5, Normal {| RequestBuilder.status := 200;
                       RequestBuilder.statusText := "OK";
                       RequestBuilder.url := "https://api.example.com/users";
                       RequestBuilder.headers := VObj ∅;
                       RequestBuilder.parsed := fun _ => Normal (VStr "body") |});
     RequestBuilder.urlWarnings := fun _ => [];
     RequestBuilder.stringify := plainStringify |}.

Definition firstRequest : @RequestBuilder.State SimpleCache.t :=
  {| RequestBuilder.this := RequestBuilder.new "get" usersEndpoint cachingClient;
     RequestBuilder.world :=
       {| RequestBuilder.now := 0;
          RequestBuilder.cacheInstance := SimpleCache.new 1000 false;
          RequestBuilder.inflightRequests := ∅;
          RequestBuilder.trace := [] |} |}.

(** The same request made again half a second later, with the cache the
    first one left. *)
Definition secondRequest : @RequestBuilder.State SimpleCache.t :=
  {| RequestBuilder.this := RequestBuilder.new "get" usersEndpoint cachingClient;
     RequestBuilder.world :=
       {| RequestBuilder.now := 500;
          RequestBuilder.cacheInstance :=
            RequestBuilder.cacheInstance
              (RequestBuilder.world
                 (snd (RequestBuilder._executeFetch cachingEnv
                         (RequestBuilder._buildFinalConfig
                            (RequestBuilder.this firstRequest))
                         firstRequest)));
          RequestBuilder.inflightRequests := ∅;
          RequestBuilder.trace := [] |} |}.

(** The body of an error response, as far as it can be parsed. *)
Definition errorBodyOf (response : RequestBuilder.Response) : JsVal :=
  match RequestBuilder.parsed response (VStr "json") with
  | Normal body => body
  | Throw _ => VNull
  end.

(** A transport that answers [404 Not Found]. *)
Definition notFoundEnv : @RequestBuilder.Env NoOpCache :=
  {| RequestBuilder.call := fun _ _ => Normal VUndefined;
     RequestBuilder.callErrorInterceptor := fun _ _ _ retry => retry VUndefined;
     RequestBuilder.callResponseInterceptor := fun _ r _ => Normal (Some r);
     RequestBuilder._buildRequestUrl :=
       fun _ => Normal "https://api.example.com/users";
     RequestBuilder.fetch :=
       fun _ _ _ =>
         (5, Normal {| RequestBuilder.status := 404;
                       RequestBuilder.statusText := "Not Found";
                       RequestBuilder.url := "https://api.example.com/users";
                       RequestBuilder.headers := VObj ∅;
                       RequestBuilder.parsed :=
                         fun _ => Normal (VStr "no such user") |});
     RequestBuilder.urlWarnings := fun _ => [];
     RequestBuilder.stringify := plainStringify |}.

Definition plainRequest : @RequestBuilder.State NoOpCache :=
  {| RequestBuilder.this := RequestBuilder.new "get" usersEndpoint exampleClient;
     RequestBuilder.world := emptyWorld |}.

(** The settings through which a request interceptor can change the
    request. *)
Definition interceptorWritable : list string :=
  ["headers"; "body"; "timeout"; "pathParams"; "searchParams"].

(** A request interceptor (function 5) that returns a new method, a new
    URL and a header. *)
Definition rewritingEnv : @RequestBuilder.Env NoOpCache :=
  {| RequestBuilder.call := fun _ _ =>
       Normal (VObj (<["method" := VStr "DELETE"]>
                     (<["url" := VStr "https://elsewhere.example.com"]>
                      (<["headers" :=
                           VObj (<["X-Trace" := VStr "1"]> ∅)]> ∅))));
     RequestBuilder.callErrorInterceptor := fun _ _ _ retry => retry VUndefined;
     RequestBuilder.callResponseInterceptor := fun _ r _ => Normal (Some r);
     RequestBuilder._buildRequestUrl :=
       fun _ => Normal "https://api.example.com/users";
     RequestBuilder.fetch :=
       fun _ _ config =>
         (5, Throw (VVortexError NETWORK "fetch failed" VNull VNull config
                                 (VError "TypeError" "fetch failed") (VObj ∅)));
     RequestBuilder.urlWarnings := fun _ => [];
     RequestBuilder.stringify := plainStringify |}.

Definition interceptedConfig : gmap string JsVal :=
  <["requestInterceptor" := VFun (FUser 5)]>
    (<["httpMethod" := VStr "GET"]>
     (<["baseURL" := VStr "https://api.example.com"]>
      (<["path" := VStr "/users"]> RequestBuilder.defaults))).

(** The polynomial [c0 * 31^(n-1) + c1 * 31^(n-2) + ... + c(n-1)] of a
    string of [n] code units, by Horner's rule. *)
Definition polynomial31 (codes : list Z) : Z :=
  fold_left (fun h char => 31 * h + char) codes 0.

(** The header pairs of a fingerprint, in the order they are written. *)
Definition pairOf (config : JsVal) (header : string) : list string :=
  if Js.truthy (Js.get (Js.get config "headers") header)
  then [header ++ ":" ++ Js.toText (Js.get (Js.get config "headers") header)]
  else [].

Definition writtenPairs (config : JsVal) : list string :=
  pairOf config "accept" ++ pairOf config "authorization" ++
  pairOf config "content-type".

(** Two requests for the same resource by two users, who authenticate with
    an [Authorization] header. *)
Definition requestOf (token : string) : JsVal :=
  VObj (<["httpMethod" := VStr "GET"]>
        (<["headers" :=
             VObj (<["Authorization" := VStr token]>
                   (<["accept" := VStr "application/json"]> ∅))]>
           RequestBuilder.defaults)).

(** Every character of a name is one a path parameter may contain. *)
Fixpoint isParamName (name : string) : bool :=
  match name with
  | EmptyString => true
  | String c rest => RequestBuilder.paramChar c && isParamName rest
  end.

Fixpoint hasColon (path : string) : bool :=
  match path with
  | EmptyString => false
  | String c rest => Ascii.eqb c ":"%char || hasColon rest
  end.

(* ===================================================================== *)
(** * Properties *)
(* ===================================================================== *)

(** ** The built-in cache *)

Section CacheFacts.

Import SimpleCache.

Implicit Types (m : list (string * CacheEntry)) (c : SimpleCache.t).

Lemma cache_incrementStat c stat : cache (_incrementStat stat c) = cache c.
Proof. unfold _incrementStat. destruct (enableStats c); reflexivity. Qed.

Lemma maxSize_incrementStat c stat :
  maxSize (_incrementStat stat c) = maxSize c.
Proof. unfold _incrementStat. destruct (enableStats c); reflexivity. Qed.

Lemma map_has_get m key :
  map_has m key = false <-> map_get m key = None.
Proof. unfold map_has. destruct (map_get m key); split; congruence. Qed.

(** Setting a key the map does not hold appends it. *)
Lemma map_set_fresh m key e :
  map_has m key = false -> map_set m key e = (m ++ [(key, e)])%list.
Proof.
  unfold map_has. induction m as [|[k e'] m IH]; simpl; intros Hno.
  - reflexivity.
  - destruct (String.eqb k key); [discriminate|].
    f_equal. apply IH, Hno.
Qed.

(** Setting a key the map holds keeps its keys, in their order. *)
Lemma map_set_present m key e :
  map_has m key = true -> keys (map_set m key e) = keys m.
Proof.
  unfold map_has, keys. induction m as [|[k e'] m IH]; simpl; intros Hin.
  - discriminate.
  - destruct (String.eqb k key); simpl; [reflexivity|].
    f_equal. apply IH, Hin.
Qed.

Lemma map_has_tail k0 e0 m key :
  map_has ((k0, e0) :: m) key = false -> map_has m key = false.
Proof.
  unfold map_has. simpl. destruct (String.eqb k0 key); [discriminate|auto].
Qed.

Lemma map_delete_first k0 e0 m : map_delete ((k0, e0) :: m) k0 = m.
Proof. simpl. rewrite String.eqb_refl. reflexivity. Qed.

Lemma evictions_incrementStat c :
  evictions (statistics (_incrementStat Evictions c)) =
  evictions (statistics c) + (if enableStats c then 1 else 0).
Proof. unfold _incrementStat. destruct (enableStats c); simpl; lia. Qed.

Lemma evictions_incrementStat_Sets c :
  evictions (statistics (_incrementStat Sets c)) = evictions (statistics c).
Proof. unfold _incrementStat. destruct (enableStats c); reflexivity. Qed.

Lemma enableStats_incrementStat c stat :
  enableStats (_incrementStat stat c) = enableStats c.
Proof.
  unfold _incrementStat. destruct (enableStats c) eqn:E; simpl; congruence.
Qed.

End CacheFacts.

(** C4, as stated, fails: at [now = expiry] the entry is still served. *)
Lemma C4_served_at_expiry :
  exists e,
    SimpleCache.map_get (SimpleCache.cache entryAt100) "k" = Some e /\
    100 >= SimpleCache.expiry e /\
    fst (SimpleCache.get "k" 100 entryAt100) = VStr "v" /\
    fst (SimpleCache.get "k" 100 entryAt100) <> VNull /\
    fst (SimpleCache.has "k" 100 entryAt100) = true.
Proof.
  eexists. split; [reflexivity|]. simpl.
  repeat split; try reflexivity; try lia; discriminate.
Qed.

(** C4 (amended): once [now > expiry] holds for a stored entry, [get(key)]
    returns [null] and [has(key)] returns [false], and either call drops the
    entry. *)
Theorem C4_expired_entry_not_served
        (c : SimpleCache.t) (key : string) (e : SimpleCache.CacheEntry)
        (now : Z) :
  SimpleCache.map_get (SimpleCache.cache c) key = Some e ->
  SimpleCache.expiry e < now ->
  fst (SimpleCache.get key now c) = VNull /\
  fst (SimpleCache.has key now c) = false /\
  SimpleCache.cache (snd (SimpleCache.get key now c)) =
    SimpleCache.map_delete (SimpleCache.cache c) key /\
  SimpleCache.cache (snd (SimpleCache.has key now c)) =
    SimpleCache.map_delete (SimpleCache.cache c) key.
Proof.
  intros Hget Hexp.
  unfold SimpleCache.get, SimpleCache.has. rewrite Hget.
  apply Z.ltb_lt in Hexp. rewrite Hexp. simpl.
  rewrite cache_incrementStat. auto.
Qed.

Lemma C4_expired_entry_not_served_witness :
  fst (SimpleCache.get "k" 101 entryAt100) = VNull /\
  fst (SimpleCache.has "k" 101 entryAt100) = false /\
  SimpleCache.cache (snd (SimpleCache.get "k" 101 entryAt100)) =
    SimpleCache.map_delete (SimpleCache.cache entryAt100) "k" /\
  SimpleCache.cache (snd (SimpleCache.has "k" 101 entryAt100)) =
    SimpleCache.map_delete (SimpleCache.cache entryAt100) "k".
Proof.
  apply (C4_expired_entry_not_served entryAt100 "k"
           {| SimpleCache.data := VStr "v"; SimpleCache.expiry := 100;
              SimpleCache.createdAt := 0; SimpleCache.etag := VUndefined;
              SimpleCache.metadata := VUndefined |} 101).
  - reflexivity.
  - simpl. lia.
Defined.

(** C9, as stated, fails twice.  A cache with [maxSize = 0] is at capacity
    when empty, has nothing to evict, and holds one entry after [set]; and a
    cache that keeps no statistics (the default) evicts without counting. *)
Lemma C9_capacity_zero_and_uncounted :
  (let c' := SimpleCache.set "a" (VNum 1) 1000 VUndefined VUndefined 0
                             zeroCapacity in
   SimpleCache.map_size (SimpleCache.cache zeroCapacity)
     <= SimpleCache.maxSize zeroCapacity /\
   SimpleCache.map_size (SimpleCache.cache c') = 1 /\
   ~ SimpleCache.map_size (SimpleCache.cache c') <= SimpleCache.maxSize c' /\
   SimpleCache.evictions (SimpleCache.statistics c') = 0) /\
  (let c' := SimpleCache.set "c" (VNum 3) 1000 VUndefined VUndefined 0
                             fullOfTwo in
   SimpleCache.keys (SimpleCache.cache fullOfTwo) = ["a"; "b"] /\
   SimpleCache.keys (SimpleCache.cache c') = ["b"; "c"] /\
   SimpleCache.evictions (SimpleCache.statistics c') =
     SimpleCache.evictions (SimpleCache.statistics fullOfTwo)).
Proof.
  vm_compute. repeat split; try reflexivity; try discriminate.
  intros Hle. apply Hle. reflexivity.
Qed.

(** C9 (amended): for a cache with [maxSize >= 1], [set] keeps the cache
    within [maxSize] entries.  When the cache is full and the key is new,
    exactly the oldest-inserted entry is deleted before the new one is
    appended, and the eviction is counted when statistics are enabled; below
    capacity the entry is appended and nothing is evicted; setting a key that
    is present keeps the keys as they are and never evicts. *)
Theorem C9_set_respects_capacity
        (c : SimpleCache.t) (key : string) (data : JsVal) (ttl : Z)
        (etag metadata : JsVal) (now : Z) :
  1 <= SimpleCache.maxSize c ->
  SimpleCache.map_size (SimpleCache.cache c) <= SimpleCache.maxSize c ->
  let c' := SimpleCache.set key data ttl etag metadata now c in
  let entry := {| SimpleCache.data := data; SimpleCache.expiry := now + ttl;
                  SimpleCache.createdAt := now; SimpleCache.etag := etag;
                  SimpleCache.metadata := metadata |} in
  SimpleCache.maxSize c' = SimpleCache.maxSize c /\
  SimpleCache.map_size (SimpleCache.cache c') <= SimpleCache.maxSize c' /\
  (SimpleCache.map_has (SimpleCache.cache c) key = false ->
   SimpleCache.map_size (SimpleCache.cache c) = SimpleCache.maxSize c ->
   exists oldest rest,
     SimpleCache.cache c = oldest :: rest /\
     SimpleCache.cache c' = (rest ++ [(key, entry)])%list /\
     SimpleCache.evictions (SimpleCache.statistics c') =
       SimpleCache.evictions (SimpleCache.statistics c) +
       (if SimpleCache.enableStats c then 1 else 0)) /\
  (SimpleCache.map_has (SimpleCache.cache c) key = false ->
   SimpleCache.map_size (SimpleCache.cache c) < SimpleCache.maxSize c ->
   SimpleCache.cache c' = (SimpleCache.cache c ++ [(key, entry)])%list /\
   SimpleCache.evictions (SimpleCache.statistics c') =
     SimpleCache.evictions (SimpleCache.statistics c)) /\
  (SimpleCache.map_has (SimpleCache.cache c) key = true ->
   SimpleCache.keys (SimpleCache.cache c') =
     SimpleCache.keys (SimpleCache.cache c) /\
   SimpleCache.evictions (SimpleCache.statistics c') =
     SimpleCache.evictions (SimpleCache.statistics c)).
Proof.
  intros Hpos Hinv c' entry. subst c'. unfold SimpleCache.set.
  fold entry.
  destruct (SimpleCache.map_has (SimpleCache.cache c) key) eqn:Hhas.
  - (* the key is present *)
    rewrite andb_false_r. rewrite maxSize_incrementStat, cache_incrementStat.
    simpl. split; [reflexivity|].
    assert (Hkeys := map_set_present (SimpleCache.cache c) key entry Hhas).
    split.
    + unfold SimpleCache.map_size in *.
      replace (length (SimpleCache.map_set (SimpleCache.cache c) key entry))
        with (length (SimpleCache.cache c)); [exact Hinv|].
      unfold SimpleCache.keys in Hkeys.
      rewrite <- (length_map fst (SimpleCache.cache c)), <- Hkeys.
      now rewrite length_map.
    + split; [intros Hf; discriminate|]. split; [intros Hf; discriminate|].
      intros _. split; [exact Hkeys|].
      rewrite evictions_incrementStat_Sets. reflexivity.
  - (* the key is new *)
    rewrite andb_true_r.
    destruct (SimpleCache.maxSize c <=?
              SimpleCache.map_size (SimpleCache.cache c)) eqn:Hfull.
    + (* at capacity: the oldest entry goes *)
      apply Z.leb_le in Hfull.
      assert (Heq : SimpleCache.map_size (SimpleCache.cache c)
                    = SimpleCache.maxSize c) by lia.
      destruct (SimpleCache.cache c) as [|[k0 e0] rest] eqn:Hc.
      { unfold SimpleCache.map_size in Heq. simpl in Heq. lia. }
      unfold SimpleCache._evictOldest. rewrite Hc. simpl SimpleCache.map_first_key.
      cbv iota. rewrite map_delete_first.
      rewrite ?maxSize_incrementStat, ?cache_incrementStat.
      cbn [SimpleCache.cache SimpleCache.maxSize SimpleCache.with_cache].
      rewrite ?maxSize_incrementStat, ?cache_incrementStat.
      cbn [SimpleCache.cache SimpleCache.maxSize SimpleCache.with_cache].
      assert (Hrest : SimpleCache.map_has rest key = false)
        by (eapply map_has_tail; exact Hhas).
      rewrite (map_set_fresh rest key entry Hrest).
      split; [reflexivity|]. split.
      * unfold SimpleCache.map_size in *. rewrite length_app. simpl in *. lia.
      * split; [|split].
        -- intros _ _. exists (k0, e0), rest.
           split; [reflexivity|]. split; [reflexivity|].
           rewrite evictions_incrementStat_Sets.
           cbn [SimpleCache.statistics SimpleCache.with_cache].
           rewrite evictions_incrementStat. reflexivity.
        -- intros _ Hlt. lia.
        -- intros Hf; discriminate.
    + (* below capacity *)
      apply Z.leb_gt in Hfull.
      rewrite maxSize_incrementStat, cache_incrementStat.
      simpl SimpleCache.cache. simpl SimpleCache.maxSize.
      rewrite (map_set_fresh _ key entry Hhas).
      split; [reflexivity|]. split.
      * unfold SimpleCache.map_size in *. rewrite length_app. simpl. lia.
      * split; [|split].
        -- intros _ Heq. lia.
        -- intros _ _. split; [reflexivity|].
           rewrite evictions_incrementStat_Sets. reflexivity.
        -- intros Hf; discriminate.
Qed.

Lemma C9_set_respects_capacity_witness :
  1 <= SimpleCache.maxSize fullOfTwo /\
  SimpleCache.map_size (SimpleCache.cache fullOfTwo)
    <= SimpleCache.maxSize fullOfTwo /\
  let c' := SimpleCache.set "c" (VNum 3) 1000 VUndefined VUndefined 0
                            fullOfTwo in
  SimpleCache.maxSize c' = SimpleCache.maxSize fullOfTwo /\
  SimpleCache.map_size (SimpleCache.cache c') <= SimpleCache.maxSize c'.
Proof.
  assert (H1 : 1 <= SimpleCache.maxSize fullOfTwo) by (simpl; lia).
  assert (H2 : SimpleCache.map_size (SimpleCache.cache fullOfTwo)
               <= SimpleCache.maxSize fullOfTwo) by (vm_compute; discriminate).
  split; [exact H1|]. split; [exact H2|].
  pose proof (C9_set_respects_capacity fullOfTwo "c" (VNum 3) 1000
                VUndefined VUndefined 0 H1 H2) as [Hmax [Hsize _]].
  split; [exact Hmax | exact Hsize].
Defined.

(** ** The fluent mutators *)

Section MutatorFacts.

Import RequestBuilder.

Ltac mutator f :=
  intros rb a; unfold f;
  split; [intros [-> | ->]; reflexivity|];
  split; [intros e; destruct a; simpl;
          try destruct (requestConfig rb); simpl;
          intros He; try discriminate; reflexivity|];
  split;
  [ intros e; destruct a; simpl;
    try destruct (requestConfig rb); simpl;
    intros He Hty; try discriminate;
    try (injection He as <-; discriminate);
    (split; [discriminate|]); (split; [discriminate|]);
    first [left; discriminate | right; reflexivity]
  | intros Hn Hu [Hty | Harr]; destruct a; simpl in *;
    try congruence; try discriminate;
    eexists; (split; [reflexivity|reflexivity]) ].

Lemma pathParams_contract : mutatorContract pathParams.
Proof. mutator pathParams. Qed.

Lemma search_contract : mutatorContract search.
Proof. mutator search. Qed.

Lemma settings_contract : mutatorContract settings.
Proof. mutator settings. Qed.

End MutatorFacts.

(** C10: [pathParams], [search] and [settings] called with [null] or
    [undefined] do not throw and leave the whole instance (path parameters,
    query parameters, body, settings) as it was; a VALIDATION error is raised
    exactly for an argument that is neither [null] nor [undefined] and is not
    a non-array object, and then too the instance is unchanged. *)
Theorem C10_mutators_null_and_invalid :
  mutatorContract RequestBuilder.pathParams /\
  mutatorContract RequestBuilder.search /\
  mutatorContract RequestBuilder.settings.
Proof.
  split; [apply pathParams_contract|].
  split; [apply search_contract | apply settings_contract].
Qed.

Lemma C10_mutators_null_and_invalid_witness :
  let rb := RequestBuilder.new "get" (VObj ∅) (VObj ∅) in
  RequestBuilder.pathParams VNull rb = (Normal tt, rb) /\
  RequestBuilder.search VUndefined rb = (Normal tt, rb) /\
  exists e, RequestBuilder.settings (VStr "fast") rb = (Throw e, rb) /\
            VortexError.isType e VALIDATION = true.
Proof.
  intros rb.
  destruct C10_mutators_null_and_invalid as [Hp [Hs Hset]].
  split; [apply (Hp rb VNull); left; reflexivity|].
  split; [apply (Hs rb VUndefined); right; reflexivity|].
  apply (Hset rb (VStr "fast")); [discriminate | discriminate |].
  left. discriminate.
Defined.

(** ** The configuration cascade *)

Section CascadeFacts.

Import RequestBuilder.

(** The [||] chain picks the first truthy value, request level first. *)
Lemma cascade_first_truthy k r m e c fallback :
  cascade k r m e c fallback =
  if Js.truthy (Js.get r k) then Js.get r k
  else if Js.truthy (Js.get m k) then Js.get m k
  else if Js.truthy (Js.get e k) then Js.get e k
  else if Js.truthy (Js.get c k) then Js.get c k
  else fallback.
Proof. reflexivity. Qed.

Lemma cascade_truthy k r m e c fallback :
  Js.truthy fallback = true ->
  Js.truthy (cascade k r m e c fallback) = true.
Proof.
  intros Hfb. rewrite cascade_first_truthy.
  destruct (Js.truthy (Js.get r k)) eqn:Hr; [exact Hr|].
  destruct (Js.truthy (Js.get m k)) eqn:Hm; [exact Hm|].
  destruct (Js.truthy (Js.get e k)) eqn:He; [exact He|].
  destruct (Js.truthy (Js.get c k)) eqn:Hc; [exact Hc|exact Hfb].
Qed.

Lemma get_merged_other rb k :
  k <> "validateStatus" ->
  Js.get (_buildFinalConfig rb) k = Js.get (VObj (mergedLiteral rb)) k.
Proof.
  intros Hk. unfold _buildFinalConfig.
  destruct (Js.isStr "manual" (Js.get (VObj (mergedLiteral rb)) "redirect"));
    [|reflexivity].
  simpl. rewrite lookup_insert_ne by congruence. reflexivity.
Qed.

Lemma resolved_maxRetries rb :
  Js.get (_buildFinalConfig rb) "maxRetries" =
  cascade "maxRetries" (safeLevel (requestSettings rb))
          (safeLevel (methodConfig rb)) (safeLevel (endpointConfig rb))
          (safeLevel (clientConfig rb)) (VNum 10).
Proof.
  rewrite get_merged_other by discriminate.
  unfold mergedLiteral. simpl. rewrite lookup_insert_eq. reflexivity.
Qed.

Lemma resolved_redirect rb :
  Js.get (_buildFinalConfig rb) "redirect" =
  cascade "redirect" (safeLevel (requestSettings rb))
          (safeLevel (methodConfig rb)) (safeLevel (endpointConfig rb))
          (safeLevel (clientConfig rb)) (VStr "follow").
Proof.
  rewrite get_merged_other by discriminate.
  unfold mergedLiteral. simpl.
  rewrite lookup_insert_ne by discriminate.
  rewrite lookup_insert_eq. reflexivity.
Qed.

(** The validator before the redirect rule is the one the spread of the
    levels leaves: the most specific level that has the key wins, and the
    built-in 2xx validator stands when none has. *)
Lemma resolved_validateStatus_before_redirect rb :
  Js.get (VObj (mergedLiteral rb)) "validateStatus" =
  default VUndefined
    ((Js.ownProps (safeLevel (requestSettings rb)) ∪
      (Js.ownProps (safeLevel (methodConfig rb)) ∪
       (Js.ownProps (safeLevel (endpointConfig rb)) ∪
        (Js.ownProps (safeLevel (clientConfig rb)) ∪ defaults))))
       !! "validateStatus").
Proof.
  unfold mergedLiteral. simpl.
  repeat (rewrite lookup_insert_ne by discriminate).
  reflexivity.
Qed.

Lemma safeLevel_get level k :
  Js.get (safeLevel level) k = Js.get level k.
Proof.
  unfold safeLevel, Js.or. destruct (Js.truthy level) eqn:Ht; [reflexivity|].
  destruct level; simpl in *; try discriminate; try reflexivity.
Qed.

(** Highest truthy level wins, for both cascaded fields. *)
Lemma maxRetries_highest_truthy_level rb :
  let r := requestSettings rb in
  let m := methodConfig rb in
  let e := endpointConfig rb in
  let c := clientConfig rb in
  Js.get (_buildFinalConfig rb) "maxRetries" =
  if Js.truthy (Js.get r "maxRetries") then Js.get r "maxRetries"
  else if Js.truthy (Js.get m "maxRetries") then Js.get m "maxRetries"
  else if Js.truthy (Js.get e "maxRetries") then Js.get e "maxRetries"
  else if Js.truthy (Js.get c "maxRetries") then Js.get c "maxRetries"
  else VNum 10.
Proof.
  cbv zeta. rewrite resolved_maxRetries, cascade_first_truthy.
  rewrite !safeLevel_get. reflexivity.
Qed.

Lemma redirect_highest_truthy_level rb :
  let r := requestSettings rb in
  let m := methodConfig rb in
  let e := endpointConfig rb in
  let c := clientConfig rb in
  Js.get (_buildFinalConfig rb) "redirect" =
  if Js.truthy (Js.get r "redirect") then Js.get r "redirect"
  else if Js.truthy (Js.get m "redirect") then Js.get m "redirect"
  else if Js.truthy (Js.get e "redirect") then Js.get e "redirect"
  else if Js.truthy (Js.get c "redirect") then Js.get c "redirect"
  else VStr "follow".
Proof.
  cbv zeta. rewrite resolved_redirect, cascade_first_truthy.
  rewrite !safeLevel_get. reflexivity.
Qed.

Lemma resolved_maxRetries_truthy rb :
  Js.truthy (Js.get (_buildFinalConfig rb) "maxRetries") = true.
Proof. rewrite resolved_maxRetries. apply cascade_truthy. reflexivity. Qed.

End CascadeFacts.

(** C1 (the code departs from it): a request-level [maxRetries: 0] is not
    honoured.  With the client default of 10 below it the resolved value
    is 10, and no configuration at all resolves to 0. *)
Theorem C1_explicit_zero_maxRetries_not_honored :
  Js.get (RequestBuilder.requestSettings zeroRetriesRequest) "maxRetries"
    = VNum 0 /\
  Js.get (RequestBuilder._buildFinalConfig zeroRetriesRequest) "maxRetries"
    = VNum 10 /\
  (forall rb, Js.get (RequestBuilder._buildFinalConfig rb) "maxRetries"
              <> VNum 0).
Proof.
  split; [reflexivity|]. split; [reflexivity|].
  intros rb Hzero.
  pose proof (resolved_maxRetries_truthy rb) as Ht.
  rewrite Hzero in Ht. discriminate.
Qed.

(** ** The redirect rule *)

Section RedirectFacts.

Import RequestBuilder.

Context {C : Type}.
Variable env : @Env C.

Lemma manual_validateStatus rb :
  Js.get (_buildFinalConfig rb) "redirect" = VStr "manual" ->
  Js.get (_buildFinalConfig rb) "validateStatus" =
  VFun (FManualValidateStatus
          (Js.get (VObj (mergedLiteral rb)) "validateStatus")).
Proof.
  intros Hred. rewrite get_merged_other in Hred by discriminate.
  unfold _buildFinalConfig. rewrite Hred. simpl.
  rewrite lookup_insert_eq. reflexivity.
Qed.

Lemma callFun_manual original status :
  callFun env (VFun (FManualValidateStatus original)) [VNum status] =
  if (300 <=? status) && (status <? 400) then Normal (VBool true)
  else callFun env original [VNum status].
Proof. reflexivity. Qed.

End RedirectFacts.

(** C6: when the resolved redirect policy is ['manual'], the effective
    status validator accepts every status in 300-399 and hands every other
    status to the validator resolved from the levels, unchanged; so 302 is
    valid even when that validator accepts 2xx only. *)
Theorem C6_manual_redirect_accepts_3xx
        {C : Type} (env : @RequestBuilder.Env C) (rb : RequestBuilder.t) :
  Js.get (RequestBuilder._buildFinalConfig rb) "redirect" = VStr "manual" ->
  let validateStatus :=
    Js.get (RequestBuilder._buildFinalConfig rb) "validateStatus" in
  let originalValidateStatus :=
    Js.get (VObj (RequestBuilder.mergedLiteral rb)) "validateStatus" in
  (forall status, 300 <= status < 400 ->
     RequestBuilder.callFun env validateStatus [VNum status]
       = Normal (VBool true)) /\
  (forall status, ~ 300 <= status < 400 ->
     RequestBuilder.callFun env validateStatus [VNum status]
       = RequestBuilder.callFun env originalValidateStatus [VNum status]) /\
  RequestBuilder.callFun env validateStatus [VNum 302] = Normal (VBool true) /\
  (originalValidateStatus = VFun FDefaultValidateStatus ->
   RequestBuilder.callFun env originalValidateStatus [VNum 302]
     = Normal (VBool false)).
Proof.
  intros Hred validateStatus originalValidateStatus.
  subst validateStatus. rewrite (manual_validateStatus rb Hred).
  fold originalValidateStatus.
  assert (Hin : forall status, 300 <= status < 400 ->
            RequestBuilder.callFun env
              (VFun (FManualValidateStatus originalValidateStatus))
              [VNum status] = Normal (VBool true)).
  { intros status [Hlo Hhi]. rewrite callFun_manual.
    apply Z.leb_le in Hlo. apply Z.ltb_lt in Hhi. rewrite Hlo, Hhi.
    reflexivity. }
  split; [exact Hin|]. split.
  - intros status Hout. rewrite callFun_manual.
    destruct ((300 <=? status) && (status <? 400)) eqn:Hb; [|reflexivity].
    apply andb_true_iff in Hb as [Hlo Hhi].
    apply Z.leb_le in Hlo. apply Z.ltb_lt in Hhi. lia.
  - split; [apply Hin; lia|].
    intros ->. reflexivity.
Qed.

(** End to end: a 302 answer to the login request is handed to the caller,
    while the same answer to a request that follows redirects is an HTTP
    error. *)
Example manual_redirect_302_end_to_end :
  fst (RequestBuilder.send redirectingEnv 1
         {| RequestBuilder.this := manualRedirectRequest;
            RequestBuilder.world := emptyWorld |})
    = RequestBuilder.Ok (VStr "moved") /\
  exists e,
    fst (RequestBuilder.send redirectingEnv 1
           {| RequestBuilder.this :=
                RequestBuilder.new "get" usersEndpoint exampleClient;
              RequestBuilder.world := emptyWorld |})
      = RequestBuilder.Err e /\
    VortexError.hasStatus e 302 = true.
Proof.
  split; [reflexivity|]. eexists. split; reflexivity.
Qed.

Lemma C6_manual_redirect_accepts_3xx_witness :
  Js.get (RequestBuilder._buildFinalConfig manualRedirectRequest) "redirect"
    = VStr "manual" /\
  RequestBuilder.callFun offlineEnv
    (Js.get (RequestBuilder._buildFinalConfig manualRedirectRequest)
            "validateStatus") [VNum 302] = Normal (VBool true) /\
  RequestBuilder.callFun offlineEnv
    (Js.get (VObj (RequestBuilder.mergedLiteral manualRedirectRequest))
            "validateStatus") [VNum 302] = Normal (VBool false).
Proof.
  assert (Hred : Js.get (RequestBuilder._buildFinalConfig manualRedirectRequest)
                        "redirect" = VStr "manual") by reflexivity.
  split; [exact Hred|].
  destruct (C6_manual_redirect_accepts_3xx offlineEnv
              manualRedirectRequest Hred) as [_ [_ [H302 Horig]]].
  split; [exact H302|]. apply Horig. reflexivity.
Defined.

(** ** Mapper collection *)

Section CollectFacts.

Import RequestBuilder.

Lemma collectLevel_absent mapperType acc config name :
  Js.truthy config = false ->
  collectLevel mapperType acc (config, name) = acc.
Proof. intros Hc. unfold collectLevel. rewrite Hc. reflexivity. Qed.

Lemma collectLevel_inherit mapperType acc config name :
  Js.truthy config = true ->
  Js.isFalse (Js.get config "inheritMappers") = false ->
  collectLevel mapperType acc (config, name) =
  (acc ++ levelMappers mapperType config name)%list.
Proof.
  intros Hc Hinh. unfold collectLevel, levelMappers.
  rewrite Hc, Hinh. simpl.
  destruct (Js.truthy (Js.get config mapperType));
    [reflexivity | now rewrite app_nil_r].
Qed.

Lemma collectLevel_break mapperType acc config name :
  Js.truthy config = true ->
  Js.isFalse (Js.get config "inheritMappers") = true ->
  collectLevel mapperType acc (config, name) =
  levelMappers mapperType config name.
Proof.
  intros Hc Hinh. unfold collectLevel, levelMappers.
  rewrite Hc, Hinh. simpl.
  destruct acc as [|a acc]; simpl;
    destruct (Js.truthy (Js.get config mapperType)); reflexivity.
Qed.

Lemma _collectMappers_unfold mapperType rb :
  _collectMappers mapperType rb =
  collectLevel mapperType
    (collectLevel mapperType
       (collectLevel mapperType
          (collectLevel mapperType [] (clientConfig rb, "client"))
          (endpointConfig rb, "endpoint"))
       (methodConfig rb, "method"))
    (requestSettings rb, "request").
Proof. reflexivity. Qed.

End CollectFacts.

(** C5: mappers are collected from the client, endpoint, method and request
    levels in that order, and a level whose [inheritMappers] is [false]
    discards what the earlier levels gave before it adds its own stages.  So
    a break at method level leaves the method's stages followed by whatever
    the request level does, and [responseMapper: f] at client level with
    [responseMapper: g, inheritMappers: false] at method level gives exactly
    [g]. *)
Theorem C5_inherit_false_resets_mappers :
  (forall mapperType acc config name,
     Js.truthy config = true ->
     Js.isFalse (Js.get config "inheritMappers") = true ->
     RequestBuilder.collectLevel mapperType acc (config, name) =
     levelMappers mapperType config name) /\
  (forall mapperType rb,
     Js.truthy (RequestBuilder.methodConfig rb) = true ->
     Js.isFalse (Js.get (RequestBuilder.methodConfig rb) "inheritMappers")
       = true ->
     RequestBuilder._collectMappers mapperType rb =
     RequestBuilder.collectLevel mapperType
       (levelMappers mapperType (RequestBuilder.methodConfig rb) "method")
       (RequestBuilder.requestSettings rb, "request")) /\
  (forall rb f g client endpoint method request,
     RequestBuilder.clientConfig rb = VObj client ->
     RequestBuilder.endpointConfig rb = endpoint ->
     RequestBuilder.methodConfig rb = VObj method ->
     RequestBuilder.requestSettings rb = VObj request ->
     client !! "responseMapper" = Some (VFun f) ->
     method !! "responseMapper" = Some (VFun g) ->
     method !! "inheritMappers" = Some (VBool false) ->
     request !! "responseMapper" = None ->
     request !! "inheritMappers" = None ->
     RequestBuilder._collectMappers "responseMapper" rb
       = [(VFun g, "method")]).
Proof.
  split; [exact collectLevel_break|]. split.
  - intros mapperType rb Hm Hinh.
    rewrite _collectMappers_unfold.
    rewrite (collectLevel_break mapperType _ (RequestBuilder.methodConfig rb)
               "method" Hm Hinh).
    reflexivity.
  - intros rb f g client endpoint method request
           Hc He Hm Hr Hf Hg Hinh Hrm Hri.
    rewrite _collectMappers_unfold, Hm.
    rewrite (collectLevel_break "responseMapper" _ (VObj method) "method");
      [| reflexivity | simpl; rewrite Hinh; reflexivity].
    rewrite Hr.
    rewrite (collectLevel_inherit "responseMapper" _ (VObj request) "request");
      [| reflexivity | simpl; rewrite Hri; reflexivity].
    unfold levelMappers. simpl. rewrite Hg, Hrm. reflexivity.
Qed.

Lemma C5_inherit_false_resets_mappers_witness :
  RequestBuilder._collectMappers "responseMapper" breakAtMethod
    = [(VFun (FUser 2), "method")].
Proof.
  destruct C5_inherit_false_resets_mappers as [_ [_ Hexample]].
  eapply (Hexample breakAtMethod (FUser 1) (FUser 2));
    try reflexivity.
Defined.

(** ** The mapper pipeline *)

Section PipelineFacts.

Import RequestBuilder.

Context {C : Type}.
Variable env : @Env C.

Lemma runMappers_cons label mapper level rest current :
  runMappers env label ((mapper, level) :: rest) current =
  (fst (runMappers env label rest (stage env current mapper)),
   (EvCall mapper [current]
    :: match callFun env mapper [current] with
       | Normal _ => []
       | Throw _ =>
           [EvWarn (label ++ " mapper at " ++ level ++ " level failed:")]
       end
    ++ snd (runMappers env label rest (stage env current mapper)))%list).
Proof.
  simpl. unfold stage.
  destruct (callFun env mapper [current]) as [result|e].
  - destruct (Js.isUndefined result); simpl;
      destruct (runMappers env label rest _); reflexivity.
  - destruct (runMappers env label rest current); reflexivity.
Qed.

Lemma runMappers_value label mappers current :
  fst (runMappers env label mappers current) =
  fold_left (stage env) (map fst mappers) current.
Proof.
  revert current. induction mappers as [|[mapper level] rest IH];
    intros current.
  - reflexivity.
  - rewrite runMappers_cons. simpl. apply IH.
Qed.

Lemma runMappers_calls label mappers current :
  callsOf (snd (runMappers env label mappers current)) =
  stageInputs env mappers current.
Proof.
  revert current. induction mappers as [|[mapper level] rest IH];
    intros current.
  - reflexivity.
  - rewrite runMappers_cons. simpl. f_equal.
    unfold callsOf in *. rewrite flat_map_app, IH.
    destruct (callFun env mapper [current]); reflexivity.
Qed.

Lemma stageInputs_functions mappers current :
  map fst (stageInputs env mappers current) = map fst mappers.
Proof.
  revert current. induction mappers as [|[mapper level] rest IH];
    intros current; simpl; [reflexivity|]. f_equal. apply IH.
Qed.

(** Neither pipeline can fail the request: both complete normally and
    leave the builder alone. *)
Lemma _applyResponseMappers_total data config st :
  exists final evs,
    _applyResponseMappers env data config st =
      (Ok final,
       {| this := this st;
          world := {| now := now (world st);
                      cacheInstance := cacheInstance (world st);
                      inflightRequests := inflightRequests (world st);
                      trace := (trace (world st) ++ evs)%list |} |}) /\
    ((_areMappersDisabled "response" (this st) = true /\
      final = data /\ evs = []) \/
     (_areMappersDisabled "response" (this st) = false /\
      (final, evs) =
        runMappers env "Response"
                   (_collectMappers "responseMapper" (this st)) data)).
Proof.
  unfold _applyResponseMappers, bind, getThis.
  destruct (_areMappersDisabled "response" (this st)) eqn:Hd.
  - exists data, []. split.
    + unfold ret. rewrite app_nil_r. destruct st as [rb [n c i tr]].
      reflexivity.
    + left. auto.
  - destruct (runMappers env "Response" _ data) as [final evs] eqn:Hrun.
    exists final, evs. split; [reflexivity|]. right. auto.
Qed.

Lemma _applyErrorMappers_total error config st :
  exists final evs,
    _applyErrorMappers env error config st =
      (Ok final,
       {| this := this st;
          world := {| now := now (world st);
                      cacheInstance := cacheInstance (world st);
                      inflightRequests := inflightRequests (world st);
                      trace := (trace (world st) ++ evs)%list |} |}) /\
    ((_areMappersDisabled "error" (this st) = true /\
      final = error /\ evs = []) \/
     (_areMappersDisabled "error" (this st) = false /\
      (final, evs) =
        runMappers env "Error"
                   (_collectMappers "errorMapper" (this st)) error)).
Proof.
  unfold _applyErrorMappers, bind, getThis.
  destruct (_areMappersDisabled "error" (this st)) eqn:Hd.
  - exists error, []. split.
    + unfold ret. rewrite app_nil_r. destruct st as [rb [n c i tr]].
      reflexivity.
    + left. auto.
  - destruct (runMappers env "Error" _ error) as [final evs] eqn:Hrun.
    exists final, evs. split; [reflexivity|]. right. auto.
Qed.

End PipelineFacts.

(** ** The request pipeline *)

Section EngineFacts.

Import RequestBuilder.

Context {C : Type} `{CacheInterface C}.
Variable env : @Env C.
Implicit Types (st : @State C).

Lemma appendTrace_nil st : appendTrace st [] = st.
Proof.
  destruct st as [rb [n c i tr]]. unfold appendTrace. simpl.
  now rewrite app_nil_r.
Qed.

Lemma appendTrace_app st a b :
  appendTrace (appendTrace st a) b = appendTrace st (a ++ b).
Proof. unfold appendTrace. simpl. now rewrite app_assoc. Qed.

Lemma fetchCount_fetched tr : fetchCount tr = length (fetched tr).
Proof.
  unfold fetchCount, fetched. induction tr as [|ev tr IH]; [reflexivity|].
  destruct ev; simpl; rewrite ?IH; reflexivity.
Qed.

Lemma fetched_app a b : fetched (a ++ b) = (fetched a ++ fetched b)%list.
Proof. unfold fetched. apply flat_map_app. Qed.

Lemma emit_run ev st : emit ev st = (Ok tt, appendTrace st [ev]).
Proof. reflexivity. Qed.

Lemma runCallback_run label cb args st :
  runCallback env label cb args st =
  (Ok tt, appendTrace st (callbackEvents env label cb args)).
Proof.
  unfold runCallback, callbackEvents.
  destruct (Js.isFunction cb).
  - unfold bind. rewrite emit_run.
    destruct (callFun env cb args).
    + reflexivity.
    + rewrite emit_run, appendTrace_app. reflexivity.
  - unfold ret. now rewrite appendTrace_nil.
Qed.

Lemma _applyErrorMappers_run error config st :
  _applyErrorMappers env error config st =
  (Ok (fst (errorPipeline env (this st) error)),
   appendTrace st (snd (errorPipeline env (this st) error))).
Proof.
  unfold _applyErrorMappers, errorPipeline, bind, getThis.
  destruct (_areMappersDisabled "error" (this st)).
  - unfold ret. simpl. now rewrite appendTrace_nil.
  - destruct (runMappers env "Error" _ error) as [final evs]. reflexivity.
Qed.

Lemma rejectWith_run finalError config st :
  let mapped := fst (errorPipeline env (this st) finalError) in
  rejectWith env finalError config st =
  (Err mapped,
   appendTrace st
     (snd (errorPipeline env (this st) finalError) ++
      callbackEvents env "onError" (Js.get config "onError") [mapped])).
Proof.
  cbv zeta. unfold rejectWith, bind.
  rewrite _applyErrorMappers_run, runCallback_run, appendTrace_app.
  reflexivity.
Qed.

Lemma runFinally_run config st :
  runFinally env config st =
  (Ok tt,
   cleaned (appendTrace st
              (callbackEvents env "onFinally" (Js.get config "onFinally") []))).
Proof. unfold runFinally, bind. rewrite runCallback_run. reflexivity. Qed.

(** Once [_cleanup] has run (it runs in the [finally] of every attempt,
    nested retries included) the builder has no level left to collect
    mappers from. *)
Lemma errorPipeline_after_cleanup rb error :
  errorPipeline env (_cleanup rb) error = (error, []).
Proof. reflexivity. Qed.

Lemma emitAll_run evs st : emitAll evs st = (Ok tt, appendTrace st evs).
Proof. reflexivity. Qed.

Lemma fetched_warnings (messages : list string) :
  fetched (map EvWarn messages) = [].
Proof. induction messages; [reflexivity | assumption]. Qed.



(** A failure of a dispatch is a classified error, with one exception: when
    [undefined] or [null] was thrown inside, it is the [TypeError] the outer
    [catch] raised on it. *)
Lemma classify_cases config error :
  Js.isVortexError (classify config error) = true \/
  (Js.nullish error = true /\
   classify config error = Js.cannotRead error "message").
Proof.
  unfold classify. destruct (Js.isVortexError error) eqn:He; [now left|].
  destruct (Js.nullish error); [right; auto | now left].
Qed.

Lemma _executeFetch_throws config st e st' :
  _executeFetch env config st = (Err e, st') ->
  Js.isVortexError e = true \/
  exists thrown, Js.nullish thrown = true /\
                 e = Js.cannotRead thrown "message".
Proof.
  unfold _executeFetch, tryCatch.
  match goal with |- context [match ?body st with _ => _ end] =>
    destruct (body st) as [[v|e0|] st0] end.
  - discriminate.
  - unfold throw. intros Heq. injection Heq as <- _.
    destruct (classify_cases config e0) as [Hc | [Hn Hc]]; [now left|].
    right. exists e0. auto.
  - discriminate.
Qed.

Lemma caughtAs_classified config e :
  Js.isVortexError e = true -> caughtAs config e = e.
Proof.
  intros He. unfold caughtAs, VortexError.fromError. now rewrite He.
Qed.

Lemma caughtAs_cannotRead config thrown :
  Js.nullish thrown = true ->
  caughtAs config (Js.cannotRead thrown "message") =
  VVortexError NETWORK
    ("Cannot read properties of " ++ Js.toText thrown ++
     " (reading 'message')")
    VNull VNull config (Js.cannotRead thrown "message") (VObj ∅).
Proof. destruct thrown; try discriminate; intros _; reflexivity. Qed.

(** Whatever a dispatch fails with, the [catch] of the request starts from
    a classified error. *)
Lemma _executeFetch_failure config st e st' :
  _executeFetch env config st = (Err e, st') ->
  (if Js.isVortexError e then @ret C JsVal e
   else lift (VortexError.fromError e NETWORK config))
    = ret (caughtAs config e) /\
  Js.isVortexError (caughtAs config e) = true.
Proof.
  intros Hfetch.
  destruct (_executeFetch_throws _ _ _ _ Hfetch) as [He | (thrown & Hn & ->)].
  - rewrite He, caughtAs_classified by exact He. auto.
  - rewrite caughtAs_cannotRead by exact Hn.
    destruct thrown; try discriminate; split; reflexivity.
Qed.

End EngineFacts.

Section InterceptorFacts.

Import RequestBuilder.

Context {C : Type} `{CacheInterface C}.
Variable env : @Env C.
Implicit Types (st : @State C).

Lemma interceptedAs_classified e config :
  Js.isVortexError (interceptedAs e config) = true.
Proof.
  unfold interceptedAs. destruct (Js.isVortexError e) eqn:He; auto.
Qed.

Lemma reject_then_finally finalError config st :
  tryFinally (rejectWith env finalError config) (runFinally env config) st =
  (Err (fst (errorPipeline env (this st) finalError)),
   rejectedState env config st finalError).
Proof.
  unfold tryFinally. rewrite rejectWith_run, runFinally_run.
  unfold rejectedState. rewrite appendTrace_app, <- app_assoc.
  reflexivity.
Qed.

(** The [catch] block, once the dispatch has failed and an error
    interceptor is configured, by what the interceptor does. *)
Lemma exec_interceptor_outcome fuel config st error st1 r st2 :
  let finalError := caughtAs config error in
  _executeFetch env config st = (Err error, st1) ->
  Js.isFunction (Js.get config "errorInterceptor") = true ->
  runErrorInterceptor env (Js.get config "errorInterceptor") finalError
    config
    (_createRetryFunction (_executeRequestAndHandleCallbacks env fuel)
                          config) st1 = (r, st2) ->
  _executeRequestAndHandleCallbacks env (S fuel) config st =
  match r with
  | Ok interceptResult =>
      if Js.isUndefined interceptResult
      then (Err (fst (errorPipeline env (this st2) finalError)),
            rejectedState env config st2 finalError)
      else (Ok interceptResult, recoveredState env config st2)
  | Err interceptedError =>
      if Js.nullish interceptedError && negb (Js.isVortexError interceptedError)
      then (Err (Js.cannotRead interceptedError "message"),
            recoveredState env config st2)
      else (Err (fst (errorPipeline env (this st2)
                        (interceptedAs interceptedError config))),
            rejectedState env config st2 (interceptedAs interceptedError config))
  | OutOfFuel => (OutOfFuel, st2)
  end.
Proof.
  intros finalError Hfetch Hfun Hicpt. subst finalError.
  destruct (_executeFetch_failure env _ _ _ _ Hfetch) as [Hcls _].
  change (_executeRequestAndHandleCallbacks env (S fuel) config st) with
    (tryFinally
       (tryCatch
          (bind (_executeFetch env config) (fun responseData =>
           bind (_applyResponseMappers env responseData config)
                (fun responseData =>
           bind (runCallback env "onSuccess" (Js.get config "onSuccess")
                             [responseData])
                (fun _ => ret responseData))))
          (fun error =>
             bind (if Js.isVortexError error then ret error
                   else lift (VortexError.fromError error NETWORK config))
                  (fun finalError =>
             bind (if Js.isFunction (Js.get config "errorInterceptor")
                   then
                     tryCatch
                       (bind (runErrorInterceptor env
                                (Js.get config "errorInterceptor")
                                finalError config
                                (_createRetryFunction
                                   (_executeRequestAndHandleCallbacks env fuel)
                                   config))
                             (fun interceptResult =>
                                if negb (Js.isUndefined interceptResult)
                                then ret (inl interceptResult)
                                else ret (inr finalError)))
                       (fun interceptedError =>
                          bind (wrapInterceptorError interceptedError
                                                     config)
                               (fun finalError => ret (inr finalError)))
                   else ret (inr finalError))
                  (fun r =>
                     match r with
                     | inl interceptResult => ret interceptResult
                     | inr finalError => rejectWith env finalError config
                     end))))
       (runFinally env config) st).
  destruct r as [interceptResult|interceptedError|].
  - destruct (Js.isUndefined interceptResult) eqn:Hund.
    + rewrite <- reject_then_finally.
      unfold tryFinally at 1 2, tryCatch at 1, bind at 1.
      rewrite Hfetch. unfold bind at 1. rewrite Hcls. unfold ret at 1.
      unfold bind at 1. rewrite Hfun. unfold tryCatch, bind at 1.
      rewrite Hicpt, Hund. reflexivity.
    + unfold tryFinally, tryCatch at 1, bind at 1.
      rewrite Hfetch. unfold bind at 1. rewrite Hcls. unfold ret at 1.
      unfold bind at 1. rewrite Hfun. unfold tryCatch, bind at 1.
      rewrite Hicpt, Hund. simpl. unfold ret.
      rewrite runFinally_run. reflexivity.
  - destruct (Js.isVortexError interceptedError) eqn:Hv.
    + rewrite andb_false_r. rewrite <- reject_then_finally.
      unfold tryFinally at 1 2, tryCatch at 1, bind at 1.
      rewrite Hfetch. unfold bind at 1. rewrite Hcls. unfold ret at 1.
      unfold bind at 1. rewrite Hfun. unfold tryCatch, bind at 1.
      rewrite Hicpt. unfold wrapInterceptorError, interceptedAs, bind.
      rewrite Hv. reflexivity.
    + rewrite andb_true_r. destruct (Js.nullish interceptedError) eqn:Hn.
      * unfold tryFinally, tryCatch at 1, bind at 1.
        rewrite Hfetch. unfold bind at 1. rewrite Hcls. unfold ret at 1.
        unfold bind at 1. rewrite Hfun. unfold tryCatch, bind at 1.
        rewrite Hicpt. unfold wrapInterceptorError, bind.
        rewrite Hv, Hn. unfold throw. rewrite runFinally_run. reflexivity.
      * rewrite <- reject_then_finally.
        unfold tryFinally at 1 2, tryCatch at 1, bind at 1.
        rewrite Hfetch. unfold bind at 1. rewrite Hcls. unfold ret at 1.
        unfold bind at 1. rewrite Hfun. unfold tryCatch, bind at 1.
        rewrite Hicpt. unfold wrapInterceptorError, interceptedAs, bind.
        rewrite Hv, Hn. reflexivity.
  - unfold tryFinally, tryCatch at 1, bind at 1.
    rewrite Hfetch. unfold bind at 1. rewrite Hcls. unfold ret at 1.
    unfold bind at 1. rewrite Hfun. unfold tryCatch, bind at 1.
    rewrite Hicpt. reflexivity.
Qed.

End InterceptorFacts.

Section SendFacts.

Import RequestBuilder.

Context {C : Type} `{CacheInterface C}.
Variable env : @Env C.
Implicit Types (st : @State C).

Lemma send_plain fuel st :
  swrEnabled (_buildFinalConfig (this st)) = false ->
  send env fuel st =
  match _executeRequestAndHandleCallbacks env fuel
          (_buildFinalConfig (this st)) (started env st) with
  | (Err e, st') => (Err e, cleaned st')
  | r => r
  end.
Proof.
  unfold swrEnabled. intros Hswr.
  unfold send, tryCatch, bind at 1, getThis.
  unfold bind at 1. rewrite runCallback_run. fold (started env st).
  rewrite Hswr.
  destruct (_executeRequestAndHandleCallbacks env fuel _ (started env st))
    as [[v|e|] st']; reflexivity.
Qed.

Lemma send_swr fuel st :
  swrEnabled (_buildFinalConfig (this st)) = true ->
  send env fuel st =
  match _handleStaleWhileRevalidate env fuel
          (_buildFinalConfig (this st)) (started env st) with
  | (Err e, st') => (Err e, cleaned st')
  | r => r
  end.
Proof.
  unfold swrEnabled. intros Hswr.
  unfold send, tryCatch, bind at 1, getThis.
  unfold bind at 1. rewrite runCallback_run. fold (started env st).
  rewrite Hswr.
  destruct (_handleStaleWhileRevalidate env fuel _ (started env st))
    as [[v|e|] st']; reflexivity.
Qed.

End SendFacts.

(** C7: in a mapper pipeline a stage that returns [undefined] or throws
    leaves the current value as it is; every stage is invoked, in declaration
    order, each with the value the stages before it left.  This is what
    [_applyResponseMappers] and [_applyErrorMappers] do with the mappers they
    collect: either returns the value the stages leave, having called every
    one of them, and never throws; so a request whose dispatch succeeded
    still resolves, with that value, whatever its mappers do.  In a pipeline
    of three stages whose second throws, the first and the third are applied,
    in that order. *)
Theorem C7_mapper_fault_isolation
        {C : Type} `{CacheInterface C} (env : @RequestBuilder.Env C)
        (label : string) :
  (forall mapper level rest current,
     (RequestBuilder.callFun env mapper [current] = Normal VUndefined \/
      exists e, RequestBuilder.callFun env mapper [current] = Throw e) ->
     fst (RequestBuilder.runMappers env label ((mapper, level) :: rest) current)
     = fst (RequestBuilder.runMappers env label rest current)) /\
  (forall mappers current,
     callsOf (snd (RequestBuilder.runMappers env label mappers current))
       = stageInputs env mappers current /\
     map fst (stageInputs env mappers current) = map fst mappers /\
     fst (RequestBuilder.runMappers env label mappers current)
       = fold_left (stage env) (map fst mappers) current) /\
  (forall data config st,
     (exists final st',
        RequestBuilder._applyResponseMappers env data config st
          = (RequestBuilder.Ok final, st')) /\
     (exists final st',
        RequestBuilder._applyErrorMappers env data config st
          = (RequestBuilder.Ok final, st'))) /\
  (forall m1 m2 m3 l1 l2 l3 v v1 v3 e,
     RequestBuilder.callFun env m1 [v] = Normal v1 ->
     v1 <> VUndefined ->
     RequestBuilder.callFun env m2 [v1] = Throw e ->
     RequestBuilder.callFun env m3 [v1] = Normal v3 ->
     v3 <> VUndefined ->
     fst (RequestBuilder.runMappers env label
            [(m1, l1); (m2, l2); (m3, l3)] v) = v3 /\
     callsOf (snd (RequestBuilder.runMappers env label
                     [(m1, l1); (m2, l2); (m3, l3)] v))
       = [(m1, [v]); (m2, [v1]); (m3, [v1])]) /\
  (forall data config st,
     RequestBuilder._areMappersDisabled "response" (RequestBuilder.this st)
       = false ->
     let mappers :=
       RequestBuilder._collectMappers "responseMapper"
                                      (RequestBuilder.this st) in
     let run := RequestBuilder.runMappers env "Response" mappers data in
     RequestBuilder._applyResponseMappers env data config st
       = (RequestBuilder.Ok (fold_left (stage env) (map fst mappers) data),
          appendTrace st (snd run)) /\
     callsOf (snd run) = stageInputs env mappers data) /\
  (forall error config st,
     RequestBuilder._areMappersDisabled "error" (RequestBuilder.this st)
       = false ->
     let mappers :=
       RequestBuilder._collectMappers "errorMapper"
                                      (RequestBuilder.this st) in
     let run := RequestBuilder.runMappers env "Error" mappers error in
     RequestBuilder._applyErrorMappers env error config st
       = (RequestBuilder.Ok (fold_left (stage env) (map fst mappers) error),
          appendTrace st (snd run)) /\
     callsOf (snd run) = stageInputs env mappers error) /\
  (forall fuel config data st st1,
     RequestBuilder._executeFetch env config st
       = (RequestBuilder.Ok data, st1) ->
     exists final st',
       RequestBuilder._executeRequestAndHandleCallbacks env (S fuel) config st
         = (RequestBuilder.Ok final, st') /\
       (RequestBuilder._areMappersDisabled "response" (RequestBuilder.this st1)
          = false ->
        final =
          fold_left (stage env)
            (map fst (RequestBuilder._collectMappers "responseMapper"
                        (RequestBuilder.this st1))) data)).
Proof.
  split; [|split; [|split; [|split; [|split; [|split]]]]].
  - intros mapper level rest current Hstage.
    rewrite runMappers_cons. simpl. unfold stage.
    destruct Hstage as [-> | [e ->]]; reflexivity.
  - intros mappers current. split; [apply runMappers_calls|].
    split; [apply stageInputs_functions | apply runMappers_value].
  - intros data config st. split.
    + destruct (_applyResponseMappers_total env data config st)
        as [final [evs [Hrun _]]].
      eauto.
    + destruct (_applyErrorMappers_total env data config st)
        as [final [evs [Hrun _]]].
      eauto.
  - intros m1 m2 m3 l1 l2 l3 v v1 v3 e H1 Hv1 H2 H3 Hv3.
    assert (S1 : stage env v m1 = v1).
    { unfold stage. rewrite H1. destruct v1; try reflexivity. congruence. }
    assert (S2 : stage env v1 m2 = v1) by (unfold stage; now rewrite H2).
    assert (S3 : stage env v1 m3 = v3).
    { unfold stage. rewrite H3. destruct v3; try reflexivity. congruence. }
    split.
    + rewrite runMappers_value. simpl. now rewrite S1, S2, S3.
    + rewrite runMappers_calls. simpl. now rewrite S1, S2.
  - intros data config st Hon mappers run. subst mappers run.
    split; [|apply runMappers_calls].
    rewrite <- runMappers_value with (label := "Response").
    unfold RequestBuilder._applyResponseMappers, RequestBuilder.bind,
      RequestBuilder.getThis.
    rewrite Hon.
    destruct (RequestBuilder.runMappers env "Response" _ data); reflexivity.
  - intros error config st Hon mappers run. subst mappers run.
    split; [|apply runMappers_calls].
    rewrite <- runMappers_value with (label := "Error").
    unfold RequestBuilder._applyErrorMappers, RequestBuilder.bind,
      RequestBuilder.getThis.
    rewrite Hon.
    destruct (RequestBuilder.runMappers env "Error" _ error); reflexivity.
  - intros fuel config data st st1 Hfetch.
    destruct (_applyResponseMappers_total env data config st1)
      as (final & evs & Hrun & Hcases).
    cbn [RequestBuilder._executeRequestAndHandleCallbacks].
    unfold RequestBuilder.tryFinally, RequestBuilder.tryCatch.
    unfold RequestBuilder.bind at 1. rewrite Hfetch.
    unfold RequestBuilder.bind at 1. rewrite Hrun.
    unfold RequestBuilder.bind at 1. rewrite runCallback_run.
    unfold RequestBuilder.ret at 1. rewrite runFinally_run.
    eexists _, _. split; [reflexivity|]. intros Hon.
    destruct Hcases as [[Hoff _] | [_ Heq]]; [congruence|].
    rewrite <- runMappers_value with (label := "Response").
    now rewrite <- Heq.
Qed.

Lemma C7_mapper_fault_isolation_witness :
  let first := VArr [VStr "first"; VNum 7] in
  let applied :=
    RequestBuilder._applyResponseMappers (mapperEnv (C := NoOpCache))
      (VNum 7) VUndefined threeStageRequest in
  RequestBuilder._collectMappers "responseMapper"
    (RequestBuilder.this threeStageRequest)
    = [(VFun (FUser 1), "client"); (VFun (FUser 2), "endpoint");
       (VFun (FUser 3), "method")] /\
  fst applied = RequestBuilder.Ok (VArr [VStr "third"; first]) /\
  callsOf (RequestBuilder.trace (RequestBuilder.world (snd applied)))
    = [(VFun (FUser 1), [VNum 7]); (VFun (FUser 2), [first]);
       (VFun (FUser 3), [first])].
Proof.
  intros first applied. subst applied.
  destruct (C7_mapper_fault_isolation (mapperEnv (C := NoOpCache)) "Response")
    as (_ & _ & _ & _ & Hresponse & _ & _).
  destruct (Hresponse (VNum 7) VUndefined threeStageRequest) as [-> _];
    [reflexivity|].
  split; [reflexivity|]. split; reflexivity.
Defined.

(** C8 (the code departs from it): a failure of the error interceptor does
    not always reach the error mappers and [onError], and what [send()]
    rejects with is not always a classified error.  First run: the client
    maps errors (function 1) and listens for them (function 2), the dispatch
    fails, and the interceptor (function 4) rejects with [undefined]; then
    [send()] rejects with a bare [TypeError], and neither the mapper nor
    [onError] has been called.  Second run: the interceptor awaits [retry()]
    and then throws a new error; then [send()] rejects with the CONFIG error
    made of it as it is, although the mapper would have changed it: the
    mapper was called once, on the error of the nested attempt, whose
    [finally] had cleaned the builder. *)
Lemma C8_interceptor_failure_escapes_pipeline :
  let config :=
    RequestBuilder._buildFinalConfig (RequestBuilder.this guardedRequest) in
  let dispatchError := fetchFailed config in
  let failed := RequestBuilder.send rejectingEnv 1 guardedRequest in
  let rejected :=
    VVortexError CONFIG "Error interceptor failed: gave up" VNull VNull
                 config (VError "Error" "gave up") (VObj ∅) in
  let nested :=
    VVortexError CONFIG "Error interceptor failed: gave up" VNull VNull
                 (nextAttempt config) (VError "Error" "gave up") (VObj ∅) in
  let gaveUp := RequestBuilder.send givingUpEnv 2 guardedRequest in
  (Js.get config "errorInterceptor" = VFun (FUser 4) /\
   RequestBuilder._collectMappers "errorMapper"
     (RequestBuilder.this guardedRequest) = [(VFun (FUser 1), "client")] /\
   Js.get config "onError" = VFun (FUser 2) /\
   Js.get config "maxRetries" = VNum 1 /\
   swrEnabled config = false) /\
  (fst failed = RequestBuilder.Err (Js.cannotRead VUndefined "message") /\
   Js.isVortexError (Js.cannotRead VUndefined "message") = false /\
   argsOf 4 (RequestBuilder.trace (RequestBuilder.world (snd failed)))
     = [[dispatchError; config]] /\
   argsOf 1 (RequestBuilder.trace (RequestBuilder.world (snd failed))) = [] /\
   argsOf 2 (RequestBuilder.trace (RequestBuilder.world (snd failed))) = []) /\
  (fst gaveUp = RequestBuilder.Err rejected /\
   fst (errorPipeline givingUpEnv (RequestBuilder.this guardedRequest) rejected)
     = VArr [VStr "mapped"; rejected] /\
   argsOf 1 (RequestBuilder.trace (RequestBuilder.world (snd gaveUp)))
     = [[nested]] /\
   argsOf 2 (RequestBuilder.trace (RequestBuilder.world (snd gaveUp)))
     = [[VArr [VStr "mapped"; nested]]; [rejected]]).
Proof.
  cbv zeta. split; [|split].
  - repeat split; reflexivity.
  - repeat split; vm_compute; reflexivity.
  - repeat split; vm_compute; reflexivity.
Qed.

(** ** The retry budget *)

Section RetryFacts.

Import RequestBuilder.

Context {C : Type} `{CacheInterface C}.
Variable env : @Env C.
Implicit Types (st : @State C).
















End RetryFacts.




(** ** Stale-while-revalidate *)

Section SwrFacts.

Import RequestBuilder.

Context {C : Type} `{CacheInterface C}.
Variable env : @Env C.
Implicit Types (st : @State C).

Lemma refreshed_unregistered key promise evs st :
  inflightRequests (world (refreshed key promise evs st)) !! key = None.
Proof. simpl. apply lookup_delete_eq. Qed.

Lemma revalidation_run fuel config key (st : @State C) r st' :
  _executeRequestAndHandleCallbacks env fuel config st = (r, st') ->
  r <> OutOfFuel ->
  revalidation env fuel config key st =
  (Ok (Fulfilled (refreshValue r)),
   {| this := this st';
      world := {| now := now (world st');
                  cacheInstance := cacheInstance (world st');
                  inflightRequests :=
                    base.delete key (inflightRequests (world st'));
                  trace := (trace (world st') ++ refreshEvents env config r)%list
               |} |}).
Proof.
  intros Hexec Hfuel. unfold revalidation, bind at 1, settle.
  rewrite Hexec. destruct r as [freshData|e|]; [| |congruence].
  - unfold bind at 1. unfold bind at 1. simpl refreshValue.
    simpl refreshEvents. unfold revalidateEvents.
    destruct (negb (Js.isUndefined freshData)
              && Js.truthy (Js.get config "onRevalidate")).
    + unfold bind at 1. rewrite emit_run.
      destruct (callFun env (Js.get config "onRevalidate") [freshData]).
      * reflexivity.
      * rewrite emit_run. unfold bind, ret, modifyInflight, modifyWorld.
        simpl. rewrite <- app_assoc. reflexivity.
    + unfold ret, bind, modifyInflight, modifyWorld. simpl.
      rewrite app_nil_r. reflexivity.
  - unfold bind, ret, modifyInflight, modifyWorld. simpl.
    rewrite app_nil_r. reflexivity.
Qed.

(** The handler, when the cache lookup succeeds and no refresh for the
    fingerprint is in flight. *)
Lemma swr_run fuel config (st stK stA stB : @State C) cacheKey staleData r :
  let key := ("revalidate::" ++ cacheKey)%string in
  _generateCacheKey env config st = (Ok cacheKey, stK) ->
  cacheGet config cacheKey stK = (Ok staleData, stA) ->
  inflightRequests (world stA) !! key = None ->
  _executeRequestAndHandleCallbacks env fuel config stA = (r, stB) ->
  r <> OutOfFuel ->
  _handleStaleWhileRevalidate env fuel config st =
  (Ok (if Js.isNull staleData then refreshValue r else staleData),
   refreshed key (Fulfilled (refreshValue r)) (refreshEvents env config r) stB).
Proof.
  intros key Hkey Hget Hfree Hexec Hfuel.
  unfold _handleStaleWhileRevalidate, bind at 1. rewrite Hkey.
  unfold tryCatch, bind at 1.
  rewrite Hget. unfold bind at 1. unfold bind at 1. fold key.
  rewrite Hfree. unfold bind at 1.
  rewrite (revalidation_run fuel config key stA r stB Hexec Hfuel).
  unfold bind at 1, _storeInflightRequest, bind at 1, modifyInflight,
    modifyWorld. cbn [this world now cacheInstance inflightRequests trace].
  unfold ret at 1.
  destruct (Js.isNull staleData); reflexivity.
Qed.

End SwrFacts.

(** C2 (the code departs from it): under stale-while-revalidate, with
    nothing in the cache and a refresh that fails with a classified error,
    [send()] does not propagate that error; it resolves with [null]. *)
Lemma C2_failed_refresh_resolves_null :
  let config := RequestBuilder._buildFinalConfig (RequestBuilder.this swrRequest) in
  let cacheKey := "GET::https://api.example.com/users" in
  swrEnabled config = true /\
  fst (RequestBuilder._generateCacheKey offlineEnv config
         (started offlineEnv swrRequest)) = RequestBuilder.Ok cacheKey /\
  fst (RequestBuilder.cacheGet config cacheKey
         (started offlineEnv swrRequest)) = RequestBuilder.Ok VNull /\
  (exists e,
     fst (RequestBuilder._executeRequestAndHandleCallbacks offlineEnv 1 config
            (started offlineEnv swrRequest)) = RequestBuilder.Err e /\
     VortexError.isType e NETWORK = true) /\
  fst (RequestBuilder.send offlineEnv 1 swrRequest) = RequestBuilder.Ok VNull /\
  (forall e, fst (RequestBuilder.send offlineEnv 1 swrRequest)
             <> RequestBuilder.Err e).
Proof.
  cbv zeta. split; [reflexivity|]. split; [reflexivity|].
  split; [reflexivity|]. split.
  - eexists. split; reflexivity.
  - split; [reflexivity|]. intros e. vm_compute. discriminate.
Qed.

(** X22: What the stale-while-revalidate path does in general: when the cache
    lookup returns [null] and no refresh of the fingerprint is in flight,
    [send()] awaits the refresh it starts and resolves with its result if it
    succeeds, and resolves with [null] if it fails; when the lookup returns
    stale data, [send()] resolves with it.  Either way the refresh is
    unregistered when it has settled. *)
Theorem swr_send_never_rejects
        {C : Type} `{CacheInterface C} (env : @RequestBuilder.Env C)
        (fuel : nat) (st0 stK stA stB : @RequestBuilder.State C)
        (cacheKey : string) (staleData : JsVal)
        (r : RequestBuilder.Result JsVal) :
  let config := RequestBuilder._buildFinalConfig (RequestBuilder.this st0) in
  let key := ("revalidate::" ++ cacheKey)%string in
  swrEnabled config = true ->
  RequestBuilder._generateCacheKey env config (started env st0)
    = (RequestBuilder.Ok cacheKey, stK) ->
  RequestBuilder.cacheGet config cacheKey stK
    = (RequestBuilder.Ok staleData, stA) ->
  RequestBuilder.inflightRequests (RequestBuilder.world stA) !! key = None ->
  RequestBuilder._executeRequestAndHandleCallbacks env fuel config stA
    = (r, stB) ->
  r <> RequestBuilder.OutOfFuel ->
  exists st',
    RequestBuilder.send env fuel st0 =
      (RequestBuilder.Ok
         (match staleData, r with
          | VNull, RequestBuilder.Ok freshData => freshData
          | VNull, _ => VNull
          | _, _ => staleData
          end), st') /\
    RequestBuilder.inflightRequests (RequestBuilder.world st') !! key = None /\
    RequestBuilder.trace (RequestBuilder.world st') =
      (RequestBuilder.trace (RequestBuilder.world stB) ++
       refreshEvents env config r)%list.
Proof.
  intros config key Hswr Hkey Hget Hfree Hexec Hfuel.
  exists (refreshed key (RequestBuilder.Fulfilled (refreshValue r))
                    (refreshEvents env config r) stB).
  split; [|split; [apply refreshed_unregistered | reflexivity]].
  rewrite (send_swr env fuel st0 Hswr). fold config.
  rewrite (swr_run env fuel config (started env st0) stK stA stB cacheKey
             staleData r Hkey Hget Hfree Hexec Hfuel).
  fold key. destruct staleData; destruct r; try reflexivity; congruence.
Qed.

Lemma swr_send_never_rejects_example :
  exists st',
    RequestBuilder.send offlineEnv 1 swrRequest = (RequestBuilder.Ok VNull, st').
Proof.
  destruct (swr_send_never_rejects offlineEnv 1 swrRequest
              (started offlineEnv swrRequest)
              (started offlineEnv swrRequest)
              (snd (RequestBuilder._executeRequestAndHandleCallbacks offlineEnv 1
                      (RequestBuilder._buildFinalConfig
                         (RequestBuilder.this swrRequest))
                      (started offlineEnv swrRequest)))
              "GET::https://api.example.com/users"
              VNull
              (fst (RequestBuilder._executeRequestAndHandleCallbacks offlineEnv 1
                      (RequestBuilder._buildFinalConfig
                         (RequestBuilder.this swrRequest))
                      (started offlineEnv swrRequest))))
    as (st' & Hsend & _).
  - reflexivity.
  - reflexivity.
  - reflexivity.
  - reflexivity.
  - apply surjective_pairing.
  - vm_compute. discriminate.
  - exists st'. exact Hsend.
Defined.

(* ===================================================================== *)
(** * Further properties *)
(* ===================================================================== *)

(** ** More on the built-in cache *)

Section CacheLookupFacts.

Import SimpleCache.

Implicit Types (m : list (string * CacheEntry)) (c : SimpleCache.t).

Lemma map_get_set_same m key e : map_get (map_set m key e) key = Some e.
Proof.
  induction m as [|[k e'] m IH]; simpl.
  - now rewrite String.eqb_refl.
  - destruct (String.eqb k key) eqn:E; simpl; rewrite E; auto.
Qed.

Lemma map_get_set_other m key e key' :
  key' <> key -> map_get (map_set m key e) key' = map_get m key'.
Proof.
  intros Hne. induction m as [|[k e'] m IH]; simpl.
  - destruct (String.eqb key key') eqn:E; [|reflexivity].
    apply String.eqb_eq in E. congruence.
  - destruct (String.eqb k key) eqn:E; simpl.
    + apply String.eqb_eq in E. subst k.
      destruct (String.eqb key key') eqn:E'; [|reflexivity].
      apply String.eqb_eq in E'. congruence.
    + destruct (String.eqb k key'); auto.
Qed.

Lemma map_get_delete_other m key key' :
  key' <> key -> map_get (map_delete m key) key' = map_get m key'.
Proof.
  intros Hne. induction m as [|[k e'] m IH]; simpl; [reflexivity|].
  destruct (String.eqb k key) eqn:E; simpl.
  - apply String.eqb_eq in E. subst k.
    destruct (String.eqb key key') eqn:E'; [|reflexivity].
    apply String.eqb_eq in E'. congruence.
  - destruct (String.eqb k key'); auto.
Qed.

Lemma map_get_absent m key : ~ In key (keys m) -> map_get m key = None.
Proof.
  induction m as [|[k e'] m IH]; simpl; intros Hno; [reflexivity|].
  destruct (String.eqb k key) eqn:E.
  - apply String.eqb_eq in E. tauto.
  - apply IH. tauto.
Qed.

Lemma map_get_present m key e : map_get m key = Some e -> In key (keys m).
Proof.
  induction m as [|[k e'] m IH]; simpl; [discriminate|].
  destruct (String.eqb k key) eqn:E.
  - apply String.eqb_eq in E. auto.
  - auto.
Qed.

Lemma map_get_delete_same m key :
  List.NoDup (keys m) -> map_get (map_delete m key) key = None.
Proof.
  induction m as [|[k e'] m IH]; simpl; intros Hnd; [reflexivity|].
  apply List.NoDup_cons_iff in Hnd as [Hk Hnd].
  destruct (String.eqb k key) eqn:E; simpl.
  - apply String.eqb_eq in E. subst k. now apply map_get_absent.
  - rewrite E. auto.
Qed.

Lemma map_delete_length m key :
  map_size (map_delete m key) =
  map_size m - (if map_has m key then 1 else 0).
Proof.
  unfold map_size, map_has.
  induction m as [|[k e'] m IH]; simpl length; simpl map_get;
    simpl map_delete; [reflexivity|].
  destruct (String.eqb k key); simpl length; [lia|].
  destruct (map_get m key); lia.
Qed.

Lemma map_get_filter (p : string * CacheEntry -> bool) m key :
  List.NoDup (keys m) ->
  map_get (List.filter p m) key =
  match map_get m key with
  | Some e => if p (key, e) then Some e else None
  | None => None
  end.
Proof.
  induction m as [|[k e'] m IH]; simpl; intros Hnd; [reflexivity|].
  apply List.NoDup_cons_iff in Hnd as [Hk Hnd].
  destruct (String.eqb k key) eqn:E.
  - apply String.eqb_eq in E. subst k.
    destruct (p (key, e')); simpl.
    + now rewrite String.eqb_refl.
    + rewrite IH by assumption. now rewrite (map_get_absent m key Hk).
  - destruct (p (k, e')); simpl; [rewrite E|]; auto.
Qed.

Lemma cache_after_set key data ttl etag metadata now c :
  cache (set key data ttl etag metadata now c) =
  map_set (cache (if evicts key c then _evictOldest c else c)) key
          {| SimpleCache.data := data; expiry := now + ttl; createdAt := now;
             SimpleCache.etag := etag; SimpleCache.metadata := metadata |}.
Proof. unfold set, evicts. now rewrite cache_incrementStat. Qed.

Lemma cache_get_hit key now c e :
  map_get (cache c) key = Some e -> (expiry e <? now) = false ->
  SimpleCache.get key now c = (data e, _incrementStat Hits c).
Proof. intros Hget Hlive. unfold SimpleCache.get. now rewrite Hget, Hlive. Qed.

Lemma get_after_set key data ttl etag metadata now later c :
  fst (SimpleCache.get key later
         (set key data ttl etag metadata now c)) =
  (if now + ttl <? later then VNull else data).
Proof.
  unfold SimpleCache.get. rewrite cache_after_set, map_get_set_same. simpl.
  destruct (now + ttl <? later); reflexivity.
Qed.

Lemma statistics_incrementStat_off c stat :
  enableStats c = false -> _incrementStat stat c = c.
Proof. intros Hoff. unfold _incrementStat. now rewrite Hoff. Qed.

End CacheLookupFacts.

(** X1: An entry that was stored is read back up to and including its expiry
    instant [now + ttl], and not after it, whatever the capacity and the
    previous contents of the cache. *)
Theorem SimpleCache_set_get_roundtrip
        (c : SimpleCache.t) (key : string) (data : JsVal) (ttl : Z)
        (etag metadata : JsVal) (now later : Z) :
  let c' := SimpleCache.set key data ttl etag metadata now c in
  fst (SimpleCache.get key later c') =
    (if now + ttl <? later then VNull else data) /\
  fst (SimpleCache.has key later c') = negb (now + ttl <? later).
Proof.
  intros c'. subst c'. split; [apply get_after_set|].
  unfold SimpleCache.has. rewrite cache_after_set, map_get_set_same. simpl.
  destruct (now + ttl <? later); reflexivity.
Qed.

(** X2: [set(key, ...)] leaves what is stored under every other key as it was,
    with one exception: when it finds the cache at capacity and [key] is
    new, the oldest key is the one that may be lost. *)
Theorem SimpleCache_set_other_keys
        (c : SimpleCache.t) (key other : string) (data : JsVal) (ttl : Z)
        (etag metadata : JsVal) (now : Z) :
  other <> key ->
  let c' := SimpleCache.set key data ttl etag metadata now c in
  SimpleCache.map_get (SimpleCache.cache c') other =
    SimpleCache.map_get (SimpleCache.cache c) other \/
  (evicts key c = true /\
   SimpleCache.map_first_key (SimpleCache.cache c) = Some other).
Proof.
  intros Hne c'. subst c'. rewrite cache_after_set.
  rewrite map_get_set_other by assumption.
  destruct (evicts key c) eqn:Hev; [|now left].
  unfold SimpleCache._evictOldest.
  destruct (SimpleCache.cache c) as [|[k0 e0] rest] eqn:Hc.
  - simpl. rewrite Hc. now left.
  - cbn [SimpleCache.map_first_key]. rewrite cache_incrementStat.
    cbn [SimpleCache.cache SimpleCache.with_cache].
    rewrite map_delete_first. simpl.
    destruct (String.eqb k0 other) eqn:E.
    + apply String.eqb_eq in E. subst k0. right. auto.
    + now left.
Qed.

Lemma SimpleCache_set_other_keys_witness :
  SimpleCache.map_get
    (SimpleCache.cache
       (SimpleCache.set "c" (VNum 3) 50 VUndefined VUndefined 20 countingCache))
    "b" = SimpleCache.map_get (SimpleCache.cache countingCache) "b" \/
  (evicts "c" countingCache = true /\
   SimpleCache.map_first_key (SimpleCache.cache countingCache) = Some "b").
Proof.
  apply (SimpleCache_set_other_keys countingCache "c" "b" (VNum 3) 50
           VUndefined VUndefined 20).
  discriminate.
Defined.

(** X3: [delete(key)] reports whether an entry was stored under [key], expired
    or not; afterwards [key] is absent at every time, one entry less is held
    if there was one, and every other key is untouched. *)
Theorem SimpleCache_delete_removes (c : SimpleCache.t) (key : string) :
  uniqueKeys c ->
  let existed := fst (SimpleCache.delete key c) in
  let c' := snd (SimpleCache.delete key c) in
  existed = SimpleCache.map_has (SimpleCache.cache c) key /\
  SimpleCache.map_size (SimpleCache.cache c') =
    SimpleCache.map_size (SimpleCache.cache c) - (if existed then 1 else 0) /\
  (forall now, fst (SimpleCache.get key now c') = VNull /\
               fst (SimpleCache.has key now c') = false) /\
  (forall other, other <> key ->
     SimpleCache.map_get (SimpleCache.cache c') other =
     SimpleCache.map_get (SimpleCache.cache c) other).
Proof.
  intros Hnd existed c'. subst existed c'. unfold SimpleCache.delete.
  cbn [fst snd].
  assert (Hcache :
    SimpleCache.cache
      (if SimpleCache.map_has (SimpleCache.cache c) key
       then SimpleCache._incrementStat SimpleCache.Deletes
              (SimpleCache.with_cache c
                 (SimpleCache.map_delete (SimpleCache.cache c) key))
       else SimpleCache.with_cache c
              (SimpleCache.map_delete (SimpleCache.cache c) key)) =
    SimpleCache.map_delete (SimpleCache.cache c) key).
  { destruct (SimpleCache.map_has _ _); [rewrite cache_incrementStat|];
      reflexivity. }
  split; [reflexivity|]. split.
  - rewrite Hcache. apply map_delete_length.
  - split.
    + intros now. unfold SimpleCache.get, SimpleCache.has.
      rewrite Hcache, map_get_delete_same by exact Hnd. auto.
    + intros other Hne. rewrite Hcache.
      now apply map_get_delete_other.
Qed.

Lemma SimpleCache_delete_removes_witness :
  fst (SimpleCache.delete "a" countingCache) = true /\
  SimpleCache.map_size
    (SimpleCache.cache (snd (SimpleCache.delete "a" countingCache))) = 1.
Proof.
  assert (Hnd : uniqueKeys countingCache).
  { unfold uniqueKeys. vm_compute.
    repeat constructor; simpl; intuition discriminate. }
  destruct (SimpleCache_delete_removes countingCache "a" Hnd)
    as (Hex & Hsize & _).
  split.
  - rewrite Hex. reflexivity.
  - rewrite Hsize. reflexivity.
Defined.

(** X4: [_cleanup()] drops exactly the entries whose expiry lies before [now]
    and returns how many they were.  No reader can tell that it ran: [get]
    and [has] answer after the sweep as they would have before it, and the
    statistics are left alone. *)
Theorem SimpleCache_cleanup_is_transparent (c : SimpleCache.t) (now : Z) :
  uniqueKeys c ->
  let cleanedCount := fst (SimpleCache._cleanup now c) in
  let c' := snd (SimpleCache._cleanup now c) in
  (forall key,
     SimpleCache.map_get (SimpleCache.cache c') key =
     live now (SimpleCache.map_get (SimpleCache.cache c) key)) /\
  cleanedCount =
    SimpleCache.map_size (SimpleCache.cache c) -
    SimpleCache.map_size (SimpleCache.cache c') /\
  0 <= cleanedCount /\
  (forall key,
     fst (SimpleCache.get key now c') = fst (SimpleCache.get key now c) /\
     fst (SimpleCache.has key now c') = fst (SimpleCache.has key now c)) /\
  SimpleCache.statistics c' = SimpleCache.statistics c.
Proof.
  intros Hnd cleanedCount c'. subst cleanedCount c'.
  unfold SimpleCache._cleanup. cbn [fst snd SimpleCache.cache
    SimpleCache.with_cache SimpleCache.statistics].
  assert (Hlook : forall key,
    SimpleCache.map_get
      (List.filter (fun ke => negb (SimpleCache.expiry (snd ke) <? now))
                   (SimpleCache.cache c)) key =
    live now (SimpleCache.map_get (SimpleCache.cache c) key)).
  { intros key. rewrite map_get_filter by exact Hnd. unfold live.
    destruct (SimpleCache.map_get (SimpleCache.cache c) key) as [e|];
      [|reflexivity].
    simpl. destruct (SimpleCache.expiry e <? now); reflexivity. }
  split; [exact Hlook|]. split; [reflexivity|]. split.
  - unfold SimpleCache.map_size.
    pose proof (List.filter_length_le
      (fun ke => negb (SimpleCache.expiry (snd ke) <? now))
      (SimpleCache.cache c)). lia.
  - split; [|reflexivity].
    intros key. unfold SimpleCache.get, SimpleCache.has.
    cbn [SimpleCache.cache SimpleCache.with_cache].
    rewrite Hlook. unfold live.
    destruct (SimpleCache.map_get (SimpleCache.cache c) key) as [e|];
      [|auto].
    destruct (SimpleCache.expiry e <? now) eqn:E; [auto|].
    rewrite E. auto.
Qed.

Lemma SimpleCache_cleanup_is_transparent_witness :
  fst (SimpleCache._cleanup 55 countingCache) = 1 /\
  fst (SimpleCache.get "b" 55 (snd (SimpleCache._cleanup 55 countingCache))) =
  fst (SimpleCache.get "b" 55 countingCache).
Proof.
  assert (Hnd : uniqueKeys countingCache).
  { unfold uniqueKeys. vm_compute.
    repeat constructor; simpl; intuition discriminate. }
  destruct (SimpleCache_cleanup_is_transparent countingCache 55 Hnd)
    as (_ & Hcount & _ & Hread & _).
  split.
  - rewrite Hcount. reflexivity.
  - apply Hread.
Defined.

(** X5: Eviction goes by first insertion, not by use: in a full cache, the
    oldest key is the one evicted by the next new key even if it has just
    been read, and even if it has just been overwritten. *)
Theorem SimpleCache_eviction_ignores_use
        (c : SimpleCache.t) (oldest key : string) (now : Z)
        (data data' : JsVal) (ttl ttl' : Z) (etag metadata : JsVal) :
  uniqueKeys c ->
  SimpleCache.map_first_key (SimpleCache.cache c) = Some oldest ->
  SimpleCache.maxSize c <= SimpleCache.map_size (SimpleCache.cache c) ->
  SimpleCache.map_has (SimpleCache.cache c) key = false ->
  let read := snd (SimpleCache.get oldest now c) in
  let overwritten :=
    SimpleCache.set oldest data' ttl' etag metadata now c in
  SimpleCache.map_has
    (SimpleCache.cache
       (SimpleCache.set key data ttl etag metadata now read)) oldest = false /\
  SimpleCache.map_has
    (SimpleCache.cache
       (SimpleCache.set key data ttl etag metadata now overwritten)) oldest
    = false.
Proof.
  intros Hnd Hfirst Hfull Hnew read overwritten. subst read overwritten.
  destruct (SimpleCache.cache c) as [|[k0 e0] rest] eqn:Hc; [discriminate|].
  simpl in Hfirst. injection Hfirst as ->.
  unfold uniqueKeys in Hnd. rewrite Hc in Hnd. simpl in Hnd.
  apply List.NoDup_cons_iff in Hnd as [Hk0 Hnd].
  assert (Hne : oldest <> key).
  { intros ->. unfold SimpleCache.map_has in Hnew. simpl in Hnew.
    rewrite String.eqb_refl in Hnew. discriminate. }
  assert (Hevict : forall c1 entry,
    SimpleCache.cache c1 = (oldest, entry) :: rest ->
    SimpleCache.maxSize c1 = SimpleCache.maxSize c ->
    SimpleCache.map_has
      (SimpleCache.cache
         (SimpleCache.set key data ttl etag metadata now c1)) oldest = false).
  { intros c1 entry Hc1 Hmax. rewrite cache_after_set.
    assert (Hev : evicts key c1 = true).
    { unfold evicts. rewrite Hc1, Hmax. apply andb_true_intro. split.
      - apply Z.leb_le. unfold SimpleCache.map_size in *. simpl in *. lia.
      - unfold SimpleCache.map_has in *. simpl in *.
        destruct (String.eqb oldest key); [discriminate|].
        now rewrite Hnew. }
    rewrite Hev. unfold SimpleCache._evictOldest. rewrite Hc1. simpl.
    rewrite cache_incrementStat. simpl. rewrite String.eqb_refl.
    apply map_has_get. rewrite map_get_set_other by assumption.
    now apply map_get_absent. }
  split.
  - unfold SimpleCache.get. rewrite Hc. simpl. rewrite String.eqb_refl.
    destruct (SimpleCache.expiry e0 <? now).
    + (* the read found it expired and dropped it *)
      rewrite cache_after_set.
      assert (Hgone : forall c1,
        SimpleCache.cache c1 = rest ->
        SimpleCache.map_has
          (SimpleCache.map_set
             (SimpleCache.cache
                (if evicts key c1 then SimpleCache._evictOldest c1 else c1))
             key {| SimpleCache.data := data; SimpleCache.expiry := now + ttl;
                    SimpleCache.createdAt := now; SimpleCache.etag := etag;
                    SimpleCache.metadata := metadata |}) oldest = false).
      { intros c1 Hc1. apply map_has_get.
        rewrite map_get_set_other by assumption.
        destruct (evicts key c1).
        - unfold SimpleCache._evictOldest. rewrite Hc1.
          destruct rest as [|[k1 e1] rest']; simpl.
          + now rewrite Hc1.
          + rewrite cache_incrementStat. simpl. rewrite String.eqb_refl.
            apply map_get_absent. simpl in Hk0. tauto.
        - rewrite Hc1. now apply map_get_absent. }
      apply Hgone. cbn [snd]. rewrite cache_incrementStat. simpl.
      reflexivity.
    + cbn [snd]. apply (Hevict _ e0).
      * now rewrite cache_incrementStat.
      * now rewrite maxSize_incrementStat.
  - eapply Hevict.
    + rewrite cache_after_set.
      assert (Hev : evicts oldest c = false).
      { unfold evicts, SimpleCache.map_has. rewrite Hc. simpl.
        rewrite String.eqb_refl. apply andb_false_r. }
      rewrite Hev, Hc. simpl. rewrite String.eqb_refl. reflexivity.
    + unfold SimpleCache.set. rewrite maxSize_incrementStat. simpl.
      destruct (_ && _); [|reflexivity].
      unfold SimpleCache._evictOldest.
      destruct (SimpleCache.map_first_key _); [|reflexivity].
      now rewrite maxSize_incrementStat.
Qed.

Lemma SimpleCache_eviction_ignores_use_witness :
  SimpleCache.map_has
    (SimpleCache.cache
       (SimpleCache.set "c" (VNum 3) 50 VUndefined VUndefined 20
          (snd (SimpleCache.get "a" 20 countingCache)))) "a" = false /\
  SimpleCache.map_has
    (SimpleCache.cache
       (SimpleCache.set "c" (VNum 3) 50 VUndefined VUndefined 20
          (SimpleCache.set "a" (VNum 9) 70 VUndefined VUndefined 20
             countingCache))) "a" = false.
Proof.
  apply (SimpleCache_eviction_ignores_use countingCache "a" "c" 20
           (VNum 3) (VNum 9) 50 70 VUndefined VUndefined).
  - unfold uniqueKeys. vm_compute.
    repeat constructor; simpl; intuition discriminate.
  - reflexivity.
  - vm_compute. discriminate.
  - reflexivity.
Defined.

(** X6: The counters move only when statistics are enabled, and then exactly:
    [get] counts one hit or one miss, [set] one set and one eviction if it
    evicted, [delete] one delete if the key was stored.  [has] and
    [_cleanup] count nothing, although they drop expired entries. *)
Theorem SimpleCache_statistics_accounting
        (c : SimpleCache.t) (key : string) (now : Z) (data : JsVal) (ttl : Z)
        (etag metadata : JsVal) :
  let on := SimpleCache.enableStats c in
  let s := SimpleCache.statistics c in
  let hit :=
    match live now (SimpleCache.map_get (SimpleCache.cache c) key) with
    | Some _ => true
    | None => false
    end in
  let evicted :=
    evicts key c &&
    match SimpleCache.map_first_key (SimpleCache.cache c) with
    | Some _ => true
    | None => false
    end in
  SimpleCache.statistics (snd (SimpleCache.get key now c)) =
    {| SimpleCache.hits := SimpleCache.hits s + count hit on;
       SimpleCache.misses := SimpleCache.misses s + count (negb hit) on;
       SimpleCache.sets := SimpleCache.sets s;
       SimpleCache.deletes := SimpleCache.deletes s;
       SimpleCache.evictions := SimpleCache.evictions s |} /\
  SimpleCache.statistics
    (SimpleCache.set key data ttl etag metadata now c) =
    {| SimpleCache.hits := SimpleCache.hits s;
       SimpleCache.misses := SimpleCache.misses s;
       SimpleCache.sets := SimpleCache.sets s + count true on;
       SimpleCache.deletes := SimpleCache.deletes s;
       SimpleCache.evictions := SimpleCache.evictions s + count evicted on |} /\
  SimpleCache.statistics (snd (SimpleCache.delete key c)) =
    {| SimpleCache.hits := SimpleCache.hits s;
       SimpleCache.misses := SimpleCache.misses s;
       SimpleCache.sets := SimpleCache.sets s;
       SimpleCache.deletes :=
         SimpleCache.deletes s +
         count (SimpleCache.map_has (SimpleCache.cache c) key) on;
       SimpleCache.evictions := SimpleCache.evictions s |} /\
  SimpleCache.statistics (snd (SimpleCache.has key now c)) = s /\
  SimpleCache.statistics (snd (SimpleCache._cleanup now c)) = s.
Proof.
  intros on s hit evicted. subst on s hit evicted.
  unfold SimpleCache.get, SimpleCache.set, SimpleCache.delete,
    SimpleCache.has, SimpleCache._cleanup, SimpleCache._evictOldest, evicts,
    live, count, SimpleCache._incrementStat.
  destruct c as [m size on [h mi se de ev]]. simpl.
  repeat split.
  - destruct (SimpleCache.map_get m key) as [e|]; simpl.
    + destruct (SimpleCache.expiry e <? now); simpl;
        destruct on; simpl; f_equal; lia.
    + destruct on; simpl; f_equal; lia.
  - destruct ((size <=? SimpleCache.map_size m)
              && negb (SimpleCache.map_has m key)); simpl.
    + destruct m as [|[k0 e0] rest]; simpl; destruct on; simpl;
        f_equal; lia.
    + destruct on; simpl; f_equal; lia.
  - destruct (SimpleCache.map_has m key); simpl; destruct on; simpl;
      f_equal; lia.
  - destruct (SimpleCache.map_get m key) as [e|]; simpl; [|reflexivity].
    destruct (SimpleCache.expiry e <? now); reflexivity.
Qed.

(** X7: [has] and [get] agree: [has(key)] is true exactly when [get(key)]
    finds an entry that has not expired and returns its data, a false
    [has] means [get] returns [null], and both leave the same entries
    behind. *)
Theorem SimpleCache_has_agrees_with_get
        (c : SimpleCache.t) (key : string) (now : Z) :
  (fst (SimpleCache.has key now c) = true <->
   exists e,
     SimpleCache.map_get (SimpleCache.cache c) key = Some e /\
     now <= SimpleCache.expiry e /\
     fst (SimpleCache.get key now c) = SimpleCache.data e) /\
  (fst (SimpleCache.has key now c) = false ->
   fst (SimpleCache.get key now c) = VNull) /\
  SimpleCache.cache (snd (SimpleCache.has key now c)) =
  SimpleCache.cache (snd (SimpleCache.get key now c)).
Proof.
  unfold SimpleCache.has, SimpleCache.get.
  destruct (SimpleCache.map_get (SimpleCache.cache c) key) as [e|] eqn:Hget.
  - destruct (SimpleCache.expiry e <? now) eqn:Hexp; simpl;
      rewrite cache_incrementStat.
    + apply Z.ltb_lt in Hexp. split; [|auto]. split; [discriminate|].
      intros (e' & He' & Hlive & _). injection He' as <-. lia.
    + apply Z.ltb_ge in Hexp. split; [|split; [discriminate | reflexivity]].
      split; [|reflexivity]. intros _. exists e. auto.
  - simpl. rewrite cache_incrementStat. split; [|auto].
    split; [discriminate|]. intros (e' & He' & _). discriminate.
Qed.

(** ** The error class *)

(** X8: [VortexError.fromError] never fails on a plain [Error], and what it
    returns is settled by the error alone when the error names an abort or
    a timeout: [AbortError] gives ABORT (even with a timeout message),
    [TimeoutError] or a message containing ["timeout"] gives TIMEOUT, and
    only otherwise the type asked for is used.  The error is kept as
    [originalError] and an empty message is replaced.  Whatever it returns
    is a [VortexError], and wrapping that again returns it unchanged. *)
Theorem fromError_classifies :
  (forall name message type requestConfig,
     let classified := classifiedAs name message type in
     VortexError.fromError (VError name message) type requestConfig =
     Normal (VVortexError classified
               (messageOr message (fallbackFor name))
               VNull VNull requestConfig (VError name message) (VObj ∅))) /\
  (forall error type requestConfig wrapped,
     VortexError.fromError error type requestConfig = Normal wrapped ->
     Js.isVortexError wrapped = true /\
     forall type' requestConfig',
       VortexError.fromError wrapped type' requestConfig' = Normal wrapped).
Proof.
  split.
  - intros name message type requestConfig classified. subst classified.
    unfold VortexError.fromError, classifiedAs, messageOr, fallbackFor. simpl.
    destruct (String.eqb name "AbortError") eqn:Habort.
    + destruct (String.eqb message ""); reflexivity.
    + destruct (String.eqb name "TimeoutError") eqn:Htimeout; simpl.
      * destruct (String.eqb message ""); reflexivity.
      * destruct (Js.includes message "timeout") eqn:Hinc.
        -- destruct (String.eqb message "") eqn:Hempty; [|reflexivity].
           apply String.eqb_eq in Hempty. subst message. discriminate.
        -- destruct (String.eqb message ""); reflexivity.
  - intros error type requestConfig wrapped Hwrap.
    assert (Hv : Js.isVortexError wrapped = true).
    { unfold VortexError.fromError in Hwrap.
      destruct (Js.isVortexError error) eqn:Herr; [congruence|].
      destruct (Js.nullish error); [discriminate|].
      destruct (Js.isStr "AbortError" (Js.nameOf error));
        [injection Hwrap as <-; reflexivity|].
      destruct (Js.isStr "TimeoutError" (Js.nameOf error));
        [injection Hwrap as <-; reflexivity|].
      destruct (Js.messageOf error) as [| | | | |m|xs| | | | |];
        try discriminate.
      - destruct (Js.includes m "timeout"); injection Hwrap as <-;
          reflexivity.
      - destruct (existsb (Js.isStr "timeout") xs); injection Hwrap as <-;
          reflexivity. }
    split; [exact Hv|].
    intros type' requestConfig'. unfold VortexError.fromError.
    now rewrite Hv.
Qed.

(** X9: An error made from a response is an HTTP error carrying the status of
    the response, and the status predicates read that status: it is a client
    error exactly on 400..499 and a server error exactly on 500..599.  For
    any value at all the two predicates exclude each other and hold of HTTP
    errors only. *)
Theorem fromResponse_status_predicates :
  (forall response responseBody requestConfig code,
     let error :=
       RequestBuilder.fromResponse response responseBody requestConfig in
     let status := RequestBuilder.status response in
     VortexError.isType error HTTP = true /\
     VortexError.hasStatus error code = (status =? code) /\
     VortexError.isClientError error = ((400 <=? status) && (status <? 500)) /\
     VortexError.isServerError error = ((500 <=? status) && (status <? 600))) /\
  (forall error,
     VortexError.isClientError error && VortexError.isServerError error
       = false /\
     (VortexError.isClientError error || VortexError.isServerError error
        = true -> VortexError.isType error HTTP = true)).
Proof.
  split.
  - intros response responseBody requestConfig code error status.
    subst error status. repeat split.
  - intros error. unfold VortexError.isClientError, VortexError.isServerError.
    split.
    + destruct (VortexError.isType error HTTP); [|reflexivity]. simpl.
      unfold Js.inRange.
      destruct (Js.toNumber (VortexError.statusOf error)) as [s|];
        [|reflexivity].
      destruct (400 <=? s) eqn:H1, (s <? 500) eqn:H2, (500 <=? s) eqn:H3,
        (s <? 600) eqn:H4; try reflexivity; lia.
    + destruct (VortexError.isType error HTTP); [reflexivity|].
      simpl. discriminate.
Qed.

(** ** More on the builder *)

Section BuilderFacts.

Import RequestBuilder.

Lemma firstOwn_union (a b : gmap string JsVal) rest k :
  firstOwn ((a ∪ b) :: rest) k = firstOwn (a :: b :: rest) k.
Proof.
  simpl. destruct (a !! k) as [v|] eqn:Ha.
  - now rewrite (lookup_union_Some_l a b k v Ha).
  - rewrite lookup_union_r by exact Ha. reflexivity.
Qed.

Lemma spread_assoc (p a b : gmap string JsVal) :
  Js.spread (Js.spread p a) b = Js.spread p (Js.spread a b).
Proof. unfold Js.spread. apply (assoc_L (∪)). Qed.

End BuilderFacts.

(** X10: Calls of one mutator accumulate key by key, a later call winning where
    both name a key, so that two calls amount to one call with the merged
    object; [body] keeps the last value only; and calls of different
    mutators can be made in any order. *)
Theorem mutators_accumulate (rb : RequestBuilder.t) :
  (forall a b : gmap string JsVal,
     RequestBuilder.pathParams (VObj b)
       (snd (RequestBuilder.pathParams (VObj a) rb)) =
     RequestBuilder.pathParams (VObj (Js.spread a b)) rb /\
     RequestBuilder.search (VObj b)
       (snd (RequestBuilder.search (VObj a) rb)) =
     RequestBuilder.search (VObj (Js.spread a b)) rb /\
     RequestBuilder.settings (VObj b)
       (snd (RequestBuilder.settings (VObj a) rb)) =
     RequestBuilder.settings (VObj (Js.spread a b)) rb) /\
  (forall first last : JsVal,
     RequestBuilder.body last (snd (RequestBuilder.body first rb)) =
     RequestBuilder.body last rb) /\
  (forall p s g d : JsVal,
     let chain := fun f1 f2 f3 f4 (rb : RequestBuilder.t) =>
       snd (f4 (snd (f3 (snd (f2 (snd (f1 rb))))))) in
     chain (RequestBuilder.pathParams p) (RequestBuilder.search s)
           (RequestBuilder.settings g) (RequestBuilder.body d) rb =
     chain (RequestBuilder.body d) (RequestBuilder.settings g)
           (RequestBuilder.search s) (RequestBuilder.pathParams p) rb).
Proof.
  destruct rb as [method endpoint mconf cconf inst [rc|] ac].
  - split; [|split].
    + intros a b. unfold RequestBuilder.pathParams, RequestBuilder.search,
        RequestBuilder.settings. simpl.
      rewrite !spread_assoc. auto.
    + intros first last. reflexivity.
    + intros p s g d chain. subst chain.
      unfold RequestBuilder.pathParams, RequestBuilder.search,
        RequestBuilder.settings, RequestBuilder.body.
      destruct (negb (Js.isNull p) && negb (Js.isUndefined p));
        destruct (negb (Js.isNull s) && negb (Js.isUndefined s));
        destruct (negb (Js.isNull g) && negb (Js.isUndefined g));
        destruct (negb (String.eqb (Js.typeof p) "object") || Js.isArray p);
        destruct (negb (String.eqb (Js.typeof s) "object") || Js.isArray s);
        destruct (negb (String.eqb (Js.typeof g) "object") || Js.isArray g);
        reflexivity.
  - split; [|split].
    + intros a b. repeat split.
    + intros first last. reflexivity.
    + intros p s g d chain. subst chain.
      unfold RequestBuilder.pathParams, RequestBuilder.search,
        RequestBuilder.settings, RequestBuilder.body.
      destruct (negb (Js.isNull p) && negb (Js.isUndefined p));
        destruct (negb (Js.isNull s) && negb (Js.isUndefined s));
        destruct (negb (Js.isNull g) && negb (Js.isUndefined g));
        destruct (negb (String.eqb (Js.typeof p) "object") || Js.isArray p);
        destruct (negb (String.eqb (Js.typeof s) "object") || Js.isArray s);
        destruct (negb (String.eqb (Js.typeof g) "object") || Js.isArray g);
        reflexivity.
Qed.

Section ResolutionFacts.

Import RequestBuilder.

Lemma existsb_eqb_false k ks :
  existsb (String.eqb k) ks = false -> Forall (fun k' => k <> k') ks.
Proof.
  induction ks as [|k' ks IH]; simpl; intros Hno; constructor.
  - intros ->. rewrite String.eqb_refl in Hno. discriminate.
  - apply IH. now apply orb_false_elim in Hno as [_ Hno].
Qed.

Lemma ownProps_merged_other rb k :
  k <> "validateStatus" ->
  Js.ownProps (_buildFinalConfig rb) !! k = mergedLiteral rb !! k.
Proof.
  intros Hk. unfold _buildFinalConfig.
  destruct (Js.isStr "manual" (Js.get (VObj (mergedLiteral rb)) "redirect"));
    [|reflexivity].
  simpl. now rewrite lookup_insert_ne by congruence.
Qed.

Lemma get_firstOwn (props : gmap string JsVal) k :
  Js.get (VObj props) k = default VUndefined (firstOwn [props] k).
Proof. simpl. destruct (props !! k); reflexivity. Qed.

(** The spread of the four levels over the defaults, in lookup form. *)
Lemma spreadLevels_lookup (d c e m r : gmap string JsVal) k :
  Js.spread (Js.spread (Js.spread (Js.spread d c) e) m) r !! k =
  firstOwn [r; m; e; c; d] k.
Proof.
  unfold Js.spread.
  pose proof (firstOwn_union r (m ∪ (e ∪ (c ∪ d))) [] k) as H1.
  pose proof (firstOwn_union m (e ∪ (c ∪ d)) [] k) as H2.
  pose proof (firstOwn_union e (c ∪ d) [] k) as H3.
  pose proof (firstOwn_union c d [] k) as H4.
  simpl in *.
  destruct (r !! k); [destruct ((r ∪ (m ∪ (e ∪ (c ∪ d)))) !! k); congruence|].
  rewrite <- H1 in *.
  destruct (m !! k); [destruct ((r ∪ (m ∪ (e ∪ (c ∪ d)))) !! k); congruence|].
  destruct (e !! k);
    [destruct ((r ∪ (m ∪ (e ∪ (c ∪ d)))) !! k), ((m ∪ (e ∪ (c ∪ d))) !! k);
     congruence|].
  destruct (c !! k);
    destruct ((r ∪ (m ∪ (e ∪ (c ∪ d)))) !! k), ((m ∪ (e ∪ (c ∪ d))) !! k),
      ((e ∪ (c ∪ d)) !! k), ((c ∪ d) !! k), (d !! k); congruence.
Qed.

Lemma mergeNested_lookup k base c e m r f :
  mergeNested k base c e m r !! f =
  firstOwn [Js.ownProps (Js.or (Js.get r k) (VObj ∅));
            Js.ownProps (Js.or (Js.get m k) (VObj ∅));
            Js.ownProps (Js.or (Js.get e k) (VObj ∅));
            Js.ownProps (Js.or (Js.get c k) (VObj ∅)); base] f.
Proof. unfold mergeNested. apply spreadLevels_lookup. Qed.

Lemma fold_collect mapperType levels : forall acc,
  fold_left (collectLevel mapperType) levels acc =
  if existsb breaksInheritance levels
  then flat_map (fun l => levelMappers mapperType (fst l) (snd l))
                (fromLastBreak levels)
  else (acc ++ flat_map (fun l => levelMappers mapperType (fst l) (snd l))
                        levels)%list.
Proof.
  induction levels as [|[config name] rest IH]; intros acc.
  - simpl. now rewrite app_nil_r.
  - cbn [fold_left existsb fromLastBreak flat_map fst snd]. rewrite IH.
    change (breaksInheritance (config, name))
      with (Js.isFalse (Js.get config "inheritMappers")).
    destruct (existsb breaksInheritance rest) eqn:Hrest.
    + now rewrite orb_true_r.
    + rewrite orb_false_r.
      destruct (Js.truthy config) eqn:Hc.
      * destruct (Js.isFalse (Js.get config "inheritMappers")) eqn:Hb.
        -- now rewrite collectLevel_break by assumption.
        -- rewrite collectLevel_inherit by assumption.
           now rewrite <- app_assoc.
      * rewrite collectLevel_absent by assumption.
        assert (Hget : forall k, Js.get config k = VUndefined).
        { intros k. destruct config; try reflexivity; discriminate. }
        unfold levelMappers. rewrite !Hget. reflexivity.
Qed.

End ResolutionFacts.

(** X11: A setting that [_buildFinalConfig] does not treat apart resolves to
    the value of the most specific level that has it as an own property
    (request, then method, endpoint, client, then the built-in default),
    whatever that value is: an explicit [0], [false] or [null] is kept. *)
Theorem setting_resolves_to_most_specific_level
        (rb : RequestBuilder.t) (k : string) :
  existsb (String.eqb k) ("validateStatus" :: writtenAfterSpread) = false ->
  Js.ownProps (RequestBuilder._buildFinalConfig rb) !! k =
  firstOwn
    [Js.ownProps (safeLevel (RequestBuilder.requestSettings rb));
     Js.ownProps (safeLevel (RequestBuilder.methodConfig rb));
     Js.ownProps (safeLevel (RequestBuilder.endpointConfig rb));
     Js.ownProps (safeLevel (RequestBuilder.clientConfig rb));
     RequestBuilder.defaults] k.
Proof.
  intros Hk. apply existsb_eqb_false in Hk. unfold writtenAfterSpread in Hk.
  repeat match goal with
         | H : Forall _ (_ :: _) |- _ =>
             apply Forall_cons in H as [? H]
         end.
  rewrite ownProps_merged_other by assumption.
  unfold RequestBuilder.mergedLiteral.
  repeat (rewrite lookup_insert_ne by congruence).
  rewrite spreadLevels_lookup. reflexivity.
Qed.

Lemma setting_resolves_to_most_specific_level_witness :
  Js.ownProps (RequestBuilder._buildFinalConfig zeroTimeoutRequest)
    !! "timeout" = Some (VNum 0).
Proof.
  rewrite (setting_resolves_to_most_specific_level zeroTimeoutRequest
             "timeout"); reflexivity.
Defined.

(** X12: [headers] and [cache] are merged field by field across the levels, not
    replaced level by level: each header, and each cache field, comes from
    the most specific level whose own [headers] (or [cache]) object has it.
    Below the client level the cache falls back to the built-in defaults and
    to the cache instance of the client. *)
Theorem nested_settings_merge_by_field (rb : RequestBuilder.t) (f : string) :
  let r := RequestBuilder.requestSettings rb in
  let m := RequestBuilder.methodConfig rb in
  let e := RequestBuilder.endpointConfig rb in
  let c := RequestBuilder.clientConfig rb in
  let final := RequestBuilder._buildFinalConfig rb in
  Js.ownProps (Js.get final "headers") !! f =
    firstOwn [nestedLevel r "headers"; nestedLevel m "headers";
              nestedLevel e "headers"; nestedLevel c "headers"] f /\
  Js.ownProps (Js.get final "cache") !! f =
    firstOwn [nestedLevel r "cache"; nestedLevel m "cache";
              nestedLevel e "cache"; nestedLevel c "cache";
              <["instance" :=
                  Js.get (Js.get (safeLevel c) "cache") "instance"]>
                RequestBuilder.defaultCache] f.
Proof.
  intros r m e c final. subst r m e c final.
  rewrite !get_merged_other by discriminate.
  unfold RequestBuilder.mergedLiteral, nestedLevel, safeLevel.
  cbn [Js.get]. split.
  - repeat (rewrite lookup_insert_ne by discriminate).
    rewrite lookup_insert_eq. cbn [from_option id Js.ownProps].
    rewrite mergeNested_lookup. cbn [firstOwn].
    rewrite lookup_empty.
    repeat match goal with
           | |- context [match ?x !! f with _ => _ end] => destruct (x !! f)
           end; reflexivity.
  - repeat (rewrite lookup_insert_ne by discriminate).
    rewrite lookup_insert_eq. cbn [from_option id Js.ownProps].
    rewrite mergeNested_lookup. reflexivity.
Qed.

(** X13: The mapper pipeline is made of the mappers of the levels from the last
    level that sets [inheritMappers: false] onward (of all four levels when
    none does), in the order client, endpoint, method, request, and within
    a level in the order of its array; what is not a function is left
    out. *)
Theorem mapper_pipeline_order (mapperType : string) (rb : RequestBuilder.t) :
  RequestBuilder._collectMappers mapperType rb =
  flat_map (fun l => levelMappers mapperType (fst l) (snd l))
           (fromLastBreak (RequestBuilder.levels rb)).
Proof.
  unfold RequestBuilder._collectMappers. rewrite fold_collect.
  destruct (existsb breaksInheritance (RequestBuilder.levels rb)) eqn:Hb;
    [reflexivity|].
  simpl app. f_equal.
  unfold RequestBuilder.levels in *. simpl in Hb |- *.
  repeat (apply orb_false_elim in Hb as [? Hb]).
  repeat match goal with
         | H : breaksInheritance _ = false |- _ => rewrite H; clear H
         end.
  simpl.
  repeat match goal with
         | |- context [breaksInheritance ?l] =>
             destruct (breaksInheritance l) eqn:?; try congruence
         end; reflexivity.
Qed.

(** X15: Once [_cleanup] has run the builder is spent: a mutator given an object
    (and [body] given anything) throws a [TypeError] rather than a
    [VortexError], [cancel] does nothing, no mapper is left, and the
    configuration it resolves keeps only the HTTP method: the base URL and
    the path are gone, there is no signal, and every setting is back at the
    built-in default. *)
Theorem cleaned_builder_is_spent (rb : RequestBuilder.t) :
  let spent := RequestBuilder._cleanup rb in
  (forall props : gmap string JsVal,
     RequestBuilder.pathParams (VObj props) spent
       = (Throw RequestBuilder.nullTypeError, spent) /\
     RequestBuilder.search (VObj props) spent
       = (Throw RequestBuilder.nullTypeError, spent) /\
     RequestBuilder.settings (VObj props) spent
       = (Throw RequestBuilder.nullTypeError, spent)) /\
  (forall data,
     RequestBuilder.body data spent
       = (Throw RequestBuilder.nullTypeError, spent)) /\
  (forall message, RequestBuilder.cancel message spent = spent) /\
  (forall mapperType, RequestBuilder._collectMappers mapperType spent = []) /\
  (forall k,
     Js.ownProps (RequestBuilder._buildFinalConfig spent) !! k =
     if String.eqb k "httpMethod"
     then Some (VStr (RequestBuilder.httpMethod rb))
     else if String.eqb k "body" then Some VNull
     else if String.eqb k "signal" then Some VUndefined
     else if existsb (String.eqb k) ["pathParams"; "searchParams"; "headers"]
     then Some (VObj ∅)
     else if String.eqb k "cache"
     then Some (VObj (<["instance" := VUndefined]>
                        RequestBuilder.defaultCache))
     else RequestBuilder.defaults !! k).
Proof.
  intros spent. subst spent.
  split; [intros props; repeat split|].
  split; [reflexivity|]. split; [reflexivity|]. split; [reflexivity|].
  intros k. unfold RequestBuilder._buildFinalConfig.
  change (Js.isStr "manual" _) with false. cbv iota.
  unfold RequestBuilder.mergedLiteral. cbn [RequestBuilder._cleanup
    RequestBuilder.clientConfig RequestBuilder.endpointConfig
    RequestBuilder.methodConfig RequestBuilder.requestConfig
    RequestBuilder.requestSettings RequestBuilder.abortController
    RequestBuilder.httpMethod Js.ownProps existsb].
  repeat match goal with
  | |- context [String.eqb k ?lit] =>
      let E := fresh "E" in
      destruct (String.eqb k lit) eqn:E;
      [apply String.eqb_eq in E; subst k; vm_compute; reflexivity
      |apply String.eqb_neq in E]
  end.
  cbn [orb].
  destruct (String.eqb k "maxRetries") eqn:H1;
    [apply String.eqb_eq in H1; subst k; reflexivity|].
  apply String.eqb_neq in H1.
  destruct (String.eqb k "redirect") eqn:H2;
    [apply String.eqb_eq in H2; subst k; reflexivity|].
  apply String.eqb_neq in H2.
  repeat (rewrite lookup_insert_ne by congruence).
  reflexivity.
Qed.

(** ** More on retries and mappers *)

(** X21: With budget left, [retry(overrides)] dispatches a configuration in
    which the counter is one more than before and [_isRetry] is set,
    whatever the overrides say about them; [headers], [pathParams] and
    [searchParams] are merged field by field, the overrides winning; and
    every other setting is the override if there is one and the original
    otherwise, the budget [maxRetries] included. *)
Theorem retry_applies_overrides
        {C : Type} `{CacheInterface C}
        (execute : JsVal -> @RequestBuilder.M C JsVal)
        (config : JsVal) (overrides : gmap string JsVal) (N k : Z)
        (st : @RequestBuilder.State C) :
  Js.get config "maxRetries" = VNum N ->
  retryCountOf config = VNum k ->
  0 <= k < N ->
  exists retryConfig,
    RequestBuilder._createRetryFunction execute config (VObj overrides) st =
      execute retryConfig st /\
    Js.get retryConfig "_retryCount" = VNum (k + 1) /\
    Js.get retryConfig "_isRetry" = VBool true /\
    (forall nested field,
       In nested retryMerged ->
       Js.ownProps (Js.get retryConfig nested) !! field =
       firstOwn [Js.ownProps (Js.get (VObj overrides) nested);
                 Js.ownProps (Js.get config nested)] field) /\
    (forall setting,
       existsb (String.eqb setting) (retryMerged ++ retryWritten) = false ->
       Js.ownProps retryConfig !! setting =
       firstOwn [overrides; Js.ownProps config] setting).
Proof.
  intros Hmax Hcount [Hk Hlt].
  unfold RequestBuilder._createRetryFunction.
  fold (retryCountOf config). rewrite Hmax, Hcount.
  assert (Hz : (N =? 0) = false) by (apply Z.eqb_neq; lia).
  assert (Hge : (N <=? k) = false) by (apply Z.leb_gt; lia).
  unfold Js.or at 1, Js.ge. cbn [Js.truthy Js.isUndefined Js.isNull].
  rewrite Hz. cbn [negb Js.toNumber Js.toPrimitive]. rewrite Hge.
  eexists. split; [reflexivity|].
  split; [|split; [|split]].
  - cbn [Js.get]. rewrite lookup_insert_ne by discriminate.
    rewrite lookup_insert_eq. reflexivity.
  - cbn [Js.get]. rewrite lookup_insert_eq. reflexivity.
  - intros nested field Hin. cbn [retryMerged In] in Hin.
    destruct Hin as [<-|[<-|[<-|[]]]];
      cbn [Js.get firstOwn];
      repeat (rewrite lookup_insert_ne by discriminate);
      rewrite lookup_insert_eq; cbn [from_option id Js.ownProps];
      unfold Js.spread;
      repeat match goal with
             | |- context [(?a ∪ ?b) !! field] =>
                 let E := fresh "E" in
                 destruct (a !! field) eqn:E;
                 [rewrite (lookup_union_Some_l a b field _ E)
                 |rewrite (lookup_union_r a b field E)]
             end;
      repeat match goal with
             | |- context [match ?x !! field with _ => _ end] =>
                 destruct (x !! field)
             end; reflexivity.
  - intros setting Hk'. unfold retryMerged, retryWritten in Hk'.
    cbn [app existsb] in Hk'.
    repeat (apply orb_false_elim in Hk' as [? Hk']).
    repeat match goal with
           | E : String.eqb setting _ = false |- _ =>
               apply String.eqb_neq in E
           end.
    cbn [firstOwn Js.ownProps].
    repeat (rewrite lookup_insert_ne by congruence).
    unfold Js.spread.
    destruct (overrides !! setting) eqn:E.
    + now rewrite (lookup_union_Some_l _ _ _ _ E).
    + rewrite lookup_union_r by exact E.
      destruct (Js.ownProps config !! setting); reflexivity.
Qed.

Lemma retry_applies_overrides_witness :
  exists retryConfig,
    RequestBuilder._createRetryFunction
      (fun config => @RequestBuilder.ret NoOpCache JsVal config)
      secondAttempt (VObj resettingOverrides) retryingRequest =
      (RequestBuilder.Ok retryConfig, retryingRequest) /\
    Js.get retryConfig "_retryCount" = VNum 2 /\
    Js.ownProps (Js.get retryConfig "headers") !! "Accept"
      = Some (VStr "application/json") /\
    Js.ownProps (Js.get retryConfig "headers") !! "Authorization"
      = Some (VStr "Bearer t").
Proof.
  destruct (retry_applies_overrides
              (fun config => @RequestBuilder.ret NoOpCache JsVal config)
              secondAttempt resettingOverrides 3 1 retryingRequest)
    as (retryConfig & Hrun & Hcount & _ & Hmerged & _).
  - reflexivity.
  - reflexivity.
  - lia.
  - exists retryConfig. split; [exact Hrun|]. split; [exact Hcount|].
    split.
    + rewrite (Hmerged "headers" "Accept") by (simpl; auto). reflexivity.
    + rewrite (Hmerged "headers" "Authorization") by (simpl; auto).
      reflexivity.
Defined.

(** X14: [disableMappers: true] at any one of the four levels switches both
    pipelines off: response data and errors pass through unchanged, no
    mapper is called and nothing is logged, whatever mappers are
    configured. *)
Theorem disableMappers_silences_both_pipelines
        {C : Type} `{CacheInterface C} (env : @RequestBuilder.Env C)
        (st : @RequestBuilder.State C) (value config : JsVal) :
  existsb (fun level => Js.isTrue (Js.get level "disableMappers"))
          [RequestBuilder.requestSettings (RequestBuilder.this st);
           RequestBuilder.methodConfig (RequestBuilder.this st);
           RequestBuilder.endpointConfig (RequestBuilder.this st);
           RequestBuilder.clientConfig (RequestBuilder.this st)] = true ->
  RequestBuilder._applyResponseMappers env value config st
    = (RequestBuilder.Ok value, st) /\
  RequestBuilder._applyErrorMappers env value config st
    = (RequestBuilder.Ok value, st).
Proof.
  intros Hoff.
  assert (Hdis : forall type,
    RequestBuilder._areMappersDisabled type (RequestBuilder.this st) = true).
  { intros type. unfold RequestBuilder._areMappersDisabled.
    apply existsb_exists in Hoff as (level & Hin & Htrue).
    apply existsb_exists. exists level. split; [exact Hin|].
    unfold RequestBuilder.levelDisables. rewrite Htrue.
    destruct level; try discriminate. reflexivity. }
  unfold RequestBuilder._applyResponseMappers,
    RequestBuilder._applyErrorMappers, RequestBuilder.bind,
    RequestBuilder.getThis.
  rewrite !Hdis. split; reflexivity.
Qed.

Lemma disableMappers_silences_both_pipelines_witness :
  RequestBuilder._applyResponseMappers (mapperEnv (C := NoOpCache))
    (VNum 7) VUndefined
    {| RequestBuilder.this := silencedRequest;
       RequestBuilder.world := emptyWorld |}
  = (RequestBuilder.Ok (VNum 7),
     {| RequestBuilder.this := silencedRequest;
        RequestBuilder.world := emptyWorld |}).
Proof.
  apply (disableMappers_silences_both_pipelines (mapperEnv (C := NoOpCache))
           {| RequestBuilder.this := silencedRequest;
              RequestBuilder.world := emptyWorld |} (VNum 7) VUndefined).
  reflexivity.
Defined.

(** ** More on the request pipeline *)

Section OutcomeFacts.

Import RequestBuilder.

Context {C : Type} `{CacheInterface C}.
Variable env : @Env C.
Implicit Types (st : @State C).

Lemma _applyResponseMappers_run data config st :
  _applyResponseMappers env data config st =
  (Ok (fst (responsePipeline env (this st) data)),
   appendTrace st (snd (responsePipeline env (this st) data))).
Proof.
  unfold _applyResponseMappers, responsePipeline, bind, getThis.
  destruct (_areMappersDisabled "response" (this st)).
  - unfold ret. simpl. now rewrite appendTrace_nil.
  - destruct (runMappers env "Response" _ data) as [final evs]. reflexivity.
Qed.

End OutcomeFacts.

(** X16: A request whose dispatch succeeds resolves with the output of the
    response mappers.  On the way exactly this happens, in this order: the
    mappers run, [onSuccess] is called with the mapped data, [onFinally] is
    called, the builder is cleaned up.  A callback that throws is only
    warned about, and neither the error interceptor nor the error mappers
    nor [onError] are involved. *)
Theorem successful_request_resolves
        {C : Type} `{CacheInterface C} (env : @RequestBuilder.Env C)
        (fuel : nat) (config data : JsVal)
        (st st1 : @RequestBuilder.State C) :
  RequestBuilder._executeFetch env config st = (RequestBuilder.Ok data, st1) ->
  RequestBuilder._executeRequestAndHandleCallbacks env (S fuel) config st =
  (RequestBuilder.Ok
     (fst (responsePipeline env (RequestBuilder.this st1) data)),
   resolvedState env config st1 data).
Proof.
  intros Hfetch. cbn [RequestBuilder._executeRequestAndHandleCallbacks].
  unfold RequestBuilder.tryFinally, RequestBuilder.tryCatch.
  unfold RequestBuilder.bind at 1. rewrite Hfetch.
  unfold RequestBuilder.bind at 1. rewrite _applyResponseMappers_run.
  unfold RequestBuilder.bind at 1. rewrite runCallback_run.
  unfold RequestBuilder.ret at 1. rewrite runFinally_run.
  unfold resolvedState. rewrite !appendTrace_app, <- ?app_assoc.
  reflexivity.
Qed.

Lemma successful_request_resolves_witness :
  fst (RequestBuilder._executeRequestAndHandleCallbacks onlineEnv 1
         (RequestBuilder._buildFinalConfig (RequestBuilder.this mappedRequest))
         mappedRequest) =
  RequestBuilder.Ok (VArr [VStr "mapped"; VStr "body"]).
Proof.
  rewrite (successful_request_resolves onlineEnv 0
             (RequestBuilder._buildFinalConfig
                (RequestBuilder.this mappedRequest))
             (VStr "body") mappedRequest
             (snd (RequestBuilder._executeFetch onlineEnv
                     (RequestBuilder._buildFinalConfig
                        (RequestBuilder.this mappedRequest))
                     mappedRequest))).
  - reflexivity.
  - reflexivity.
Defined.

(** X17: A request whose dispatch fails, with no error interceptor configured,
    rejects with the output of the error mappers applied to the failure as
    the [catch] block takes it up: the classified error the dispatch
    rejected with or, when [undefined] or [null] was thrown inside the
    dispatch, the NETWORK error made of the [TypeError] that left it.  Either
    way it is a [VortexError] that enters the mappers.  After the mappers
    [onError] is called with the mapped error, then [onFinally], then the
    builder is cleaned up; [onSuccess] is not called. *)
Theorem failed_request_rejects
        {C : Type} `{CacheInterface C} (env : @RequestBuilder.Env C)
        (fuel : nat) (config error : JsVal)
        (st st1 : @RequestBuilder.State C) :
  RequestBuilder._executeFetch env config st = (RequestBuilder.Err error, st1) ->
  Js.isFunction (Js.get config "errorInterceptor") = false ->
  let finalError := caughtAs config error in
  ((Js.isVortexError error = true /\ finalError = error) \/
   (exists thrown,
      Js.nullish thrown = true /\
      error = Js.cannotRead thrown "message" /\
      finalError =
        VVortexError NETWORK
          ("Cannot read properties of " ++ Js.toText thrown ++
           " (reading 'message')")
          VNull VNull config error (VObj ∅))) /\
  Js.isVortexError finalError = true /\
  RequestBuilder._executeRequestAndHandleCallbacks env (S fuel) config st =
  (RequestBuilder.Err
     (fst (errorPipeline env (RequestBuilder.this st1) finalError)),
   rejectedState env config st1 finalError).
Proof.
  intros Hfetch Hnone finalError. subst finalError.
  destruct (_executeFetch_failure env _ _ _ _ Hfetch) as [Hcaught Hcls].
  split; [|split; [exact Hcls|]].
  - destruct (_executeFetch_throws env _ _ _ _ Hfetch)
      as [He | (thrown & Hn & ->)].
    + left. split; [exact He | now apply caughtAs_classified].
    + right. exists thrown. split; [exact Hn|]. split; [reflexivity|].
      now apply caughtAs_cannotRead.
  - rewrite <- reject_then_finally.
    cbn [RequestBuilder._executeRequestAndHandleCallbacks].
    unfold RequestBuilder.tryFinally at 1 2, RequestBuilder.tryCatch.
    unfold RequestBuilder.bind at 1. rewrite Hfetch.
    unfold RequestBuilder.bind at 1. rewrite Hcaught.
    unfold RequestBuilder.ret at 1.
    unfold RequestBuilder.bind at 1. rewrite Hnone.
    unfold RequestBuilder.ret at 1. reflexivity.
Qed.

Lemma failed_request_rejects_witness :
  exists config,
    fst (RequestBuilder._executeRequestAndHandleCallbacks offlineEnv 1
           (RequestBuilder._buildFinalConfig
              (RequestBuilder.this unguardedRequest))
           unguardedRequest) =
    RequestBuilder.Err
      (VVortexError NETWORK "fetch failed" VNull VNull config
                    (VError "TypeError" "fetch failed") (VObj ∅)).
Proof.
  destruct (failed_request_rejects offlineEnv 0
              (RequestBuilder._buildFinalConfig
                 (RequestBuilder.this unguardedRequest))
              (VVortexError NETWORK "fetch failed" VNull VNull
                 (RequestBuilder._buildFinalConfig
                    (RequestBuilder.this unguardedRequest))
                 (VError "TypeError" "fetch failed") (VObj ∅))
              unguardedRequest
              (snd (RequestBuilder._executeFetch offlineEnv
                      (RequestBuilder._buildFinalConfig
                         (RequestBuilder.this unguardedRequest))
                      unguardedRequest))) as (_ & _ & Hrun).
  - reflexivity.
  - reflexivity.
  - eexists. rewrite Hrun. reflexivity.
Defined.

(** X29: What an error interceptor makes of a failed request on the plain
    path.  It is handed a [VortexError].  If it returns a value other than
    [undefined], [send()] resolves with exactly that value: no mapper runs on
    it, only [onFinally] and the cleanup follow.  If it returns [undefined],
    or throws a value other than [undefined] and [null], the failure (the
    error it was handed, or what it threw, wrapped as a CONFIG error unless
    it is classified already) goes through the error mappers the builder has
    at that moment, then [onError], then [onFinally], and [send()] rejects
    with what the mappers gave.  If it throws [undefined] or [null],
    [send()] rejects with a [TypeError], and only [onFinally] and the cleanup
    follow. *)
Theorem error_interceptor_outcomes
        {C : Type} `{CacheInterface C} (env : @RequestBuilder.Env C)
        (fuel : nat) (st0 st1 st2 : @RequestBuilder.State C)
        (error : JsVal) (r : RequestBuilder.Result JsVal) :
  let config := RequestBuilder._buildFinalConfig (RequestBuilder.this st0) in
  let handed := caughtAs config error in
  swrEnabled config = false ->
  RequestBuilder._executeFetch env config (started env st0)
    = (RequestBuilder.Err error, st1) ->
  Js.isFunction (Js.get config "errorInterceptor") = true ->
  RequestBuilder.runErrorInterceptor env (Js.get config "errorInterceptor")
    handed config
    (RequestBuilder._createRetryFunction
       (RequestBuilder._executeRequestAndHandleCallbacks env fuel) config) st1
    = (r, st2) ->
  Js.isVortexError handed = true /\
  (forall value,
     r = RequestBuilder.Ok value -> value <> VUndefined ->
     RequestBuilder.send env (S fuel) st0
       = (RequestBuilder.Ok value, recoveredState env config st2) /\
     RequestBuilder.trace (RequestBuilder.world (recoveredState env config st2))
       = (RequestBuilder.trace (RequestBuilder.world st2) ++
          callbackEvents env "onFinally" (Js.get config "onFinally") [])%list) /\
  (forall finalError,
     (r = RequestBuilder.Ok VUndefined /\ finalError = handed) \/
     (exists thrown, r = RequestBuilder.Err thrown /\
                     Js.nullish thrown = false /\
                     finalError = interceptedAs thrown config) ->
     let mapped := fst (errorPipeline env (RequestBuilder.this st2) finalError) in
     Js.isVortexError finalError = true /\
     RequestBuilder.send env (S fuel) st0
       = (RequestBuilder.Err mapped, rejectedState env config st2 finalError) /\
     RequestBuilder.trace
       (RequestBuilder.world (rejectedState env config st2 finalError))
       = (RequestBuilder.trace (RequestBuilder.world st2) ++
          snd (errorPipeline env (RequestBuilder.this st2) finalError) ++
          callbackEvents env "onError" (Js.get config "onError") [mapped] ++
          callbackEvents env "onFinally" (Js.get config "onFinally") [])%list) /\
  (forall thrown,
     r = RequestBuilder.Err thrown -> Js.nullish thrown = true ->
     RequestBuilder.send env (S fuel) st0
       = (RequestBuilder.Err (Js.cannotRead thrown "message"),
          recoveredState env config st2)).
Proof.
  intros config handed Hswr Hfetch Hfun Hicpt.
  pose proof (exec_interceptor_outcome env fuel config (started env st0)
                error st1 r st2 Hfetch Hfun Hicpt) as Hexec.
  destruct (_executeFetch_failure env _ _ _ _ Hfetch) as [_ Hcls].
  split; [exact Hcls|]. split; [|split].
  - intros value -> Hdef. split; [|reflexivity].
    rewrite (send_plain env (S fuel) st0 Hswr). fold config. rewrite Hexec.
    destruct value; try reflexivity. congruence.
  - intros finalError Hcase mapped. subst mapped.
    destruct Hcase as [[-> ->] | [thrown [-> [Hnn ->]]]].
    + split; [exact Hcls|]. split; [|reflexivity].
      rewrite (send_plain env (S fuel) st0 Hswr). fold config. rewrite Hexec.
      reflexivity.
    + split; [apply interceptedAs_classified|]. split; [|reflexivity].
      rewrite (send_plain env (S fuel) st0 Hswr). fold config. rewrite Hexec.
      rewrite Hnn. reflexivity.
  - intros thrown -> Hn.
    rewrite (send_plain env (S fuel) st0 Hswr). fold config. rewrite Hexec.
    rewrite Hn. destruct thrown; try discriminate; reflexivity.
Qed.

Lemma error_interceptor_outcomes_witness :
  exists st',
    RequestBuilder.send recoveringEnv 1 recoveringRequest
      = (RequestBuilder.Ok (VStr "fallback"), st').
Proof.
  pose (config := RequestBuilder._buildFinalConfig
                    (RequestBuilder.this recoveringRequest)).
  pose (res := RequestBuilder._executeFetch recoveringEnv config
                 (started recoveringEnv recoveringRequest)).
  pose (error := match fst res with
                 | RequestBuilder.Err e => e
                 | _ => VNull
                 end).
  pose (run := RequestBuilder.runErrorInterceptor recoveringEnv
                 (Js.get config "errorInterceptor") error config
                 (RequestBuilder._createRetryFunction
                    (RequestBuilder._executeRequestAndHandleCallbacks
                       recoveringEnv 0) config) (snd res)).
  destruct (error_interceptor_outcomes recoveringEnv 0 recoveringRequest
              (snd res) (snd run) error (fst run)) as (_ & Hrecover & _).
  - reflexivity.
  - reflexivity.
  - reflexivity.
  - apply surjective_pairing.
  - destruct (Hrecover (VStr "fallback")) as [Hsend _].
    + reflexivity.
    + discriminate.
    + eexists. exact Hsend.
Defined.

Section DispatchFacts.

Import RequestBuilder.

Context {C : Type} `{CacheInterface C}.
Variable env : @Env C.
Implicit Types (st : @State C).

Lemma bind_Ok_inv {A B} (m : @M C A) (k : A -> @M C B) st b st' :
  bind m k st = (Ok b, st') ->
  exists a st0, m st = (Ok a, st0) /\ k a st0 = (Ok b, st').
Proof.
  unfold bind. destruct (m st) as [[a|e|] st0]; intros Hrun;
    [eauto | discriminate | discriminate].
Qed.

Lemma bind_Ok {A B} (m : @M C A) (k : A -> @M C B) st a st' :
  m st = (Ok a, st') -> bind m k st = k a st'.
Proof. intros Hm. unfold bind. now rewrite Hm. Qed.

Lemma applyRequestInterceptor_absent config st :
  Js.isFunction (Js.get config "requestInterceptor") = false ->
  applyRequestInterceptor env config st = (Ok config, st).
Proof. intros Hno. unfold applyRequestInterceptor. now rewrite Hno. Qed.

(** Without a request interceptor, [_executeFetch] is the fingerprint, the
    lookup and, on a miss, the dispatch. *)
Lemma _executeFetch_keyed config st cacheKey stK :
  Js.isFunction (Js.get config "requestInterceptor") = false ->
  _generateCacheKey env config st = (Ok cacheKey, stK) ->
  _executeFetch env config st =
  match lookupCached config cacheKey stK with
  | (Ok (Some value), st0) => (Ok value, st0)
  | (Ok None, st0) =>
      match fetchAndStore env config cacheKey st0 with
      | (Err error, st1) => (Err (classify config error), st1)
      | r => r
      end
  | (Err error, st0) => (Err (classify config error), st0)
  | (OutOfFuel, st0) => (OutOfFuel, st0)
  end.
Proof.
  intros Hno Hkey. unfold _executeFetch, tryCatch. unfold bind at 1.
  rewrite applyRequestInterceptor_absent by assumption.
  unfold bind at 1. rewrite Hkey. unfold bind at 1.
  destruct (lookupCached config cacheKey stK)
    as [[[value|]|error|] st0]; reflexivity.
Qed.

(** A fingerprint made in the [try] block is the same at every time. *)
Lemma _generateCacheKey_primary config st cacheKey :
  Fingerprint.primaryKey (_buildRequestUrl env)
    (fun v => Normal (stringify env v)) config = Normal cacheKey ->
  _generateCacheKey env config st =
  (Ok cacheKey, appendTrace st (map EvWarn (urlWarnings env config))).
Proof.
  intros Hkey. unfold _generateCacheKey, bind. rewrite emitAll_run.
  unfold Fingerprint._generateCacheKey. rewrite Hkey. reflexivity.
Qed.

End DispatchFacts.

Section SimpleCacheDispatch.

Import RequestBuilder.

Variable env : @Env SimpleCache.t.
Implicit Types (st : @State SimpleCache.t).

Lemma lookupCached_simple config key st name :
  Js.truthy (Js.get (Js.get config "cache") "enabled") = true ->
  Js.isStr "simple" (Js.get (Js.get config "cache") "strategy") = true ->
  Js.get (Js.get config "cache") "instance" = VHost name ->
  lookupCached config key st =
  (Ok (if Js.isNull (fst (SimpleCache.get key (now (world st))
                                          (cacheInstance (world st))))
       then None
       else Some (fst (SimpleCache.get key (now (world st))
                                       (cacheInstance (world st))))),
   {| this := this st;
      world := setCache (world st)
                 (snd (SimpleCache.get key (now (world st))
                                       (cacheInstance (world st)))) |}).
Proof.
  intros Hon Hsimple Hinst. unfold lookupCached. rewrite Hon, Hsimple.
  cbn [andb]. unfold tryCatch, bind, cacheGet. rewrite Hinst.
  cbn [cache_get SimpleCache_interface].
  destruct (SimpleCache.get key (now (world st)) (cacheInstance (world st)))
    as [v c']. cbn [fst snd].
  destruct (Js.isNull v); reflexivity.
Qed.

Lemma fetchAndStore_stores config key st0 data st1 name ttl :
  fetchAndStore env config key st0 = (Ok data, st1) ->
  Js.truthy (Js.get (Js.get config "cache") "enabled") = true ->
  Js.get (Js.get config "cache") "instance" = VHost name ->
  Js.get (Js.get config "cache") "ttl" = VNum ttl ->
  data <> VNull ->
  exists c,
    cacheInstance (world st1) =
    SimpleCache.set key data ttl VUndefined VUndefined (now (world st1)) c.
Proof.
  intros Hrun Hon Hinst Httl Hdata. unfold fetchAndStore in Hrun.
  apply bind_Ok_inv in Hrun as (? & sa & _ & Hrun).
  apply bind_Ok_inv in Hrun as (response & sb & _ & Hrun).
  apply bind_Ok_inv in Hrun as (response' & sc & _ & Hrun).
  apply bind_Ok_inv in Hrun as (isValidStatus & sd & _ & Hrun).
  destruct (negb isValidStatus); [discriminate|].
  apply bind_Ok_inv in Hrun as (responseData & se & _ & Hrun).
  apply bind_Ok_inv in Hrun as ([] & sf & Hstore & Hret).
  unfold ret in Hret. injection Hret as -> ->.
  rewrite Hon in Hstore.
  assert (Hnn : Js.isNull data = false) by (destruct data; try reflexivity; congruence).
  rewrite Hnn in Hstore. cbn [andb negb] in Hstore.
  unfold tryCatch, cacheSet in Hstore. rewrite Hinst, Httl in Hstore.
  cbn [cache_set SimpleCache_interface] in Hstore.
  injection Hstore as <-. cbn [world setCache cacheInstance now].
  eexists. reflexivity.
Qed.

End SimpleCacheDispatch.

(** X19: With the built-in cache and the simple strategy, a response that was
    fetched and is not [null] is stored, and a later request with the same
    configuration, made no later than [ttl] milliseconds after it, is answered
    from the cache, provided the fingerprint is made in the ordinary way (the
    URL builds and the body serialises; the fallback fingerprint carries the
    time of the call).  The later request resolves with the same
    data and the transport is not invoked; what is observed of it is what
    building the URL for the fingerprint logs, and nothing else. *)
Theorem cached_response_is_reused
        (env : @RequestBuilder.Env SimpleCache.t) (config data : JsVal)
        (name cacheKey : string) (ttl : Z)
        (st st1 st2 : @RequestBuilder.State SimpleCache.t) :
  Js.isFunction (Js.get config "requestInterceptor") = false ->
  Js.truthy (Js.get (Js.get config "cache") "enabled") = true ->
  Js.isStr "simple" (Js.get (Js.get config "cache") "strategy") = true ->
  Js.get (Js.get config "cache") "instance" = VHost name ->
  Js.get (Js.get config "cache") "ttl" = VNum ttl ->
  RequestBuilder.Fingerprint.primaryKey
    (RequestBuilder._buildRequestUrl env)
    (fun v => Normal (RequestBuilder.stringify env v)) config
    = Normal cacheKey ->
  RequestBuilder._executeFetch env config st = (RequestBuilder.Ok data, st1) ->
  RequestBuilder.fetchCount (RequestBuilder.trace (RequestBuilder.world st1))
    <> RequestBuilder.fetchCount
         (RequestBuilder.trace (RequestBuilder.world st)) ->
  data <> VNull ->
  RequestBuilder.cacheInstance (RequestBuilder.world st2) =
    RequestBuilder.cacheInstance (RequestBuilder.world st1) ->
  RequestBuilder.now (RequestBuilder.world st2) <=
    RequestBuilder.now (RequestBuilder.world st1) + ttl ->
  exists st3,
    RequestBuilder._executeFetch env config st2 = (RequestBuilder.Ok data, st3) /\
    RequestBuilder.trace (RequestBuilder.world st3) =
      (RequestBuilder.trace (RequestBuilder.world st2) ++
       map RequestBuilder.EvWarn (RequestBuilder.urlWarnings env config))%list /\
    RequestBuilder.this st3 = RequestBuilder.this st2.
Proof.
  intros Hno Hon Hsimple Hinst Httl Hkey Hfirst Hfetched Hdata Hsame Hsoon.
  rewrite (_executeFetch_keyed env config st cacheKey _ Hno
             (_generateCacheKey_primary env config st cacheKey Hkey))
    in Hfirst.
  rewrite (lookupCached_simple config _ _ name Hon Hsimple Hinst) in Hfirst.
  destruct (Js.isNull (fst (SimpleCache.get _ _ _))) eqn:Hmiss.
  2: { injection Hfirst as _ <-. exfalso. apply Hfetched.
       cbn [RequestBuilder.world RequestBuilder.trace RequestBuilder.setCache
            appendTrace].
       rewrite !fetchCount_fetched, fetched_app, fetched_warnings.
       now rewrite app_nil_r. }
  match type of Hfirst with
  | match ?run with _ => _ end = _ =>
      destruct run as [[v|e|] sx] eqn:Hrun; try discriminate
  end.
  injection Hfirst as -> ->.
  destruct (fetchAndStore_stores env config _ _ _ _ name ttl Hrun Hon Hinst
              Httl Hdata) as [c Hstored].
  rewrite (_executeFetch_keyed env config st2 cacheKey _ Hno
             (_generateCacheKey_primary env config st2 cacheKey Hkey)).
  rewrite (lookupCached_simple config _ _ name Hon Hsimple Hinst).
  cbn [RequestBuilder.world RequestBuilder.now RequestBuilder.cacheInstance
       appendTrace].
  rewrite Hsame, Hstored.
  rewrite !get_after_set.
  replace (RequestBuilder.now (RequestBuilder.world st1) + ttl <?
           RequestBuilder.now (RequestBuilder.world st2)) with false
    by (symmetry; apply Z.ltb_ge; lia).
  assert (Hnn : Js.isNull data = false) by (destruct data; try reflexivity; congruence).
  rewrite Hnn. eexists. split; [reflexivity|]. split; reflexivity.
Qed.

Lemma cached_response_is_reused_witness :
  exists st3,
    RequestBuilder._executeFetch cachingEnv
      (RequestBuilder._buildFinalConfig (RequestBuilder.this firstRequest))
      secondRequest = (RequestBuilder.Ok (VStr "body"), st3) /\
    RequestBuilder.trace (RequestBuilder.world st3) = [] /\
    RequestBuilder.this st3 = RequestBuilder.this secondRequest.
Proof.
  apply (cached_response_is_reused cachingEnv
           (RequestBuilder._buildFinalConfig (RequestBuilder.this firstRequest))
           (VStr "body") "SimpleCache" "GET::https://api.example.com/users"
           1000 firstRequest
           (snd (RequestBuilder._executeFetch cachingEnv
                   (RequestBuilder._buildFinalConfig
                      (RequestBuilder.this firstRequest))
                   firstRequest))
           secondRequest).
  - reflexivity.
  - reflexivity.
  - reflexivity.
  - reflexivity.
  - reflexivity.
  - reflexivity.
  - reflexivity.
  - vm_compute. discriminate.
  - discriminate.
  - reflexivity.
  - vm_compute. discriminate.
Defined.

Section StatusFacts.

Import RequestBuilder.

Context {C : Type} `{CacheInterface C}.
Variable env : @Env C.
Implicit Types (st : @State C).

Lemma applyResponseInterceptor_absent response config st :
  Js.isFunction (Js.get config "responseInterceptor") = false ->
  applyResponseInterceptor env response config st = (Ok response, st).
Proof.
  intros Hno. unfold applyResponseInterceptor.
  destruct (Js.get config "responseInterceptor"); try reflexivity.
  discriminate.
Qed.

End StatusFacts.

(** X20: Two kinds of answer are never stored: a response whose status the
    default validator refuses, and a [204 No Content].  The first rejects
    with an HTTP [VortexError] that carries the status and the body as far
    as it parses as JSON; the second resolves with [null] without the body
    being read.  Either way the state is the one the transport left. *)
Theorem refused_and_empty_responses
        {C : Type} `{CacheInterface C} (env : @RequestBuilder.Env C)
        (config : JsVal) (response : RequestBuilder.Response)
        (cacheKey : string) (st stK st0 stF : @RequestBuilder.State C) :
  Js.isFunction (Js.get config "requestInterceptor") = false ->
  RequestBuilder._generateCacheKey env config st
    = (RequestBuilder.Ok cacheKey, stK) ->
  RequestBuilder.lookupCached config cacheKey stK
    = (RequestBuilder.Ok None, st0) ->
  Js.truthy (Js.or (Js.get config "onUploadProgress")
                   (Js.get config "onDownloadProgress")) = false ->
  RequestBuilder._executeFetchRequest env config st0
    = (RequestBuilder.Ok response, stF) ->
  Js.isFunction (Js.get config "responseInterceptor") = false ->
  Js.get config "validateStatus" = VFun FDefaultValidateStatus ->
  (RequestBuilder.status response < 200 \/
   300 <= RequestBuilder.status response ->
   RequestBuilder._executeFetch env config st =
   (RequestBuilder.Err
      (RequestBuilder.fromResponse response (errorBodyOf response) config),
    stF)) /\
  (RequestBuilder.status response = 204 ->
   RequestBuilder._executeFetch env config st = (RequestBuilder.Ok VNull, stF)).
Proof.
  intros Hno Hkey Hmiss Hquiet Hfetch Hnri Hval.
  rewrite (_executeFetch_keyed env config st cacheKey stK Hno Hkey), Hmiss.
  unfold RequestBuilder.fetchAndStore.
  erewrite bind_Ok by (rewrite Hquiet; reflexivity).
  erewrite bind_Ok by exact Hfetch.
  erewrite bind_Ok by (apply applyResponseInterceptor_absent; exact Hnri).
  erewrite bind_Ok by (rewrite Hval; reflexivity).
  cbn [Js.truthy]. unfold Js.inRange. cbn [Js.toNumber Js.toPrimitive nth].
  split.
  - intros Hrefused.
    replace ((200 <=? RequestBuilder.status response)
             && (RequestBuilder.status response <? 300)) with false.
    + reflexivity.
    + symmetry. apply andb_false_iff.
      destruct Hrefused; [left; apply Z.leb_gt | right; apply Z.ltb_ge]; lia.
  - intros Hs. rewrite Hs.
    change ((200 <=? 204) && (204 <? 300)) with true.
    change (204 =? 204) with true. cbn [negb].
    erewrite bind_Ok by reflexivity.
    cbn [Js.isNull negb]. rewrite andb_false_r. reflexivity.
Qed.

Lemma refused_and_empty_responses_witness :
  exists error,
    fst (RequestBuilder._executeFetch notFoundEnv
           (RequestBuilder._buildFinalConfig (RequestBuilder.this plainRequest))
           plainRequest) = RequestBuilder.Err error /\
    VortexError.hasStatus error 404 = true /\
    VortexError.isClientError error = true.
Proof.
  pose (config := RequestBuilder._buildFinalConfig
                    (RequestBuilder.this plainRequest)).
  pose (outcome := RequestBuilder._executeFetchRequest notFoundEnv config
                     plainRequest).
  destruct (refused_and_empty_responses notFoundEnv config
              {| RequestBuilder.status := 404;
                 RequestBuilder.statusText := "Not Found";
                 RequestBuilder.url := "https://api.example.com/users";
                 RequestBuilder.headers := VObj ∅;
                 RequestBuilder.parsed := fun _ => Normal (VStr "no such user") |}
              "GET::https://api.example.com/users"
              plainRequest plainRequest plainRequest (snd outcome))
    as [Hrefused _];
    try reflexivity.
  eexists. split.
  - fold config. rewrite Hrefused by (simpl; lia). reflexivity.
  - split; reflexivity.
Defined.

(** X18: A request interceptor changes the request only through five settings of
    what it returns: [headers], [timeout], [pathParams] and [searchParams]
    replace the configured ones when truthy, and [body] replaces the
    configured one when present, even if [null].  Every other setting of the
    final configuration, the method, base URL, path and cache among them, is
    the configured one, whatever the interceptor returns for it. *)
Theorem request_interceptor_reach
        {C : Type} `{CacheInterface C} (env : @RequestBuilder.Env C)
        (props modified : gmap string JsVal) (f : FunRef)
        (st : @RequestBuilder.State C) :
  props !! "requestInterceptor" = Some (VFun f) ->
  (forall args,
     RequestBuilder.callFun env (VFun f) args = Normal (VObj modified)) ->
  exists final st',
    RequestBuilder.applyRequestInterceptor env (VObj props) st
      = (RequestBuilder.Ok final, st') /\
    (forall k,
       existsb (String.eqb k) interceptorWritable = false ->
       Js.ownProps final !! k = props !! k) /\
    (forall k,
       In k ["headers"; "timeout"; "pathParams"; "searchParams"] ->
       Js.get final k =
       Js.or (Js.get (VObj modified) k) (Js.get (VObj props) k)) /\
    Js.get final "body" =
      match modified !! "body" with
      | Some body => body
      | None => Js.get (VObj props) "body"
      end.
Proof.
  intros Hicpt Hcall. unfold RequestBuilder.applyRequestInterceptor.
  cbn [Js.get]. rewrite Hicpt. cbn [default from_option id Js.isFunction].
  unfold RequestBuilder.tryCatch. unfold RequestBuilder.bind at 1.
  rewrite emit_run. unfold RequestBuilder.bind at 1.
  rewrite Hcall. cbn [RequestBuilder.lift RequestBuilder.ret Js.truthy negb
    Js.ownProps].
  eexists _, _. split; [reflexivity|]. split; [|split].
  - intros k Hk. unfold interceptorWritable in Hk. cbn [existsb] in Hk.
    repeat (apply orb_false_elim in Hk as [? Hk]).
    repeat match goal with
           | E : String.eqb k _ = false |- _ => apply String.eqb_neq in E
           end.
    cbn [Js.ownProps]. repeat (rewrite lookup_insert_ne by congruence).
    reflexivity.
  - intros k Hk. cbn [In] in Hk.
    destruct Hk as [<-|[<-|[<-|[<-|[]]]]]; cbn [Js.get];
      repeat (rewrite lookup_insert_ne by discriminate);
      rewrite lookup_insert_eq; reflexivity.
  - cbn [Js.get]. repeat (rewrite lookup_insert_ne by discriminate).
    rewrite lookup_insert_eq. reflexivity.
Qed.

Lemma request_interceptor_reach_witness :
  exists final st',
    RequestBuilder.applyRequestInterceptor rewritingEnv (VObj interceptedConfig)
      plainRequest = (RequestBuilder.Ok final, st') /\
    Js.ownProps final !! "httpMethod" = Some (VStr "GET") /\
    Js.ownProps final !! "baseURL" = Some (VStr "https://api.example.com") /\
    Js.get final "headers" = VObj (<["X-Trace" := VStr "1"]> ∅).
Proof.
  destruct (request_interceptor_reach rewritingEnv interceptedConfig
              (<["method" := VStr "DELETE"]>
               (<["url" := VStr "https://elsewhere.example.com"]>
                (<["headers" := VObj (<["X-Trace" := VStr "1"]> ∅)]> ∅)))
              (FUser 5) plainRequest)
    as (final & st' & Hrun & Hkept & Hwritten & _).
  - reflexivity.
  - intros args. reflexivity.
  - exists final, st'. split; [exact Hrun|].
    split; [|split].
    + rewrite Hkept by reflexivity. reflexivity.
    + rewrite Hkept by reflexivity. reflexivity.
    + rewrite (Hwritten "headers") by (simpl; auto). reflexivity.
Defined.

(** ** The registry of in-flight requests *)

Section RegistryFacts.

Import RequestBuilder.Static.

Lemma lookup_fold_delete (keys : list string) : forall (m : gmap string nat) k,
  fold_left (fun m key => base.delete key m) keys m !! k =
  if bool_decide (k ∈ keys) then None else m !! k.
Proof.
  induction keys as [|key keys IH]; intros m k; cbn [fold_left].
  - rewrite bool_decide_eq_false_2 by apply not_elem_of_nil. reflexivity.
  - rewrite IH. destruct (decide (k = key)) as [->|Hne].
    + rewrite (bool_decide_eq_true_2 (key ∈ key :: keys))
        by apply list_elem_of_here.
      destruct (bool_decide (key ∈ keys)); [reflexivity|].
      apply lookup_delete_eq.
    + rewrite lookup_delete_ne by congruence.
      destruct (decide (k ∈ keys)) as [Hin|Hout].
      * rewrite !bool_decide_eq_true_2; auto.
        now apply list_elem_of_further.
      * rewrite !bool_decide_eq_false_2; auto.
        intros Hin. apply elem_of_cons in Hin as [?|?]; tauto.
Qed.

Lemma keysToDelete_spec now s k :
  k ∈ map fst (List.filter (fun kp => isStale now s (snd kp))
                           (map_to_list (inflightRequests s))) <->
  exists promise,
    inflightRequests s !! k = Some promise /\ isStale now s promise = true.
Proof.
  rewrite list_elem_of_In, in_map_iff. split.
  - intros ([k' promise] & <- & Hin). apply filter_In in Hin as [Hin Hstale].
    exists promise. split; [|exact Hstale].
    apply list_elem_of_In, elem_of_map_to_list in Hin. exact Hin.
  - intros (promise & Hlook & Hstale). exists (k, promise).
    split; [reflexivity|]. apply filter_In. split; [|exact Hstale].
    apply list_elem_of_In, elem_of_map_to_list. exact Hlook.
Qed.

Lemma sweep_lookup now s k :
  inflightRequests (_cleanupInflightRequests now s) !! k =
  match inflightRequests s !! k with
  | Some promise => if isStale now s promise then None else Some promise
  | None => None
  end.
Proof.
  unfold _cleanupInflightRequests. cbn [inflightRequests].
  rewrite lookup_fold_delete.
  destruct (inflightRequests s !! k) as [promise|] eqn:Hlook.
  - destruct (isStale now s promise) eqn:Hstale.
    + rewrite bool_decide_eq_true_2; [reflexivity|].
      apply keysToDelete_spec. eauto.
    + rewrite bool_decide_eq_false_2; [reflexivity|].
      intros Hin. apply keysToDelete_spec in Hin as (p & Hp & Hs).
      congruence.
  - destruct (bool_decide _); reflexivity.
Qed.

End RegistryFacts.

(** X23: The sweep removes exactly the registrations whose promise was stamped
    more than five minutes before [now] and keeps every other one as it is;
    it stops the timer exactly when nothing is left.  A request that has
    just been stored therefore survives every sweep of the next five
    minutes, and storing it starts the timer. *)
Theorem inflight_sweep_removes_the_stale
        (s : RequestBuilder.Static.t) (now : Z) :
  let swept := RequestBuilder.Static._cleanupInflightRequests now s in
  (forall key,
     RequestBuilder.Static.inflightRequests swept !! key =
     match RequestBuilder.Static.inflightRequests s !! key with
     | Some promise =>
         if RequestBuilder.Static.isStale now s promise then None
         else Some promise
     | None => None
     end) /\
  RequestBuilder.Static.cleanupInterval swept =
    (RequestBuilder.Static.cleanupInterval s &&
     negb (bool_decide (RequestBuilder.Static.inflightRequests swept = ∅))) /\
  (forall key promise stored,
     let s1 := RequestBuilder.Static._storeInflightRequest key promise stored
                 s in
     RequestBuilder.Static.cleanupInterval s1 = true /\
     RequestBuilder.Static.inflightRequests s1 !! key = Some promise /\
     (now - stored <= 300000 ->
      RequestBuilder.Static.inflightRequests
        (RequestBuilder.Static._cleanupInflightRequests now s1) !! key
      = Some promise) /\
     (300000 < now - stored -> stored <> 0 ->
      RequestBuilder.Static.inflightRequests
        (RequestBuilder.Static._cleanupInflightRequests now s1) !! key
      = None)).
Proof.
  intros swept. subst swept. split; [apply sweep_lookup|]. split.
  - unfold RequestBuilder.Static._cleanupInflightRequests.
    cbn [RequestBuilder.Static.cleanupInterval
         RequestBuilder.Static.inflightRequests].
    set (remaining := fold_left _ _ _).
    destruct (RequestBuilder.Static.cleanupInterval s);
      [|now rewrite andb_false_r].
    rewrite andb_true_r. simpl.
    destruct (decide (remaining = ∅)) as [Hempty|Hne].
    + rewrite Hempty, map_size_empty. simpl.
      now rewrite bool_decide_eq_true_2.
    + rewrite bool_decide_eq_false_2 by assumption.
      destruct (Z.of_nat (size remaining) =? 0) eqn:Hz; [|reflexivity].
      apply Z.eqb_eq in Hz. assert (size remaining = 0%nat) as Hs by lia.
      apply map_size_empty_iff in Hs. contradiction.
  - intros key promise stored s1. subst s1.
    assert (Hstored :
      RequestBuilder.Static.inflightRequests
        (RequestBuilder.Static._storeInflightRequest key promise stored s)
        !! key = Some promise).
    { unfold RequestBuilder.Static._storeInflightRequest,
        RequestBuilder.Static._initCleanup. simpl.
      destruct (negb (RequestBuilder.Static.cleanupInterval s)); simpl;
        apply lookup_insert_eq. }
    assert (Hstamp : forall now',
      RequestBuilder.Static.isStale now'
        (RequestBuilder.Static._storeInflightRequest key promise stored s)
        promise = negb (stored =? 0) && (300000 <? now' - stored)).
    { intros now'. unfold RequestBuilder.Static.isStale,
        RequestBuilder.Static._storeInflightRequest,
        RequestBuilder.Static._initCleanup. simpl.
      destruct (negb (RequestBuilder.Static.cleanupInterval s)); simpl;
        rewrite lookup_insert_eq; reflexivity. }
    split; [|split; [exact Hstored|split]].
    + unfold RequestBuilder.Static._storeInflightRequest,
        RequestBuilder.Static._initCleanup. simpl.
      destruct (RequestBuilder.Static.cleanupInterval s); reflexivity.
    + intros Hyoung. rewrite sweep_lookup, Hstored, Hstamp.
      replace (300000 <? now - stored) with false
        by (symmetry; apply Z.ltb_ge; lia).
      now rewrite andb_false_r.
    + intros Hold Hnz. rewrite sweep_lookup, Hstored, Hstamp.
      replace (300000 <? now - stored) with true
        by (symmetry; apply Z.ltb_lt; lia).
      replace (stored =? 0) with false
        by (symmetry; apply Z.eqb_neq; lia).
      reflexivity.
Qed.

(** X24: When a stored promise settles it removes its own registration and no
    other: the key is free again if it still holds that promise, and a
    newer promise stored under the same key in the meantime stays
    registered. *)
Theorem settled_promise_unregisters_itself_only
        (s : RequestBuilder.Static.t) (key : string) (promise newer : nat)
        (stored later : Z) :
  let s1 := RequestBuilder.Static._storeInflightRequest key promise stored s in
  let s2 := RequestBuilder.Static._storeInflightRequest key newer later s1 in
  RequestBuilder.Static.inflightRequests
    (RequestBuilder.Static.onSettled key promise s1) !! key = None /\
  (forall other, other <> key ->
     RequestBuilder.Static.inflightRequests
       (RequestBuilder.Static.onSettled key promise s1) !! other =
     RequestBuilder.Static.inflightRequests s !! other) /\
  (newer <> promise ->
   RequestBuilder.Static.onSettled key promise s2 = s2 /\
   RequestBuilder.Static.inflightRequests s2 !! key = Some newer).
Proof.
  intros s1 s2. subst s1 s2.
  unfold RequestBuilder.Static.onSettled,
    RequestBuilder.Static._storeInflightRequest,
    RequestBuilder.Static._initCleanup.
  destruct (RequestBuilder.Static.cleanupInterval s); simpl;
    rewrite ?lookup_insert_eq.
  all: rewrite (bool_decide_eq_true_2 (Some promise = Some promise))
         by reflexivity; simpl.
  all: split; [apply lookup_delete_eq|].
  all: split;
    [intros other Hne; rewrite lookup_delete_ne, lookup_insert_ne
       by congruence; reflexivity|].
  all: intros Hne; rewrite bool_decide_eq_false_2 by congruence;
    split; reflexivity.
Qed.

(** ** Fingerprints *)

Section HashFacts.

Import RequestBuilder.

Lemma toInt32_range z : -2147483648 <= Js.toInt32 z < 2147483648.
Proof.
  unfold Js.toInt32.
  pose proof (Z.mod_pos_bound (z + 2147483648) 4294967296 ltac:(lia)). lia.
Qed.

Lemma toInt32_small z :
  -2147483648 <= z < 2147483648 -> Js.toInt32 z = z.
Proof.
  intros Hz. unfold Js.toInt32. rewrite Z.mod_small; lia.
Qed.

Lemma toInt32_congruent a b :
  (a - b) mod 4294967296 = 0 -> Js.toInt32 a = Js.toInt32 b.
Proof.
  intros Hab. unfold Js.toInt32. f_equal.
  apply Z.mod_divide in Hab; [|lia]. destruct Hab as [q Hq].
  replace (a + 2147483648) with (b + 2147483648 + q * 4294967296) by lia.
  apply Z.mod_add. lia.
Qed.

Lemma toInt32_difference z : (Js.toInt32 z - z) mod 4294967296 = 0.
Proof.
  unfold Js.toInt32.
  pose proof (Z.div_mod (z + 2147483648) 4294967296 ltac:(lia)) as Hdm.
  replace ((z + 2147483648) mod 4294967296 - 2147483648 - z)
    with (- ((z + 2147483648) / 4294967296) * 4294967296) by lia.
  apply Z.mod_mul. lia.
Qed.

Lemma and32_self x : Js.and32 x x = Js.toInt32 x.
Proof.
  unfold Js.and32. rewrite Z.land_diag.
  apply toInt32_small, toInt32_range.
Qed.

(** One round of the loop multiplies by 31 and adds the code unit, modulo
    2^32. *)
Lemma hashLoop_step hash char :
  Js.and32 (Js.shl hash 5 - hash + char) (Js.shl hash 5 - hash + char) =
  Js.toInt32 (31 * hash + char).
Proof.
  rewrite and32_self. apply toInt32_congruent.
  unfold Js.shl. change (5 mod 32) with 5. rewrite Z.shiftl_mul_pow2 by lia.
  change (2 ^ 5) with 32.
  pose proof (toInt32_difference (Js.toInt32 hash * 32)) as H1.
  pose proof (toInt32_difference hash) as H2.
  apply Z.mod_divide in H1; [|lia]. apply Z.mod_divide in H2; [|lia].
  destruct H1 as [q1 H1], H2 as [q2 H2].
  apply Z.mod_divide; [lia|]. exists (q1 + 32 * q2). lia.
Qed.

Lemma hashLoop_polynomial codes : forall h,
  hashLoop (Js.toInt32 h) codes =
  Js.toInt32 (fold_left (fun h char => 31 * h + char) codes h).
Proof.
  induction codes as [|char rest IH]; intros h; simpl.
  - reflexivity.
  - rewrite hashLoop_step.
    replace (Js.toInt32 (31 * Js.toInt32 h + char))
      with (Js.toInt32 (31 * h + char)); [apply IH|].
    apply toInt32_congruent.
    pose proof (toInt32_difference h) as Hd.
    apply Z.mod_divide in Hd; [|lia]. destruct Hd as [q Hq].
    apply Z.mod_divide; [lia|]. exists (- 31 * q). lia.
Qed.

Lemma string_app_cons (x : Ascii.ascii) (a b : string) :
  (String x a ++ b)%string = String x (a ++ b).
Proof. reflexivity. Qed.

Lemma string_app_nil_l (a : string) : (EmptyString ++ a)%string = a.
Proof. reflexivity. Qed.

Lemma string_app_assoc (a b c : string) :
  ((a ++ b) ++ c = a ++ (b ++ c))%string.
Proof.
  induction a as [|x a IH]; [reflexivity|].
  rewrite !string_app_cons. now rewrite IH.
Qed.

Lemma string_app_nil_r (a : string) : (a ++ EmptyString)%string = a.
Proof.
  induction a as [|x a IH]; [reflexivity|].
  rewrite string_app_cons. now rewrite IH.
Qed.

Lemma string_length_app (a b : string) :
  String.length (a ++ b) = (String.length a + String.length b)%nat.
Proof.
  induction a as [|x a IH]; [reflexivity|].
  rewrite string_app_cons. simpl. now rewrite IH.
Qed.

Lemma digitValue36_digit36 d :
  0 <= d < 36 -> Js.digitValue36 (Js.digit36 d) = Some d.
Proof.
  intros Hd.
  assert (Hcases : exists n : nat, d = Z.of_nat n /\ (n < 36)%nat).
  { exists (Z.to_nat d). lia. }
  destruct Hcases as (n & -> & Hn).
  do 36 (destruct n as [|n]; [reflexivity|]). lia.
Qed.

Lemma parseDigits36_app pre s acc :
  Js.parseDigits36 (pre ++ s) acc =
  match Js.parseDigits36 pre acc with
  | Some v => Js.parseDigits36 s v
  | None => None
  end.
Proof.
  revert acc. induction pre as [|c pre IH]; intros acc; simpl; [reflexivity|].
  destruct (Js.digitValue36 c); [apply IH | reflexivity].
Qed.

(** The digits written in front of [acc] read back as [n]. *)
Lemma digits36_spec fuel : forall n acc,
  0 <= n < 2 ^ Z.of_nat (S fuel) ->
  exists pre,
    Js.digits36 (S fuel) n acc = pre ++ acc /\
    pre <> EmptyString /\
    forall a, Js.parseDigits36 pre a =
              Some (a * 36 ^ Z.of_nat (String.length pre) + n).
Proof.
  induction fuel as [|fuel IH]; intros n acc Hn;
    pose proof (Z.mod_pos_bound n 36 ltac:(lia)) as Hmod;
    pose proof (Z.div_mod n 36 ltac:(lia)) as Hdm;
    cbn [Js.digits36]; destruct (n / 36 =? 0) eqn:Hq.
  1, 3: apply Z.eqb_eq in Hq;
      exists (String (Js.digit36 (n mod 36)) EmptyString);
      (split; [reflexivity|]); (split; [discriminate|]);
      intros a; simpl; rewrite digitValue36_digit36 by lia;
      f_equal; change (36 ^ Z.of_nat 1) with 36; lia.
  - apply Z.eqb_neq in Hq. change (2 ^ Z.of_nat 1) with 2 in Hn.
    rewrite Z.div_small in Hq by lia. congruence.
  - apply Z.eqb_neq in Hq.
    assert (Hn' : 0 <= n / 36 < 2 ^ Z.of_nat (S fuel)).
    { split; [apply Z.div_pos; lia|].
      apply Z.div_lt_upper_bound; [lia|].
      rewrite (Nat2Z.inj_succ (S fuel)), Z.pow_succ_r in Hn by lia. lia. }
    destruct (IH (n / 36) (String (Js.digit36 (n mod 36)) acc) Hn')
      as (pre & Heq & Hne & Hparse).
    exists (pre ++ String (Js.digit36 (n mod 36)) EmptyString).
    split.
    + cbn [Js.digits36] in Heq. rewrite Heq.
      rewrite string_app_assoc. reflexivity.
    + split.
      * destruct pre; [congruence | discriminate].
      * intros a. rewrite parseDigits36_app, Hparse. simpl.
        rewrite digitValue36_digit36 by lia. f_equal.
        rewrite string_length_app. simpl String.length.
        rewrite Nat2Z.inj_add, Z.pow_add_r by lia.
        change (36 ^ Z.of_nat 1) with 36. lia.
Qed.

Lemma parseInt36_toString36 n :
  0 <= n -> Js.parseInt36 (Js.toString36 n) = Some n.
Proof.
  intros Hn. unfold Js.toString36.
  assert (Hbound : 0 <= n < 2 ^ Z.of_nat (S (Z.to_nat (Z.log2 n)))).
  { split; [assumption|].
    destruct (Z.eq_dec n 0) as [->|Hpos]; [reflexivity|].
    rewrite Nat2Z.inj_succ, Z2Nat.id by apply Z.log2_nonneg.
    apply Z.log2_spec. lia. }
  destruct (digits36_spec _ n EmptyString Hbound) as (pre & Heq & Hne & Hparse).
  rewrite Heq, string_app_nil_r.
  unfold Js.parseInt36. destruct pre; [congruence|].
  rewrite Hparse. f_equal; lia.
Qed.

End HashFacts.

(** X25: [_simpleHash] is the polynomial hash with multiplier 31 over the code
    units of the string, reduced to a signed 32-bit integer, its sign
    dropped, written in base 36. *)
Theorem simpleHash_is_polynomial_hash (str : list Z) :
  RequestBuilder._simpleHash str =
  Js.toString36 (Z.abs (Js.toInt32 (polynomial31 str))).
Proof.
  unfold RequestBuilder._simpleHash, polynomial31.
  destruct str as [|char rest]; [reflexivity|].
  cbn [length]. rewrite Nat2Z.inj_succ.
  destruct (Z.succ (Z.of_nat (length rest)) =? 0) eqn:E;
    [apply Z.eqb_eq in E; lia|].
  do 2 f_equal.
  apply (hashLoop_polynomial (char :: rest) 0).
Qed.

(** X26: The hash is a non-empty string of the digits [0-9a-z] without a sign:
    read back in base 36 it is the absolute value of the 32-bit hash, which
    is at most 2^31. *)
Theorem simpleHash_reads_back (str : list Z) :
  Js.parseInt36 (RequestBuilder._simpleHash str) =
    Some (Z.abs (RequestBuilder.hashLoop 0 str)) /\
  0 <= Z.abs (RequestBuilder.hashLoop 0 str) <= 2147483648.
Proof.
  assert (Hrange : -2147483648 <= RequestBuilder.hashLoop 0 str < 2147483648).
  { pose proof (hashLoop_polynomial str 0) as Hp.
    change (Js.toInt32 0) with 0 in Hp. rewrite Hp. apply toInt32_range. }
  split; [|lia].
  unfold RequestBuilder._simpleHash.
  destruct str as [|char rest]; [reflexivity|].
  cbn [length]. rewrite Nat2Z.inj_succ.
  destruct (Z.succ (Z.of_nat (length rest)) =? 0) eqn:E;
    [apply Z.eqb_eq in E; lia|].
  apply parseInt36_toString36. lia.
Qed.

(** ** The request fingerprint *)

Section FingerprintFacts.

Import RequestBuilder.Fingerprint.

Variable buildUrl : JsVal -> Completion string.
Variable stringify : JsVal -> Completion JsVal.

Lemma headerValue_relevant config header :
  In header relevantHeaders ->
  headerValue config header = Js.get (Js.get config "headers") header.
Proof.
  unfold relevantHeaders, headerValue. simpl.
  intros [<-|[<-|[<-|[]]]]; unfold Js.or;
    match goal with |- context [Js.truthy ?v] => destruct (Js.truthy v) end;
    reflexivity.
Qed.

Lemma headerPairs_written config :
  headerPairs config = writtenPairs config.
Proof.
  unfold headerPairs, writtenPairs, pairOf, relevantHeaders.
  cbn [List.filter map].
  rewrite !headerValue_relevant by (simpl; auto).
  destruct (Js.truthy (Js.get (Js.get config "headers") "content-type"));
    destruct (Js.truthy (Js.get (Js.get config "headers") "accept"));
    destruct (Js.truthy (Js.get (Js.get config "headers") "authorization"));
    cbn [List.filter map app sort fold_right insertSorted];
    rewrite ?headerValue_relevant by (simpl; auto);
    reflexivity.
Qed.

End FingerprintFacts.

(** X27: A fingerprint made in the ordinary way (the URL builds, the body
    serialises) reads the method, the URL, the body (for POST, PUT, PATCH
    and DELETE only) and three headers, by their lower-case names [accept],
    [authorization] and [content-type], written in this order; it does not
    depend on the time.  A second request that agrees with the first on
    these has the same fingerprint, whatever other headers the two carry: an
    [Authorization] header written with a capital is such an other
    header. *)
Theorem fingerprint_reads_three_headers
        (buildUrl : JsVal -> Completion string)
        (stringify : JsVal -> Completion JsVal)
        (config config' : JsVal) (cacheKey : string) (now now' : Z) :
  RequestBuilder.Fingerprint.primaryKey buildUrl stringify config
    = Normal cacheKey ->
  buildUrl config' = buildUrl config ->
  Js.get config' "httpMethod" = Js.get config "httpMethod" ->
  (forall header,
     In header ["accept"; "authorization"; "content-type"] ->
     Js.get (Js.get config' "headers") header =
     Js.get (Js.get config "headers") header) ->
  Js.get config' "body" = Js.get config "body" \/
  existsb (fun method => Js.isStr method (Js.get config "httpMethod"))
          RequestBuilder.Fingerprint.methodsWithBody = false ->
  RequestBuilder.Fingerprint.headerPairs config = writtenPairs config /\
  RequestBuilder.Fingerprint._generateCacheKey buildUrl stringify now config
    = Normal cacheKey /\
  RequestBuilder.Fingerprint._generateCacheKey buildUrl stringify now' config'
    = Normal cacheKey.
Proof.
  intros Hkey Hurl Hmethod Hheaders Hbody.
  split; [apply headerPairs_written|].
  assert (Hprimary :
    RequestBuilder.Fingerprint.primaryKey buildUrl stringify config' =
    RequestBuilder.Fingerprint.primaryKey buildUrl stringify config).
  { unfold RequestBuilder.Fingerprint.primaryKey.
    rewrite Hurl, !headerPairs_written.
    assert (Hpairs : writtenPairs config' = writtenPairs config).
    { unfold writtenPairs, pairOf.
      rewrite !Hheaders by (simpl; auto). reflexivity. }
    rewrite Hpairs, Hmethod.
    destruct Hbody as [Hsame | Hnone].
    - rewrite Hsame. reflexivity.
    - rewrite Hnone, !andb_false_r. reflexivity. }
  unfold RequestBuilder.Fingerprint._generateCacheKey.
  rewrite Hprimary, Hkey. split; reflexivity.
Qed.

Lemma fingerprint_reads_three_headers_witness :
  RequestBuilder.Fingerprint._generateCacheKey
    (fun _ => Normal "https://api.example.com/users")
    (fun _ => Normal VUndefined) 0 (requestOf "Bearer alice")
  = Normal "GET::https://api.example.com/users::headers:accept:application/json"
  /\
  RequestBuilder.Fingerprint._generateCacheKey
    (fun _ => Normal "https://api.example.com/users")
    (fun _ => Normal VUndefined) 60000 (requestOf "Bearer bob")
  = Normal "GET::https://api.example.com/users::headers:accept:application/json".
Proof.
  apply (fingerprint_reads_three_headers
           (fun _ => Normal "https://api.example.com/users")
           (fun _ => Normal VUndefined)
           (requestOf "Bearer alice") (requestOf "Bearer bob")
           "GET::https://api.example.com/users::headers:accept:application/json"
           0 60000).
  - reflexivity.
  - reflexivity.
  - reflexivity.
  - intros header [<-|[<-|[<-|[]]]]; reflexivity.
  - left. reflexivity.
Defined.

(** ** Path templates *)

Section PathFacts.

Import RequestBuilder.

Lemma substring_all (s : string) : String.substring 0 (String.length s) s = s.
Proof. induction s as [|c s IH]; simpl; [reflexivity | now rewrite IH]. Qed.

Lemma isParamName_app a b :
  isParamName (a ++ b) = isParamName a && isParamName b.
Proof.
  induction a as [|c a IH]; [reflexivity|].
  rewrite string_app_cons. simpl. rewrite IH. apply andb_assoc.
Qed.

(** A separator ends the match that is open and starts none. *)
Lemma matchParams_separator a b sep current :
  paramChar sep = false ->
  matchParams (a ++ String sep b) current =
  (matchParams a current ++ matchParams b None)%list.
Proof.
  intros Hsep.
  assert (Hcolon : Ascii.eqb sep ":"%char = false).
  { unfold paramChar in Hsep.
    destruct (Ascii.eqb sep ":"%char) eqn:E; [|reflexivity].
    apply Ascii.eqb_eq in E. subst sep. discriminate. }
  revert current. induction a as [|c a IH]; intros current.
  - rewrite string_app_nil_l. simpl. rewrite Hsep, Hcolon.
    destruct current; [reflexivity|reflexivity].
  - rewrite string_app_cons. simpl.
    destruct current as [m|].
    + destruct (paramChar c); [apply IH|].
      rewrite IH. now rewrite app_assoc.
    + destruct (Ascii.eqb c ":"%char); apply IH.
Qed.

(** A match that has been entered takes the whole of a name. *)
Lemma matchParams_name name : forall m,
  isParamName name = true ->
  matchParams name (Some m) = closeMatch (Some (m ++ name)).
Proof.
  induction name as [|c name IH]; intros m Hname; simpl.
  - now rewrite string_app_nil_r.
  - simpl in Hname. apply andb_prop in Hname as [Hc Hname].
    rewrite Hc, IH by assumption.
    rewrite string_app_assoc. reflexivity.
Qed.

(** Every match is a colon followed by a name. *)
Lemma matchParams_shape path : forall current,
  (forall m, current = Some m ->
     exists name, m = String ":"%char name /\ isParamName name = true) ->
  Forall (fun m => exists name,
            m = String ":"%char name /\ name <> EmptyString /\
            isParamName name = true)
         (matchParams path current).
Proof.
  assert (Hclose : forall current,
    (forall m, current = Some m ->
       exists name, m = String ":"%char name /\ isParamName name = true) ->
    Forall (fun m => exists name,
              m = String ":"%char name /\ name <> EmptyString /\
              isParamName name = true)
           (closeMatch current)).
  { intros [m|] Hcur; simpl; [|constructor].
    destruct (Hcur m eq_refl) as (name & -> & Hname).
    destruct name as [|c name]; simpl; constructor; [|constructor].
    exists (String c name). repeat split; [discriminate | assumption]. }
  induction path as [|c path IH]; intros current Hcur; simpl.
  - now apply Hclose.
  - destruct current as [m|].
    + destruct (paramChar c) eqn:Hc.
      * apply IH. intros m' [= <-].
        destruct (Hcur m eq_refl) as (name & -> & Hname).
        exists (name ++ String c EmptyString). split; [reflexivity|].
        rewrite isParamName_app, Hname. simpl. now rewrite Hc.
      * apply Forall_app. split; [now apply Hclose|].
        apply IH. intros m' [=].
    + destruct (Ascii.eqb c ":"%char).
      * apply IH. intros m' [= <-]. exists EmptyString. auto.
      * apply IH. intros m' [=].
Qed.

Lemma matchParams_no_colon path :
  hasColon path = false -> matchParams path None = [].
Proof.
  induction path as [|c path IH]; simpl; intros Hno; [reflexivity|].
  apply orb_false_elim in Hno as [Hc Hno]. rewrite Hc. auto.
Qed.

End PathFacts.

(** X28: [_extractPathParams] reads a path template segment by segment: a
    [/] or a [?] ends a parameter and starts none, so the parameters of
    [a/b] are those of [a] followed by those of [b]; a segment [:name]
    yields [name], a text without colon yields nothing; and no extracted
    name is ever empty or contains a [/] or a [?]. *)
Theorem extractPathParams_by_segment :
  (forall a b sep,
     RequestBuilder.paramChar sep = false ->
     RequestBuilder._extractPathParams (a ++ String sep b) =
     (RequestBuilder._extractPathParams a ++
      RequestBuilder._extractPathParams b)%list) /\
  (forall name,
     name <> EmptyString -> isParamName name = true ->
     RequestBuilder._extractPathParams (String ":"%char name) = [name]) /\
  (forall text,
     hasColon text = false -> RequestBuilder._extractPathParams text = []) /\
  (forall path,
     Forall (fun name => name <> EmptyString /\ isParamName name = true)
            (RequestBuilder._extractPathParams path)).
Proof.
  unfold RequestBuilder._extractPathParams. repeat split.
  - intros a b sep Hsep.
    rewrite matchParams_separator by assumption. apply map_app.
  - intros name Hne Hname. simpl.
    rewrite matchParams_name by assumption.
    destruct name as [|c name]; [congruence|].
    change (":" ++ String c name)%string
      with (String ":"%char (String c name)).
    cbn [RequestBuilder.closeMatch String.length Nat.ltb Nat.leb map String.substring
         Nat.sub].
    do 2 f_equal. apply substring_all.
  - intros text Hno. now rewrite matchParams_no_colon.
  - intros path. apply Forall_map.
    pose proof (matchParams_shape path None) as Hshape.
    eapply Forall_impl; [apply Hshape; intros m [=]|].
    intros m (name & -> & Hne & Hname). simpl.
    rewrite Nat.sub_0_r, substring_all. auto.
Qed.
